(** * Checkstyle core of twitter.checkstyle: source files, nits and plugins

    A shallow embedding of [src/python/twitter/checkstyle/common.py] and
    [src/python/twitter/checkstyle/plugins/indentation.py].

    Python integers are [Z].  A Python [str] is the [string] of its code
    points, one character for each code point, so that [len] counts code
    points; this covers the texts whose code points are below 256.  A dict
    is a [gmap], a raised exception is the [Raise] result, and a generator
    is the list of the values it yields together with the exception that
    ends it, if any.  The interpreter's own library ([tokenize.generate_tokens],
    [ast.parse], [str.splitlines]) is not part of the repository: it is the
    interface [Host]. *)

From Stdlib Require Import ZArith Ascii String List Lia.
From Stdlib Require Import DecimalString DecimalPos.
From stdpp Require Import gmap strings list.
Import ListNotations.
Local Open Scope Z_scope.

(** ** Exceptions and generators *)

Inductive exn : Set :=
  | IndexError | ValueError | TypeError | KeyError | SyntaxError | TokenError.

Inductive result (A : Type) : Type :=
  | Ok (a : A)
  | Raise (e : exn).
Arguments Ok {A} a.
Arguments Raise {A} e.

#[global] Instance result_ret : MRet result := fun A a => Ok a.
#[global] Instance result_bind : MBind result := fun A B f r =>
  match r with
  | Ok a => f a
  | Raise e => Raise e
  end.

(** What a generator produces when it is run to its end: the values
    yielded, in order, and the exception that stopped it ([None] when it
    returned normally). *)
Definition stream (A : Type) : Type := (list A * option exn)%type.

(** [yield v] followed by the rest of the generator body. *)
Definition yield_then {A : Type} (v : A) (rest : stream A) : stream A :=
  (v :: fst rest, snd rest).

(** A generator body that iterates over another generator: the exception
    of the body comes first, the exception of the source is met when the
    body has consumed every value of the source. *)
Definition after_source {A : Type} (body : stream A) (source_exn : option exn)
  : stream A :=
  (fst body, match snd body with Some e => Some e | None => source_exn end).

(** ** Tokens *)

(** The token types of the [tokenize] module. *)
Inductive token_type : Set :=
  | ENDMARKER | NAME | NUMBER | STRING | NEWLINE | INDENT | DEDENT
  | OP | ERRORTOKEN | COMMENT | NL.

#[global] Instance token_type_eq_dec : EqDecision token_type.
Proof. solve_decision. Defined.

(** The first three fields of a token, [token[0:3]]: type, text and start
    position (row, column); rows count physical lines from 1. *)
Record token : Set := Token {
  tok_type : token_type;
  tok_text : string;
  tok_start : Z * Z
}.

Definition tok_line (tk : token) : Z := fst (tok_start tk).

(** The line feed, ['\n']. *)
Definition LF : string := String "010"%char EmptyString.
(** Carriage return and line feed, ['\r\n']. *)
Definition CRLF : string := String "013"%char LF.

(** ** The interpreter's library *)

Class Host : Type := {
  (** the type of syntax trees *)
  ast : Type;
  (** [ast.parse(blob, filename)]; raises [SyntaxError] *)
  ast_parse : string -> string -> result ast;
  (** [tokenize.generate_tokens(StringIO(blob).readline)], run to its end *)
  generate_tokens : string -> stream token;
  (** [blob.splitlines()] *)
  splitlines : string -> list string
}.

(** [str.isspace]: every character is white space and there is at least
    one.  Among the code points below 256 the white space characters are
    the controls 9 to 13 and 28 to 31, the blank 32, the next-line control
    133 (U+0085) and the no-break space 160 (U+00A0). *)
Definition isspace_char (c : ascii) : bool :=
  let n := nat_of_ascii c in
  ((9 <=? n)%nat && (n <=? 13)%nat) || ((28 <=? n)%nat && (n <=? 32)%nat)
  || (n =? 133)%nat || (n =? 160)%nat.

Fixpoint all_space (s : string) : bool :=
  match s with
  | EmptyString => true
  | String c s' => isspace_char c && all_space s'
  end.

Definition isspace (s : string) : bool :=
  match s with
  | EmptyString => false
  | String _ _ => all_space s
  end.

(** [len(s)] *)
Definition len (s : string) : Z := Z.of_nat (String.length s).

(** [filter(None, contents)]: the entries that are true, that is, for
    strings, the non-empty ones. *)
Definition truthy (s : string) : bool :=
  match s with
  | EmptyString => false
  | String _ _ => true
  end.

Definition filter_None (contents : list string) : list string :=
  List.filter truthy contents.

(** [dict(pairs)]: a later pair replaces an earlier one with the same key. *)
Definition dict {V : Type} (pairs : list (Z * V)) : gmap Z V :=
  fold_left (fun m kv => <[fst kv := snd kv]> m) pairs ∅.

(** [l[start:stop]]: a negative bound counts from the end of the list and
    both bounds are clamped to the list; nothing is raised. *)
Definition slice_bound (n bound : Z) : nat :=
  Z.to_nat (if bound <? 0 then Z.max (bound + n) 0 else Z.min bound n).

Definition py_slice {A : Type} (l : list A) (start stop : Z) : list A :=
  let n := Z.of_nat (length l) in
  take (slice_bound n stop - slice_bound n start) (drop (slice_bound n start) l).

(** [enumerate(l, k)] *)
Fixpoint enumerate_from {A : Type} (k : Z) (l : list A) : list (Z * A) :=
  match l with
  | [] => []
  | x :: l' => (k, x) :: enumerate_from (k + 1) l'
  end.

(** [sep.join(items)] on items that are a [str] or [None]: raises
    [TypeError] on [None]. *)
Fixpoint join_lines (sep : string) (items : list (option string))
  : result string :=
  match items with
  | [] => Ok EmptyString
  | None :: _ => Raise TypeError
  | Some s :: [] => Ok s
  | Some s :: rest => r ← join_lines sep rest; mret (s +:+ sep +:+ r)
  end.

(** ** PythonFile *)

Module PythonFile.

Definition SKIP_TOKENS : list token_type := [COMMENT; NL; DEDENT].

  (** [while contents[0] == '\n': start += 1; contents.pop(0)] *)
Fixpoint pop_leading (start : Z) (contents : list string)
    : result (Z * list string) :=
    match contents with
    | [] => Raise IndexError
    | c :: rest =>
        if String.eqb c LF then pop_leading (start + 1) rest
        else Ok (start, contents)
    end.

  (** [while contents[-1] == '\n': end -= 1; contents.pop()], on the list
      read from its last entry backwards. *)
Fixpoint pop_trailing_rev (end_ : Z) (rev_contents : list string)
    : result (Z * list string) :=
    match rev_contents with
    | [] => Raise IndexError
    | c :: rest =>
        if String.eqb c LF then pop_trailing_rev (end_ - 1) rest
        else Ok (end_, rev_contents)
    end.

Definition pop_trailing (end_ : Z) (contents : list string)
    : result (Z * list string) :=
    '(end_, rev_contents) ← pop_trailing_rev end_ (rev contents);
    mret (end_, rev rev_contents).

Definition translate_logical_line (start end_ : Z) (contents : list string)
    : result (Z * Z * Z) :=
    '(start, contents) ← pop_leading start contents;
    '(end_, contents) ← pop_trailing end_ contents;
    match contents with
    | [] => Raise IndexError
    | c0 :: _ => mret (start, end_ + 1, if isspace c0 then len c0 else 0)
    end.

  (** The loop of [iter_logical_lines], from the state [contents],
      [line_number_start] on the tokens still to come. *)
Fixpoint logical_lines_loop (contents : list string)
      (line_number_start : option Z) (tokens : list token)
    : stream (Z * Z * Z) :=
    match tokens with
    | [] => ([], None)
    | tk :: tokens' =>
        let token_type := tok_type tk in
        let token_text := tok_text tk in
        let token_start := tok_start tk in
        if bool_decide (token_type ∈ SKIP_TOKENS) then
          logical_lines_loop contents line_number_start tokens'
        else
          let contents := contents ++ [token_text] in
          match line_number_start with
          | None => logical_lines_loop contents (Some (fst token_start)) tokens'
          | Some start =>
              if bool_decide (token_type ∈ [NEWLINE; ENDMARKER]) then
                match translate_logical_line start
                        (fst token_start
                         + (if bool_decide (token_type = NEWLINE) then 1 else -1))
                        (filter_None contents) with
                | Raise e => ([], Some e)
                | Ok line => yield_then line (logical_lines_loop [] None tokens')
                end
              else logical_lines_loop contents line_number_start tokens'
          end
    end.

Section WithHost.
Context `{Host}.

Definition iter_tokens (blob : string) : stream token :=
      generate_tokens blob.

Definition iter_logical_lines (blob : string) : stream (Z * Z * Z) :=
      let source := iter_tokens blob in
      after_source (logical_lines_loop [] None (fst source)) (snd source).

Record t : Type := {
      _blob : string;
      _tree : ast;
      _lines : list (option string);
      _filename : string;
      _logical_lines : gmap Z (Z * Z * Z)
    }.

Definition __init__ (blob filename : string) : result t :=
      tree ← ast_parse blob filename;
      match iter_logical_lines blob with
      | (_, Some e) => Raise e
      | (lines, None) =>
          mret {| _blob := blob;
                  _tree := tree;
                  _lines := None :: map Some (splitlines blob);
                  _filename := filename;
                  _logical_lines :=
                    dict (map (fun '(start, stop, indent) =>
                                 (start, (start, stop, indent))) lines) |}
      end.

Definition filename (self : t) : string := _filename self.

Definition tokens (self : t) : stream token := iter_tokens (_blob self).

Definition logical_lines (self : t) : gmap Z (Z * Z * Z) :=
      _logical_lines self.

    (** [len(self._lines)] *)
Definition len_lines (self : t) : Z := Z.of_nat (length (_lines self)).

    (** A [slice(start, stop)] is the pair of its bounds. *)
Definition line_range (self : t) (line_number : Z) : result (Z * Z) :=
      if (line_number <=? 0) || (line_number >=? len_lines self) then
        Raise IndexError
      else
        match logical_lines self !! line_number with
        | None => Ok (line_number, line_number + 1)
        | Some (start, stop, _) => Ok (start, stop)
        end.

    (** The number of physical lines, [len(self._lines) - 1]: the lines
        that [__iter__] yields, [self._lines[1:]]. *)
Definition line_count (self : t) : Z := len_lines self - 1.

(** [iter(self._lines[1:])] *)
Definition __iter__ (self : t) : list (option string) :=
  drop 1 (_lines self).

(** [self._lines[self.line_range(line_number)]] *)
Definition __getitem__ (self : t) (line_number : Z)
  : result (list (option string)) :=
  '(start, stop) ← line_range self line_number;
  mret (py_slice (_lines self) start stop).

(** [enumerate(self, 1)] *)
Definition enumerate (self : t) : list (Z * option string) :=
  enumerate_from 1 (__iter__ self).

End WithHost.

End PythonFile.

(** ** String formatting *)

(** ['%d' % z] *)
Definition format_d (z : Z) : string := NilZero.string_of_int (Z.to_int z).

Fixpoint zeros (n : nat) : string :=
  match n with
  | O => EmptyString
  | S n' => String "0"%char (zeros n')
  end.

Fixpoint spaces (n : nat) : string :=
  match n with
  | O => EmptyString
  | S n' => String " "%char (spaces n')
  end.

(** ['%03d' % z]: the sign, then the digits filled with zeros on the left
    up to a total width of 3. *)
Definition format_03d (z : Z) : string :=
  if z <? 0 then
    let digits := format_d (- z) in
    "-" +:+ zeros (2 - String.length digits) +:+ digits
  else
    let digits := format_d z in
    zeros (3 - String.length digits) +:+ digits.

(** ['%-7s' % s] *)
Definition format_ljust7 (s : string) : string :=
  s +:+ spaces (7 - String.length s).

(** The values a sequence handed to [str.join] may hold here. *)
Inductive pyobj : Set :=
  | PyInt (z : Z)
  | PyStr (s : string).

(** [sep.join(items)]: raises [TypeError] on an item that is not a [str]. *)
Fixpoint str_join (sep : string) (items : list pyobj) : result string :=
  match items with
  | [] => Ok EmptyString
  | PyInt _ :: _ => Raise TypeError
  | PyStr s :: [] => Ok s
  | PyStr s :: rest => r ← str_join sep rest; mret (s +:+ sep +:+ r)
  end.

(** ** Nit *)

Module Nit.

Definition COMMENT : Z := 0.
Definition WARNING : Z := 1.
Definition ERROR : Z := 2.

Definition SEVERITY : gmap Z string :=
    {[ COMMENT := "COMMENT"; WARNING := "WARNING"; ERROR := "ERROR" ]}.

  (** Iterating a dict yields its keys. *)
Definition SEVERITY_keys : list pyobj :=
    map (fun kv => PyInt (fst kv)) (map_to_list SEVERITY).

Section WithHost.
Context `{Host}.

Record t : Type := {
      python_file : PythonFile.t;
      _severity : Z;
      _message : string;
      _line_number : option Z
    }.

Definition __init__ (severity : Z) (python_file : PythonFile.t)
        (message : string) (line_number : option Z) : result t :=
      match SEVERITY !! severity with
      | None =>
          (* raise ValueError('Severity should be one of %s'
                              % ' '.join(self.SEVERITY)) *)
          _ ← str_join " " SEVERITY_keys;
          Raise ValueError
      | Some _ =>
          mret {| python_file := python_file;
                  _severity := severity;
                  _message := message;
                  _line_number := line_number |}
      end.

    (** [if self._line_number:] an anchor that is [None] or 0 is false. *)
Definition anchored (line_number : option Z) : option Z :=
      match line_number with
      | Some n => if n =? 0 then None else Some n
      | None => None
      end.

    (** The [line_number] property; [None] when the body falls through. *)
Definition line_number (self : t) : result (option string) :=
      match anchored (_line_number self) with
      | Some n =>
          '(start, stop) ← PythonFile.line_range (python_file self) n;
          if stop - start >? 1 then
            mret (Some (format_03d start +:+ "-" +:+ format_03d (stop - 1)))
          else
            mret (Some (format_03d start))
      | None => mret None
      end.

Definition severity (self : t) : Z := _severity self.

    (** [self.line_number or '*'] *)
Definition line_number_or_star (self : t) : result string :=
      rendered ← line_number self;
      match rendered with
      | Some s => if truthy s then mret s else mret "*"
      | None => mret "*"
      end.

Definition message (self : t) : result string :=
      label ← match SEVERITY !! severity self with
               | Some label => Ok label
               | None => Raise KeyError
               end;
      rendered ← line_number_or_star self;
      mret (format_ljust7 label +:+ " "
            +:+ PythonFile.filename (python_file self) +:+ ":"
            +:+ rendered +:+ " " +:+ _message self).

Definition StyleWarning (python_file : PythonFile.t) (message : string)
        (line_number : option Z) : result t :=
      __init__ WARNING python_file message line_number.

Definition StyleError (python_file : PythonFile.t) (message : string)
        (line_number : option Z) : result t :=
      __init__ ERROR python_file message line_number.

(** [itertools.chain] over the arguments. *)
Definition flatten_lines {A : Type} (line_or_line_list : list (list A))
  : list A :=
  concat line_or_line_list.

(** The [lines] property. *)
Definition lines (self : t) : result (list (option string)) :=
  match anchored (_line_number self) with
  | Some n => PythonFile.__getitem__ (python_file self) n
  | None => mret []
  end.

(** The separator of [__str__]: a line feed, five blanks and a bar. *)
Definition continuation_marker : string := LF +:+ "     |".

Definition __str__ (self : t) : result string :=
  msg ← message self;
  covered ← lines self;
  join_lines continuation_marker (flatten_lines [[Some msg]; covered]).

(** What the code reads of a syntax-tree node: [getattr(node, 'lineno',
    None)]. *)
Record node : Set := { lineno : option Z }.

Definition ASTStyleWarning (python_file : PythonFile.t) (n : node)
    (message : string) : result t :=
  StyleWarning python_file message (lineno n).

Definition ASTStyleError (python_file : PythonFile.t) (n : node)
    (message : string) : result t :=
  StyleError python_file message (lineno n).

End WithHost.

End Nit.

(** ** CheckstylePlugin *)

(** [range(start, stop)] *)
Definition range (start stop : Z) : list Z := seqZ start (stop - start).

Module CheckstylePlugin.

Section WithHost.
Context `{Host}.

Record t : Type := {
      python_file : PythonFile.t;
      _affected_lines : option (list Z)
    }.

    (** The target is a [PythonFile.t] by typing, so the [isinstance] test
        passes; [line_filter], when given, is called once and its result
        made a list. *)
Definition __init__ (python_file : PythonFile.t)
        (line_filter : option (unit -> list Z)) : t :=
      {| python_file := python_file;
         _affected_lines :=
           match line_filter with
           | None => None
           | Some f => Some (f tt)
           end |}.

    (** The loop of [__iter__] over the nits still to come. *)
Fixpoint iter_loop (self : t) (nits : list Nit.t) : stream Nit.t :=
      match nits with
      | [] => ([], None)
      | nit :: nits' =>
          match Nit._line_number nit, _affected_lines self with
          | Some n, Some affected =>
              match PythonFile.line_range (python_file self) n with
              | Raise e => ([], Some e)
              | Ok (start, stop) =>
                  if existsb (fun line => bool_decide (line ∈ affected))
                       (range start stop)
                  then yield_then nit (iter_loop self nits')
                  else iter_loop self nits'
              end
          | _, _ => yield_then nit (iter_loop self nits')
          end
      end.

    (** The abstract method [nits] is the argument [nits]. *)
Definition __iter__ (nits : t -> stream Nit.t) (self : t) : stream Nit.t :=
      let source := nits self in
      after_source (iter_loop self (fst source)) (snd source).

Definition errors (nits : t -> stream Nit.t) (self : t) : stream Nit.t :=
      let source := __iter__ nits self in
      (List.filter (fun nit => Nit.severity nit =? Nit.ERROR) (fst source),
       snd source).

End WithHost.

End CheckstylePlugin.

(** ** The Indentation plugin *)

Module Indentation.

Definition INDENT_LEVEL : Z := 2.

Section WithHost.
Context `{Host}.

    (** The loop of [nits], from the stack [indents] on the tokens still to
        come; the top of the stack is the last entry of the list. *)
Fixpoint nits_loop (self : CheckstylePlugin.t) (indents : list string)
        (tokens : list token) : stream Nit.t :=
      match tokens with
      | [] => ([], None)
      | tk :: tokens' =>
          let token_type := tok_type tk in
          let token_text := tok_text tk in
          let token_start := tok_start tk in
          if bool_decide (token_type = INDENT) then
            let last_indent :=
              match last indents with
              | Some top => len top
              | None => 0
              end in
            let current_indent := len token_text in
            if bool_decide (current_indent - last_indent ≠ INDENT_LEVEL) then
              match Nit.StyleError (CheckstylePlugin.python_file self)
                      ("Indentation of " +:+ format_d (current_indent - last_indent)
                       +:+ " instead of " +:+ format_d INDENT_LEVEL)
                      (Some (fst token_start)) with
              | Raise e => ([], Some e)
              | Ok nit =>
                  yield_then nit
                    (nits_loop self (indents ++ [token_text]) tokens')
              end
            else nits_loop self (indents ++ [token_text]) tokens'
          else if bool_decide (token_type = DEDENT) then
            match indents with
            | [] => ([], Some IndexError)
            | _ :: _ => nits_loop self (removelast indents) tokens'
            end
          else nits_loop self indents tokens'
      end.

Definition nits (self : CheckstylePlugin.t) : stream Nit.t :=
      let source := PythonFile.tokens (CheckstylePlugin.python_file self) in
      after_source (nits_loop self [] (fst source)) (snd source).

End WithHost.

End Indentation.

(** The pairs that [__init__] hands to [dict]. *)
Definition index_pairs (lines : list (Z * Z * Z)) : list (Z * (Z * Z * Z)) :=
  map (fun '(start, stop, indent) => (start, (start, stop, indent))) lines.

(** ** Sample texts

    The values of the interpreter's library on a few texts: the physical
    lines [splitlines] returns and the tokens [generate_tokens] yields. *)

Definition tk (type : token_type) (text : string) (row col : Z) : token :=
  Token type text (row, col).

(** ['x = 1\n'] *)
Definition text_assign : string := "x = 1" +:+ LF.
Definition text_assign_lines : list string := ["x = 1"].
Definition text_assign_tokens : list token :=
  [tk NAME "x" 1 0; tk OP "=" 1 2; tk NUMBER "1" 1 4; tk NEWLINE LF 1 5;
   tk ENDMARKER EmptyString 2 0].

(** ['x = 1\r\ny = 2\r\n'] *)
Definition text_crlf : string := "x = 1" +:+ CRLF +:+ "y = 2" +:+ CRLF.
Definition text_crlf_lines : list string := ["x = 1"; "y = 2"].
Definition text_crlf_tokens : list token :=
  [tk NAME "x" 1 0; tk OP "=" 1 2; tk NUMBER "1" 1 4; tk NEWLINE CRLF 1 5;
   tk NAME "y" 2 0; tk OP "=" 2 2; tk NUMBER "2" 2 4; tk NEWLINE CRLF 2 5;
   tk ENDMARKER EmptyString 3 0].

(** ['x = (1,\n 2)\n'] *)
Definition text_paren : string := "x = (1," +:+ LF +:+ " 2)" +:+ LF.
Definition text_paren_lines : list string := ["x = (1,"; " 2)"].
Definition text_paren_tokens : list token :=
  [tk NAME "x" 1 0; tk OP "=" 1 2; tk OP "(" 1 4; tk NUMBER "1" 1 5;
   tk OP "," 1 6; tk NL LF 1 7;
   tk NUMBER "2" 2 1; tk OP ")" 2 2; tk NEWLINE LF 2 3;
   tk ENDMARKER EmptyString 3 0].

(** ['if x:\n    y\n'] *)
Definition text_indent4 : string := "if x:" +:+ LF +:+ "    y" +:+ LF.
Definition text_indent4_lines : list string := ["if x:"; "    y"].
Definition text_indent4_tokens : list token :=
  [tk NAME "if" 1 0; tk NAME "x" 1 3; tk OP ":" 1 4; tk NEWLINE LF 1 5;
   tk INDENT "    " 2 0; tk NAME "y" 2 4; tk NEWLINE LF 2 5;
   tk DEDENT EmptyString 3 0; tk ENDMARKER EmptyString 3 0].

(** ['if x:\n  y\n  if z:\n    w\n'] *)
Definition text_indent2 : string :=
  "if x:" +:+ LF +:+ "  y" +:+ LF +:+ "  if z:" +:+ LF +:+ "    w" +:+ LF.
Definition text_indent2_lines : list string :=
  ["if x:"; "  y"; "  if z:"; "    w"].
Definition text_indent2_tokens : list token :=
  [tk NAME "if" 1 0; tk NAME "x" 1 3; tk OP ":" 1 4; tk NEWLINE LF 1 5;
   tk INDENT "  " 2 0; tk NAME "y" 2 2; tk NEWLINE LF 2 3;
   tk NAME "if" 3 2; tk NAME "z" 3 5; tk OP ":" 3 6; tk NEWLINE LF 3 7;
   tk INDENT "    " 4 0; tk NAME "w" 4 4; tk NEWLINE LF 4 5;
   tk DEDENT EmptyString 5 0; tk DEDENT EmptyString 5 0;
   tk ENDMARKER EmptyString 5 0].

(** The tokens of the line ['a = 1\n'] at [row]. *)
Definition assign_tokens (row : Z) : list token :=
  [tk NAME "a" row 0; tk OP "=" row 2; tk NUMBER "1" row 4;
   tk NEWLINE LF row 5].

(** The tokens of the three lines ['b = (1,\n 2,\n 3)\n'] from [row] on. *)
Definition bracket_tokens (row : Z) : list token :=
  [tk NAME "b" row 0; tk OP "=" row 2; tk OP "(" row 4; tk NUMBER "1" row 5;
   tk OP "," row 6; tk NL LF row 7;
   tk NUMBER "2" (row + 1) 1; tk OP "," (row + 1) 2; tk NL LF (row + 1) 3;
   tk NUMBER "3" (row + 2) 1; tk OP ")" (row + 2) 2;
   tk NEWLINE LF (row + 2) 3].

Definition bracket_text : string :=
  "b = (1," +:+ LF +:+ " 2," +:+ LF +:+ " 3)" +:+ LF.
Definition bracket_lines : list string := ["b = (1,"; " 2,"; " 3)"].

Fixpoint repeat_text (n : nat) (s : string) : string :=
  match n with
  | O => EmptyString
  | S n' => s +:+ repeat_text n' s
  end.

(** ['a = 1\n' * 8 + 'b = (1,\n 2,\n 3)\n']: eleven lines, the last three
    one statement. *)
Definition text_tail : string :=
  repeat_text 8 ("a = 1" +:+ LF) +:+ bracket_text.
Definition text_tail_lines : list string :=
  repeat "a = 1" 8 ++ bracket_lines.
Definition text_tail_tokens : list token :=
  flat_map assign_tokens (seqZ 1 8) ++ bracket_tokens 9
  ++ [tk ENDMARKER EmptyString 12 0].

(** ['a = 1\n' * 6 + 'b = (1,\n 2,\n 3)\n']: nine lines, the last three one
    statement. *)
Definition text_mid : string :=
  repeat_text 6 ("a = 1" +:+ LF) +:+ bracket_text.
Definition text_mid_lines : list string :=
  repeat "a = 1" 6 ++ bracket_lines.
Definition text_mid_tokens : list token :=
  flat_map assign_tokens (seqZ 1 6) ++ bracket_tokens 7
  ++ [tk ENDMARKER EmptyString 10 0].

(** ['x = 1\n\\\n\n']: a statement, then a line that holds only a
    backslash, continued by an empty line. *)
Definition text_backslash : string :=
  "x = 1" +:+ LF +:+ "\" +:+ LF +:+ LF.
Definition text_backslash_lines : list string := ["x = 1"; "\"; EmptyString].
Definition text_backslash_tokens : list token :=
  [tk NAME "x" 1 0; tk OP "=" 1 2; tk NUMBER "1" 1 4; tk NEWLINE LF 1 5;
   tk NEWLINE LF 3 0; tk ENDMARKER EmptyString 4 0].

Definition sample_table : list (string * (list string * list token)) :=
  [(text_assign, (text_assign_lines, text_assign_tokens));
   (text_crlf, (text_crlf_lines, text_crlf_tokens));
   (text_paren, (text_paren_lines, text_paren_tokens));
   (text_indent4, (text_indent4_lines, text_indent4_tokens));
   (text_indent2, (text_indent2_lines, text_indent2_tokens));
   (text_tail, (text_tail_lines, text_tail_tokens));
   (text_mid, (text_mid_lines, text_mid_tokens));
   (text_backslash, (text_backslash_lines, text_backslash_tokens))].

Definition sample_entry (blob : string) : option (list string * list token) :=
  snd <$> List.find (fun entry => String.eqb (fst entry) blob) sample_table.

(** The interpreter on the sample texts; any other text is refused. *)
Definition sample_host : Host :=
  Build_Host unit
    (fun blob _ =>
       match sample_entry blob with
       | Some _ => Ok tt
       | None => Raise SyntaxError
       end)
    (fun blob =>
       match sample_entry blob with
       | Some (_, tokens) => (tokens, None)
       | None => ([], Some TokenError)
       end)
    (fun blob =>
       match sample_entry blob with
       | Some (lines, _) => lines
       | None => []
       end).

(** The file built from a sample text. *)
Definition sample_file (blob : string) : PythonFile.t (H := sample_host) :=
  match PythonFile.__init__ (H := sample_host) blob "sample.py" with
  | Ok pf => pf
  | Raise _ => @PythonFile.Build_t sample_host blob tt [None] "sample.py" ∅
  end.


(** ** Specification of the affected-line filter *)

(** [kept P l l']: [l'] is [l] restricted to the entries that satisfy [P],
    in the order of [l]. *)
Inductive kept {A : Type} (P : A -> Prop) : list A -> list A -> Prop :=
  | kept_nil : kept P [] []
  | kept_pass (x : A) (l l' : list A) :
      P x -> kept P l l' -> kept P (x :: l) (x :: l')
  | kept_drop (x : A) (l l' : list A) :
      ~ P x -> kept P l l' -> kept P (x :: l) l'.

(** A diagnostic passes the filter of a plugin when it has no anchor, or
    the plugin has no affected-line restriction, or at least one physical
    line of the resolved [line_range] of its anchor is an affected line. *)
Definition passes_filter `{Host} (plugin : CheckstylePlugin.t) (nit : Nit.t)
  : Prop :=
  Nit._line_number nit = None \/
  CheckstylePlugin._affected_lines plugin = None \/
  exists n affected start stop line,
    Nit._line_number nit = Some n /\
    CheckstylePlugin._affected_lines plugin = Some affected /\
    PythonFile.line_range (CheckstylePlugin.python_file plugin) n
    = Ok (start, stop) /\
    start <= line < stop /\
    line ∈ affected.

(** The same for a plugin built by the constructor from a file and an
    optional line filter: the affected lines are what the filter returned
    when the constructor called it. *)
Definition passes_line_filter `{Host} (pf : PythonFile.t)
    (line_filter : option (unit -> list Z)) (nit : Nit.t) : Prop :=
  Nit._line_number nit = None \/
  line_filter = None \/
  exists n f start stop line,
    Nit._line_number nit = Some n /\
    line_filter = Some f /\
    PythonFile.line_range pf n = Ok (start, stop) /\
    start <= line < stop /\
    line ∈ f tt.

(** A style error on a sample file. *)
Definition sample_nit (blob : string) (anchor : option Z)
  : Nit.t (H := sample_host) :=
  @Nit.Build_t sample_host (sample_file blob) Nit.ERROR "nit" anchor.

(** A plugin on the eleven-line sample whose line filter returns line 10,
    and what its [nits] method yields: nits anchored at lines 5, 10 and 9
    (the statement of lines 9 to 11) and a nit without anchor. *)
Definition sample_plugin : CheckstylePlugin.t (H := sample_host) :=
  CheckstylePlugin.__init__ (H := sample_host) (sample_file text_tail)
    (Some (fun _ => [10])).

Definition sample_nits (self : CheckstylePlugin.t (H := sample_host))
  : stream (Nit.t (H := sample_host)) :=
  ([sample_nit text_tail (Some 5); sample_nit text_tail (Some 10);
    sample_nit text_tail (Some 9); sample_nit text_tail None], None).

(** Nits of which the first is anchored beyond the eleven lines of the
    sample: at line 99, without anchor, at line 10. *)
Definition unresolved_nits (self : CheckstylePlugin.t (H := sample_host))
  : stream (Nit.t (H := sample_host)) :=
  ([sample_nit text_tail (Some 99); sample_nit text_tail None;
    sample_nit text_tail (Some 10)], None).

(** ** Specification of the rendered line number *)

(** [s] is a decimal numeral of [z] filled with zeros on the left to
    [width] digits: its digits denote [z], it has at least [width] digits,
    and exactly [width] when [z] fits in [width] digits. *)
Definition zero_padded (width : nat) (z : Z) (s : string) : Prop :=
  (exists d, NilZero.uint_of_string s = Some d /\ Z.of_uint d = z) /\
  (width <= String.length s)%nat /\
  (z < 10 ^ Z.of_nat width -> String.length s = width).

(** ** Specification of the indentation check

    A state machine over the stack of the widths of the open indents, the
    top first.  [indent_steps stack tokens reports]: run from [stack] over
    [tokens], the machine reports [reports], a pair of the line of the
    token and the observed step for every INDENT token whose width is not
    the width on top of the stack (0 when the stack is empty) plus 2. *)

Definition width (tk : token) : Z := len (tok_text tk).

Definition top (stack : list Z) : Z :=
  match stack with
  | [] => 0
  | w :: _ => w
  end.

Inductive indent_steps : list Z -> list token -> list (Z * Z) -> Prop :=
  | steps_end (stack : list Z) : indent_steps stack [] []
  | steps_indent_ok (stack : list Z) (tk : token) (tokens : list token)
      (reports : list (Z * Z)) :
      tok_type tk = INDENT ->
      width tk - top stack = 2 ->
      indent_steps (width tk :: stack) tokens reports ->
      indent_steps stack (tk :: tokens) reports
  | steps_indent_bad (stack : list Z) (tk : token) (tokens : list token)
      (reports : list (Z * Z)) :
      tok_type tk = INDENT ->
      width tk - top stack <> 2 ->
      indent_steps (width tk :: stack) tokens reports ->
      indent_steps stack (tk :: tokens)
        ((tok_line tk, width tk - top stack) :: reports)
  | steps_dedent (w : Z) (stack : list Z) (tk : token) (tokens : list token)
      (reports : list (Z * Z)) :
      tok_type tk = DEDENT ->
      indent_steps stack tokens reports ->
      indent_steps (w :: stack) (tk :: tokens) reports
  | steps_other (stack : list Z) (tk : token) (tokens : list token)
      (reports : list (Z * Z)) :
      tok_type tk <> INDENT ->
      tok_type tk <> DEDENT ->
      indent_steps stack tokens reports ->
      indent_steps stack (tk :: tokens) reports.

(** The error diagnostic for a report: anchored at the line of the token,
    its message gives the observed step and the expected one. *)
Definition indentation_error `{Host} (python_file : PythonFile.t)
    (report : Z * Z) : Nit.t :=
  {| Nit.python_file := python_file;
     Nit._severity := Nit.ERROR;
     Nit._message :=
       "Indentation of " +:+ format_d (snd report) +:+ " instead of 2";
     Nit._line_number := Some (fst report) |}.

(** Tokens indented in steps of two columns throughout: at nesting depth
    [depth], an INDENT token is [2 * (depth + 1)] characters wide. *)
Inductive two_space_steps : nat -> list token -> Prop :=
  | two_end (depth : nat) : two_space_steps depth []
  | two_indent (depth : nat) (tk : token) (tokens : list token) :
      tok_type tk = INDENT ->
      width tk = 2 * (Z.of_nat depth + 1) ->
      two_space_steps (S depth) tokens ->
      two_space_steps depth (tk :: tokens)
  | two_dedent (depth : nat) (tk : token) (tokens : list token) :
      tok_type tk = DEDENT ->
      two_space_steps depth tokens ->
      two_space_steps (S depth) (tk :: tokens)
  | two_other (depth : nat) (tk : token) (tokens : list token) :
      tok_type tk <> INDENT ->
      tok_type tk <> DEDENT ->
      two_space_steps depth tokens ->
      two_space_steps depth (tk :: tokens).

(** The widths on the stack at nesting depth [depth] of such a text. *)
Fixpoint even_stack (depth : nat) : list Z :=
  match depth with
  | O => []
  | S depth' => 2 * Z.of_nat depth :: even_stack depth'
  end.

(** Derivations of the two relations on concrete tokens. *)
Ltac run_steps :=
  repeat first
    [ apply steps_end
    | apply steps_other; [discriminate | discriminate |]
    | apply steps_dedent; [reflexivity |]
    | apply steps_indent_ok; [reflexivity | reflexivity |] ].

Ltac run_two_space :=
  repeat first
    [ apply two_end
    | apply two_other; [discriminate | discriminate |]
    | apply two_dedent; [reflexivity |]
    | apply two_indent; [reflexivity | reflexivity |] ].

(** The indentation plugin on a sample text, without line filter. *)
Definition sample_indentation (blob : string)
  : CheckstylePlugin.t (H := sample_host) :=
  CheckstylePlugin.__init__ (H := sample_host) (sample_file blob) None.

(** ** Token streams of texts whose lines end in a line feed

    What the index builder relies on in the tokens it does not skip: a
    NEWLINE token, and no other, has the text ['\n']; the ENDMARKER token
    has the empty text; rows lie in the file, the row of the ENDMARKER at
    most one past its last line; rows never decrease, they increase after
    a NEWLINE token and before the ENDMARKER token. *)

Definition significant (tk : token) : bool :=
  negb (bool_decide (tok_type tk ∈ PythonFile.SKIP_TOKENS)).

Definition terminator (tk : token) : bool :=
  bool_decide (tok_type tk ∈ [NEWLINE; ENDMARKER]).

Definition lf_token (count : Z) (tk : token) : bool :=
  (1 <=? tok_line tk) &&
  match tok_type tk with
  | NEWLINE => String.eqb (tok_text tk) LF && (tok_line tk <=? count)
  | ENDMARKER =>
      String.eqb (tok_text tk) EmptyString && (tok_line tk <=? count + 1)
  | _ => negb (String.eqb (tok_text tk) LF) && (tok_line tk <=? count)
  end.

Definition precedes (a b : token) : bool :=
  if bool_decide (tok_type a = NEWLINE) || bool_decide (tok_type b = ENDMARKER)
  then tok_line a <? tok_line b
  else tok_line a <=? tok_line b.

Fixpoint rows_ordered (tokens : list token) : bool :=
  match tokens with
  | [] => true
  | a :: rest => forallb (precedes a) rest && rows_ordered rest
  end.

Definition lf_stream (count : Z) (tokens : list token) : bool :=
  let tokens := List.filter significant tokens in
  forallb (lf_token count) tokens && rows_ordered tokens.

(** Spans in ascending order from [low] on, none empty, none overlapping
    the next, none beyond line [count]. *)
Fixpoint spans_ok (count low : Z) (lines : list (Z * Z * Z)) : Prop :=
  match lines with
  | [] => True
  | (start, stop, _) :: lines' =>
      low <= start /\ start < stop /\ stop <= count + 1 /\
      spans_ok count stop lines'
  end.

(** ** Coverage of the physical lines *)

(** The span of a logical line. *)
Definition span_of (line : Z * Z * Z) : Z * Z :=
  (fst (fst line), snd (fst line)).

(** The spans that cover the physical lines of a file: the logical lines
    the index builder produced, and the single-line span of every line
    that is not a key of the index. *)
Definition cover `{Host} (blob : string) (pf : PythonFile.t) : list (Z * Z) :=
  map span_of (fst (PythonFile.iter_logical_lines blob))
  ++ flat_map (fun n => match PythonFile.logical_lines pf !! n with
                        | None => [(n, n + 1)]
                        | Some _ => []
                        end)
       (seqZ 1 (PythonFile.line_count pf)).

Definition covers (n : Z) (span : Z * Z) : bool :=
  (fst span <=? n) && (n <? snd span).

(** How many of the spans contain line [n]. *)
Definition times_covered (n : Z) (spans : list (Z * Z)) : nat :=
  length (List.filter (covers n) spans).

(** Line [n] is a continuation line: it lies inside a logical line, after
    the first line of it. *)
Definition continuation (lines : list (Z * Z * Z)) (n : Z) : Prop :=
  exists start stop indent,
    In (start, stop, indent) lines /\ start < n < stop.

(** ** Leading and trailing line feeds of a buffer *)

Definition not_LF (c : string) : bool := negb (String.eqb c LF).

(** The number of entries equal to ['\n'] at the head of [contents]. *)
Fixpoint leading_LF (contents : list string) : nat :=
  match contents with
  | [] => O
  | c :: rest => if String.eqb c LF then S (leading_LF rest) else O
  end.

(** The number of entries equal to ['\n'] at the end of [contents]. *)
Definition trailing_LF (contents : list string) : nat :=
  leading_LF (rev contents).

(** ** Specification of the string form of a diagnostic *)

(** Every covered line on a row of its own, after the continuation
    marker. *)
Fixpoint prefixed_lines (rows : list string) : string :=
  match rows with
  | [] => EmptyString
  | row :: rows' => Nit.continuation_marker +:+ row +:+ prefixed_lines rows'
  end.

(** ** Counting INDENT and DEDENT tokens *)

Definition count_type (type : token_type) (tokens : list token) : nat :=
  length (List.filter (fun t => bool_decide (tok_type t = type)) tokens).

(** A diagnostic without anchor. *)
Definition unanchored `{Host} (nit : Nit.t) : bool :=
  match Nit._line_number nit with
  | None => true
  | Some _ => false
  end.

(** ** The runs of tokens behind the logical lines *)

(** A run of tokens: the token that begins a buffer, the tokens buffered
    after it, and the token that closes the buffer. *)
Definition run : Type := (token * list token * token)%type.



(** From the row of the first token, or the row after it when the first
    token is a NEWLINE token, to the row after the closing NEWLINE token,
    or to the row of the closing ENDMARKER token. *)
Definition run_span (r : run) : Z * Z :=
  let '(first, more, last) := r in
  (tok_line first + (if bool_decide (tok_type first = NEWLINE) then 1 else 0),
   tok_line last + (if bool_decide (tok_type last = NEWLINE) then 1 else 0)).

(** The tokens of ['\xa0x\n'], a text that begins with a no-break space. *)
Definition nbsp_tokens : list token :=
  [Token ERRORTOKEN (String (ascii_of_nat 160) EmptyString) (1, 0);
   Token NAME "x" (1, 1);
   Token NEWLINE LF (1, 2);
   Token ENDMARKER EmptyString (2, 0)].

(** ** Token streams on which the index builder does not fail *)

(** The text of the token counts in a buffer: it is neither empty nor
    ['\n']. *)
Definition body_text (t : token) : bool :=
  truthy (tok_text t) && not_LF (tok_text t).

(** Every NEWLINE or ENDMARKER token that has a predecessor comes right
    after a token whose text counts, or right after a NEWLINE or ENDMARKER
    token that itself comes right after such a token.  [before] tells
    whether the text of the token before [prev] counts. *)
Fixpoint closes_well (before : bool) (prev : option token)
    (tokens : list token) : bool :=
  match tokens with
  | [] => true
  | t :: rest =>
      (if terminator t then
         match prev with
         | None => true
         | Some p => body_text p || (terminator p && before)
         end
       else true)
      && closes_well (match prev with
                      | Some p => body_text p
                      | None => false
                      end) (Some t) rest
  end.

(** The text of a NEWLINE or ENDMARKER token does not count. *)
Definition plain_terminators (tokens : list token) : bool :=
  forallb (fun t => negb (terminator t) || negb (body_text t)) tokens.

(** * Properties *)

(** ** Results and dicts *)

Lemma bind_Ok {A B : Type} (r : result A) (f : A -> result B) (b : B) :
  (r ≫= f) = Ok b -> exists a, r = Ok a /\ f a = Ok b.
Proof.
  destruct r as [a|e]; simpl; intros Hb.
  - exists a. split; [reflexivity | exact Hb].
  - discriminate Hb.
Qed.

Lemma dict_fold_lookup_Some {V : Type} (pairs : list (Z * V)) (m : gmap Z V)
    (k : Z) (v : V) :
  fold_left (fun m kv => <[fst kv := snd kv]> m) pairs m !! k = Some v ->
  (k, v) ∈ pairs \/ m !! k = Some v.
Proof.
  revert m. induction pairs as [|[k' v'] pairs IH]; intros m; simpl.
  - intros Hm. right. exact Hm.
  - intros Hm. destruct (IH _ Hm) as [Hin | Hlook].
    + left. apply elem_of_cons. right. exact Hin.
    + apply lookup_insert_Some in Hlook as [[-> ->] | [_ Hlook]].
      * left. apply elem_of_cons. left. reflexivity.
      * right. exact Hlook.
Qed.

Lemma dict_fold_lookup_None {V : Type} (pairs : list (Z * V)) (m : gmap Z V)
    (k : Z) :
  fold_left (fun m kv => <[fst kv := snd kv]> m) pairs m !! k = None <->
  m !! k = None /\ forall v, (k, v) ∉ pairs.
Proof.
  revert m. induction pairs as [|[k' v'] pairs IH]; intros m; simpl.
  - split; [intros Hm; split; [exact Hm | intros v Hin; inversion Hin] | tauto].
  - rewrite IH, lookup_insert_None. split.
    + intros [[Hm Hne] Hnot]. split; [exact Hm |].
      intros v [Heq | Hin]%elem_of_cons; [congruence | exact (Hnot v Hin)].
    + intros [Hm Hnot]. split; [split; [exact Hm |] |].
      * intros ->. apply (Hnot v'). apply elem_of_cons. left. reflexivity.
      * intros v Hin. apply (Hnot v). apply elem_of_cons. right. exact Hin.
Qed.

Lemma dict_lookup_Some {V : Type} (pairs : list (Z * V)) (k : Z) (v : V) :
  dict pairs !! k = Some v -> (k, v) ∈ pairs.
Proof.
  intros Hk. destruct (dict_fold_lookup_Some _ _ _ _ Hk) as [Hin | Hempty].
  - exact Hin.
  - rewrite lookup_empty in Hempty. discriminate Hempty.
Qed.

Lemma dict_lookup_None {V : Type} (pairs : list (Z * V)) (k : Z) :
  dict pairs !! k = None <-> forall v, (k, v) ∉ pairs.
Proof.
  unfold dict. rewrite dict_fold_lookup_None, lookup_empty. tauto.
Qed.

Lemma elem_of_index_pairs (lines : list (Z * Z * Z)) (k : Z) (v : Z * Z * Z) :
  (k, v) ∈ index_pairs lines <-> v ∈ lines /\ fst (fst v) = k.
Proof.
  unfold index_pairs. rewrite !list_elem_of_In, in_map_iff. split.
  - intros [[[s e] i] [Heq Hin]]. inversion Heq; subst.
    split; [exact Hin | reflexivity].
  - intros [Hin <-]. exists v. destruct v as [[s e] i].
    split; [reflexivity | exact Hin].
Qed.

Section Facts.
Context `{Host}.

(** ** Construction of a file *)

Lemma init_Ok (blob filename : string) (pf : PythonFile.t) :
  PythonFile.__init__ blob filename = Ok pf ->
  exists tree lines,
    ast_parse blob filename = Ok tree /\
    PythonFile.iter_logical_lines blob = (lines, None) /\
    pf = {| PythonFile._blob := blob;
            PythonFile._tree := tree;
            PythonFile._lines := None :: map Some (splitlines blob);
            PythonFile._filename := filename;
            PythonFile._logical_lines := dict (index_pairs lines) |}.
Proof.
  unfold PythonFile.__init__. intros Hinit.
  apply bind_Ok in Hinit as (tree & Htree & Hrest).
  destruct (PythonFile.iter_logical_lines blob) as [lines [e|]] eqn:Hlines.
  - discriminate Hrest.
  - exists tree, lines. split; [exact Htree |]. split; [reflexivity |].
    inversion Hrest. reflexivity.
Qed.

Lemma init_line_count (blob filename : string) (pf : PythonFile.t) :
  PythonFile.__init__ blob filename = Ok pf ->
  PythonFile.line_count pf = Z.of_nat (length (splitlines blob)).
Proof.
  intros (tree & lines & _ & _ & ->)%init_Ok.
  unfold PythonFile.line_count, PythonFile.len_lines. simpl.
  rewrite length_map. lia.
Qed.

Lemma init_index (blob filename : string) (pf : PythonFile.t) :
  PythonFile.__init__ blob filename = Ok pf ->
  PythonFile.logical_lines pf
  = dict (index_pairs (fst (PythonFile.iter_logical_lines blob))).
Proof.
  intros (tree & lines & _ & Hlines & ->)%init_Ok.
  rewrite Hlines. reflexivity.
Qed.

Lemma line_range_raises (pf : PythonFile.t) (n : Z) :
  n <= 0 \/ n > PythonFile.line_count pf ->
  PythonFile.line_range pf n = Raise IndexError.
Proof.
  unfold PythonFile.line_range, PythonFile.line_count. intros Hout.
  destruct (n <=? 0) eqn:Hlow; [reflexivity |].
  destruct (n >=? PythonFile.len_lines pf) eqn:Hhigh; [reflexivity |].
  lia.
Qed.

Lemma line_range_in_range (pf : PythonFile.t) (n : Z) :
  1 <= n <= PythonFile.line_count pf ->
  PythonFile.line_range pf n
  = match PythonFile.logical_lines pf !! n with
    | None => Ok (n, n + 1)
    | Some (start, stop, _) => Ok (start, stop)
    end.
Proof.
  unfold PythonFile.line_range, PythonFile.line_count. intros Hin.
  destruct (n <=? 0) eqn:Hlow; [lia |].
  destruct (n >=? PythonFile.len_lines pf) eqn:Hhigh; [lia |].
  reflexivity.
Qed.

Lemma line_range_Ok_in_range (pf : PythonFile.t) (n : Z) (span : Z * Z) :
  PythonFile.line_range pf n = Ok span -> 1 <= n <= PythonFile.line_count pf.
Proof.
  intros Hspan.
  destruct (decide (1 <= n <= PythonFile.line_count pf)) as [Hin | Hout];
    [exact Hin |].
  rewrite line_range_raises in Hspan by lia. discriminate Hspan.
Qed.

End Facts.


Section LineRange.
Context `{Host}.

(** C2: [line_range n] raises [IndexError] exactly when [n <= 0] or [n] is
    beyond the number of physical lines of the text; an argument out of
    range is never answered with a span; for [n] in range, when a logical
    line produced by the index builder starts at [n] the answer is the span
    [(n, stop)] of such a logical line, and when none starts at [n] the
    answer is the single-line span [(n, n + 1)]. *)
Theorem line_range_spec (blob filename : string) (pf : PythonFile.t) (n : Z) :
  PythonFile.__init__ blob filename = Ok pf ->
  (PythonFile.line_range pf n = Raise IndexError
   <-> n <= 0 \/ Z.of_nat (length (splitlines blob)) < n) /\
  (n <= 0 \/ Z.of_nat (length (splitlines blob)) < n ->
   forall span, PythonFile.line_range pf n <> Ok span) /\
  (1 <= n <= Z.of_nat (length (splitlines blob)) ->
   ((exists stop indent,
       (n, stop, indent) ∈ fst (PythonFile.iter_logical_lines blob)) ->
    exists stop indent,
      (n, stop, indent) ∈ fst (PythonFile.iter_logical_lines blob) /\
      PythonFile.logical_lines pf !! n = Some (n, stop, indent) /\
      PythonFile.line_range pf n = Ok (n, stop)) /\
   ((forall stop indent,
       (n, stop, indent) ∉ fst (PythonFile.iter_logical_lines blob)) ->
    PythonFile.line_range pf n = Ok (n, n + 1))).
Proof.
  intros Hinit.
  pose proof (init_line_count _ _ _ Hinit) as Hcount.
  pose proof (init_index _ _ _ Hinit) as Hindex.
  assert (Hraise : n <= 0 \/ Z.of_nat (length (splitlines blob)) < n ->
                   PythonFile.line_range pf n = Raise IndexError).
  { intros Hout. apply line_range_raises. lia. }
  split; [| split].
  - split; [| exact Hraise].
    intros Herr.
    destruct (decide (1 <= n <= PythonFile.line_count pf)) as [Hin | Hout];
      [| lia].
    rewrite line_range_in_range in Herr by exact Hin.
    destruct (PythonFile.logical_lines pf !! n) as [[[s e] i]|];
      discriminate Herr.
  - intros Hout span Hspan. rewrite (Hraise Hout) in Hspan. discriminate Hspan.
  - intros Hin. rewrite line_range_in_range by lia. split.
    + intros (stop & indent & Hknown).
      destruct (PythonFile.logical_lines pf !! n) as [[[s e] i]|] eqn:Hlook.
      * rewrite Hindex in Hlook. apply dict_lookup_Some in Hlook.
        apply elem_of_index_pairs in Hlook as [Hmem Hstart].
        simpl in Hstart. subst s. exists e, i. auto.
      * rewrite Hindex in Hlook.
        exfalso. apply (proj1 (dict_lookup_None _ _) Hlook (n, stop, indent)).
        apply elem_of_index_pairs. split; [exact Hknown | reflexivity].
    + intros Hunknown.
      destruct (PythonFile.logical_lines pf !! n) as [[[s e] i]|] eqn:Hlook;
        [| reflexivity].
      rewrite Hindex in Hlook. apply dict_lookup_Some in Hlook.
      apply elem_of_index_pairs in Hlook as [Hmem Hstart].
      simpl in Hstart. subst s. exfalso. exact (Hunknown _ _ Hmem).
Qed.


End LineRange.

Lemma line_range_spec_witness :
  PythonFile.__init__ (H := sample_host) text_paren "sample.py"
  = Ok (sample_file text_paren) /\
  PythonFile.line_range (sample_file text_paren) 3 = Raise IndexError /\
  (exists stop indent,
     (1, stop, indent)
       ∈ fst (PythonFile.iter_logical_lines (H := sample_host) text_paren) /\
     PythonFile.logical_lines (sample_file text_paren) !! 1
     = Some (1, stop, indent) /\
     PythonFile.line_range (sample_file text_paren) 1 = Ok (1, stop)) /\
  PythonFile.line_range (sample_file text_paren) 2 = Ok (2, 3).
Proof.
  assert (Hinit : PythonFile.__init__ (H := sample_host) text_paren "sample.py"
                  = Ok (sample_file text_paren)) by (vm_compute; reflexivity).
  split; [exact Hinit |]. split; [| split].
  - apply (line_range_spec (H := sample_host) text_paren "sample.py"
             (sample_file text_paren) 3 Hinit).
    right. vm_compute. reflexivity.
  - apply (line_range_spec (H := sample_host) text_paren "sample.py"
             (sample_file text_paren) 1 Hinit).
    + vm_compute. split; discriminate.
    + exists 3, 0. vm_compute. apply list_elem_of_here.
  - apply (line_range_spec (H := sample_host) text_paren "sample.py"
             (sample_file text_paren) 2 Hinit).
    + vm_compute. split; discriminate.
    + intros stop indent Hin. vm_compute in Hin.
      apply list_elem_of_singleton in Hin. discriminate Hin.
Defined.


(** ** Nit construction *)

Lemma SEVERITY_lookup (severity : Z) :
  Nit.SEVERITY !! severity
  = if decide (severity = 0) then Some "COMMENT"
    else if decide (severity = 1) then Some "WARNING"
    else if decide (severity = 2) then Some "ERROR"
    else None.
Proof.
  unfold Nit.SEVERITY, Nit.COMMENT, Nit.WARNING, Nit.ERROR.
  repeat case_decide; subst; simplify_map_eq; reflexivity.
Qed.

Lemma SEVERITY_join_raises : str_join " " Nit.SEVERITY_keys = Raise TypeError.
Proof. vm_compute. reflexivity. Qed.

(** C5: constructing a nit succeeds, and stores the severity, the file, the
    message and the anchor, exactly when the severity is one of 0 (comment),
    1 (warning) and 2 (error); for every other severity the construction
    fails, and the exception that reaches the caller is the [TypeError] of
    [' '.join] over the integer keys of [SEVERITY], not the [ValueError]
    whose message was being built. *)
Theorem nit_init_severity `{Host} (severity : Z) (python_file : PythonFile.t)
    (message : string) (line_number : option Z) :
  match Nit.__init__ severity python_file message line_number with
  | Ok nit =>
      (severity = Nit.COMMENT \/ severity = Nit.WARNING
       \/ severity = Nit.ERROR) /\
      nit = {| Nit.python_file := python_file;
               Nit._severity := severity;
               Nit._message := message;
               Nit._line_number := line_number |}
  | Raise e =>
      ~ (severity = Nit.COMMENT \/ severity = Nit.WARNING
         \/ severity = Nit.ERROR) /\
      e = TypeError
  end.
Proof.
  unfold Nit.__init__, Nit.COMMENT, Nit.WARNING, Nit.ERROR.
  rewrite SEVERITY_lookup, SEVERITY_join_raises.
  repeat case_decide; simpl; (split; [lia | reflexivity]).
Qed.

(** ** The affected-line filter *)

Section Filter.
Context `{Host}.

Lemma line_range_total (pf : PythonFile.t) (n : Z) :
  1 <= n <= PythonFile.line_count pf ->
  exists start stop, PythonFile.line_range pf n = Ok (start, stop).
Proof.
  intros Hin. rewrite line_range_in_range by exact Hin.
  destruct (PythonFile.logical_lines pf !! n) as [[[s e] i]|]; eauto.
Qed.

Lemma any_affected_spec (affected : list Z) (start stop : Z) :
  existsb (fun line => bool_decide (line ∈ affected)) (range start stop) = true
  <-> exists line, start <= line < stop /\ line ∈ affected.
Proof.
  unfold range. rewrite existsb_exists. split.
  - intros (line & Hin & Hdec).
    apply list_elem_of_In, elem_of_seqZ in Hin.
    apply bool_decide_eq_true in Hdec.
    exists line. split; [lia | exact Hdec].
  - intros (line & Hin & Haff). exists line. split.
    + apply list_elem_of_In, elem_of_seqZ. lia.
    + apply bool_decide_eq_true. exact Haff.
Qed.

Lemma iter_loop_kept (self : CheckstylePlugin.t) (nits : list Nit.t) :
  (forall nit n,
     nit ∈ nits ->
     Nit._line_number nit = Some n ->
     is_Some (CheckstylePlugin._affected_lines self) ->
     1 <= n <= PythonFile.line_count (CheckstylePlugin.python_file self)) ->
  kept (passes_filter self) nits (fst (CheckstylePlugin.iter_loop self nits)) /\
  snd (CheckstylePlugin.iter_loop self nits) = None.
Proof.
  induction nits as [|nit nits IH]; intros Hres; simpl.
  - split; [constructor | reflexivity].
  - destruct IH as [IHkept IHexn].
    { intros nit' n Hin. apply Hres. apply elem_of_cons. right. exact Hin. }
    destruct (Nit._line_number nit) as [n|] eqn:Hanchor.
    2: { split; [| exact IHexn]. apply kept_pass; [| exact IHkept].
         left. exact Hanchor. }
    destruct (CheckstylePlugin._affected_lines self) as [affected|] eqn:Haff.
    2: { split; [| exact IHexn]. apply kept_pass; [| exact IHkept].
         right. left. exact Haff. }
    destruct (line_range_total (CheckstylePlugin.python_file self) n)
      as (start & stop & Hrange).
    { apply (Hres nit n); [apply elem_of_cons; left; reflexivity
                          | exact Hanchor | eexists; reflexivity]. }
    rewrite Hrange.
    destruct (existsb _ (range start stop)) eqn:Hany; simpl.
    + split; [| exact IHexn]. apply kept_pass; [| exact IHkept].
      apply any_affected_spec in Hany as (line & Hline & Hin).
      right. right. exists n, affected, start, stop, line. auto.
    + split; [| exact IHexn]. apply kept_drop; [| exact IHkept].
      intros [Hnone | [Hnone | Hsome]]; [congruence | congruence |].
      destruct Hsome as (n' & aff' & s' & e' & line & Hn & Ha & Hr & Hl & Hin).
      assert (n' = n) by congruence. assert (aff' = affected) by congruence.
      subst. rewrite Hrange in Hr. inversion Hr; subst.
      assert (Htrue : existsb (fun line => bool_decide (line ∈ affected))
                        (range s' e') = true).
      { apply any_affected_spec. exists line. auto. }
      congruence.
Qed.

Lemma kept_iff {A : Type} (P Q : A -> Prop) (l l' : list A) :
  (forall x, P x <-> Q x) -> kept P l l' -> kept Q l l'.
Proof.
  intros Hiff Hkept. induction Hkept as [|x l l' Hx _ IH|x l l' Hx _ IH].
  - constructor.
  - apply kept_pass; [apply Hiff; exact Hx | exact IH].
  - apply kept_drop; [rewrite <- Hiff; exact Hx | exact IH].
Qed.

Lemma passes_filter_init (pf : PythonFile.t)
    (line_filter : option (unit -> list Z)) (nit : Nit.t) :
  passes_filter (CheckstylePlugin.__init__ pf line_filter) nit
  <-> passes_line_filter pf line_filter nit.
Proof.
  unfold passes_filter, passes_line_filter. simpl.
  destruct line_filter as [f|].
  - split.
    + intros [Hnone | [Hnone | Hsome]];
        [left; exact Hnone | discriminate Hnone |].
      destruct Hsome as (n & aff & start & stop & line & ? & Haff & ? & ? & ?).
      inversion Haff; subst aff.
      right. right. exists n, f, start, stop, line. auto.
    + intros [Hnone | [Hnone | Hsome]];
        [left; exact Hnone | discriminate Hnone |].
      destruct Hsome as (n & f' & start & stop & line & ? & Hf & ? & ? & ?).
      inversion Hf; subst f'.
      right. right. exists n, (f tt), start, stop, line. auto.
  - split; intros _; right; left; reflexivity.
Qed.

(** C6, amended: for a plugin built by the constructor from a file and an
    optional line filter, provided that, when a line filter was given,
    every anchor of a diagnostic of [nits()] is a line of the file,
    iterating the plugin yields, in the order of [nits()], exactly the diagnostics that
    pass the affected-line filter: those without anchor, all of them when
    no line filter was given, and otherwise those with at least one
    physical line of the resolved [line_range] of their anchor among the
    lines the filter returned to the constructor.  The iteration ends as
    [nits()] ends. *)
Theorem plugin_iter_filters (nits : CheckstylePlugin.t -> stream Nit.t)
    (pf : PythonFile.t) (line_filter : option (unit -> list Z)) :
  (forall nit n,
     nit ∈ fst (nits (CheckstylePlugin.__init__ pf line_filter)) ->
     Nit._line_number nit = Some n ->
     is_Some line_filter ->
     1 <= n <= PythonFile.line_count pf) ->
  kept (passes_line_filter pf line_filter)
    (fst (nits (CheckstylePlugin.__init__ pf line_filter)))
    (fst (CheckstylePlugin.__iter__ nits
            (CheckstylePlugin.__init__ pf line_filter))) /\
  snd (CheckstylePlugin.__iter__ nits
         (CheckstylePlugin.__init__ pf line_filter))
  = snd (nits (CheckstylePlugin.__init__ pf line_filter)).
Proof.
  intros Hres. unfold CheckstylePlugin.__iter__, after_source. cbn [fst snd].
  destruct (iter_loop_kept (CheckstylePlugin.__init__ pf line_filter)
              (fst (nits (CheckstylePlugin.__init__ pf line_filter))))
    as [Hkept Hexn].
  { intros nit n Hin Hanchor Hsome. apply (Hres nit n Hin Hanchor).
    destruct line_filter as [f|]; [eexists; reflexivity |].
    simpl in Hsome. destruct Hsome as [x Hx]. discriminate Hx. }
  rewrite Hexn. split; [| reflexivity].
  apply (kept_iff (passes_filter (CheckstylePlugin.__init__ pf line_filter)));
    [| exact Hkept].
  intros nit. apply passes_filter_init.
Qed.

(** An anchor out of the file stops the iteration with [IndexError] when a
    restriction is active. *)
Lemma iter_loop_unresolved (self : CheckstylePlugin.t) (nit : Nit.t)
    (nits : list Nit.t) (n : Z) (affected : list Z) :
  Nit._line_number nit = Some n ->
  CheckstylePlugin._affected_lines self = Some affected ->
  n <= 0 \/ n > PythonFile.line_count (CheckstylePlugin.python_file self) ->
  CheckstylePlugin.iter_loop self (nit :: nits) = ([], Some IndexError).
Proof.
  intros Hanchor Haff Hout. simpl.
  rewrite Hanchor, Haff, (line_range_raises _ _ Hout). reflexivity.
Qed.

End Filter.

Lemma plugin_iter_filters_witness :
  kept (passes_line_filter (sample_file text_tail) (Some (fun _ => [10])))
    (fst (sample_nits
            (CheckstylePlugin.__init__ (H := sample_host)
               (sample_file text_tail) (Some (fun _ => [10])))))
    (fst (CheckstylePlugin.__iter__ sample_nits
            (CheckstylePlugin.__init__ (H := sample_host)
               (sample_file text_tail) (Some (fun _ => [10]))))) /\
  snd (CheckstylePlugin.__iter__ sample_nits
         (CheckstylePlugin.__init__ (H := sample_host)
            (sample_file text_tail) (Some (fun _ => [10]))))
  = None /\
  CheckstylePlugin.__iter__ sample_nits
    (CheckstylePlugin.__init__ (H := sample_host)
       (sample_file text_tail) (Some (fun _ => [10])))
  = ([sample_nit text_tail (Some 10); sample_nit text_tail (Some 9);
      sample_nit text_tail None], None).
Proof.
  destruct (plugin_iter_filters (H := sample_host) sample_nits
              (sample_file text_tail) (Some (fun _ => [10])))
    as [Hkept Hend].
  { intros nit n Hin Hanchor _.
    change (PythonFile.line_count (sample_file text_tail)) with 11.
    simpl in Hin.
    repeat (apply elem_of_cons in Hin as [-> | Hin];
            [simpl in Hanchor; inversion Hanchor; lia |]).
    inversion Hin. }
  split; [exact Hkept |]. split; [exact Hend |].
  vm_compute. reflexivity.
Defined.

(** The claim without the proviso fails: with the line filter returning
    line 10 and nits anchored at line 99, without anchor and at line 10,
    the anchor 99 is no line of the eleven-line file, the iteration stops
    with [IndexError] before it has yielded anything, and the nit without
    anchor and the nit anchored at line 10, which both pass the filter,
    are not yielded. *)
Lemma plugin_iter_unresolved_counterexample :
  CheckstylePlugin.__iter__ unresolved_nits
    (CheckstylePlugin.__init__ (H := sample_host)
       (sample_file text_tail) (Some (fun _ => [10])))
  = ([], Some IndexError) /\
  passes_line_filter (sample_file text_tail) (Some (fun _ => [10]))
    (sample_nit text_tail None) /\
  passes_line_filter (sample_file text_tail) (Some (fun _ => [10]))
    (sample_nit text_tail (Some 10)) /\
  ~ kept (passes_line_filter (sample_file text_tail) (Some (fun _ => [10])))
      (fst (unresolved_nits
              (CheckstylePlugin.__init__ (H := sample_host)
                 (sample_file text_tail) (Some (fun _ => [10])))))
      (fst (CheckstylePlugin.__iter__ unresolved_nits
              (CheckstylePlugin.__init__ (H := sample_host)
                 (sample_file text_tail) (Some (fun _ => [10]))))).
Proof.
  assert (Hfree : passes_line_filter (sample_file text_tail)
                    (Some (fun _ => [10])) (sample_nit text_tail None))
    by (left; reflexivity).
  split; [vm_compute; reflexivity |].
  split; [exact Hfree |]. split.
  - right. right. exists 10, (fun _ => [10]), 10, 11, 10.
    split; [reflexivity |]. split; [reflexivity |].
    split; [vm_compute; reflexivity |]. split; [lia |].
    apply list_elem_of_here.
  - replace (fst (CheckstylePlugin.__iter__ unresolved_nits
                    (CheckstylePlugin.__init__ (H := sample_host)
                       (sample_file text_tail) (Some (fun _ => [10])))))
      with (@nil (Nit.t (H := sample_host))) by (vm_compute; reflexivity).
    unfold unresolved_nits. cbn [fst].
    intros Hkept.
    inversion Hkept as [| |x l l' _ Hrest]; subst.
    inversion Hrest as [| |x l l' Hnot _]; subst.
    exact (Hnot Hfree).
Qed.

(** With the line filter returning line 10, the nit anchored at line 5 is
    suppressed; the nit anchored at line 10, the nit whose span, lines 9 to
    11, contains line 10, and the nit without anchor pass. *)
Example plugin_iter_affected_line_10 :
  CheckstylePlugin.__iter__ sample_nits sample_plugin
  = ([sample_nit text_tail (Some 10); sample_nit text_tail (Some 9);
      sample_nit text_tail None], None).
Proof. vm_compute. reflexivity. Qed.

(** ** Rendering of line numbers *)

Lemma append_empty (s : string) : EmptyString +:+ s = s.
Proof. reflexivity. Qed.

Lemma append_String (c : ascii) (s1 s2 : string) :
  String c s1 +:+ s2 = String c (s1 +:+ s2).
Proof. reflexivity. Qed.

Lemma string_length_app (s1 s2 : string) :
  String.length (s1 +:+ s2) = (String.length s1 + String.length s2)%nat.
Proof.
  induction s1 as [|c s1 IH].
  - rewrite append_empty. reflexivity.
  - rewrite append_String. simpl. now rewrite IH.
Qed.

Lemma zeros_length (k : nat) : String.length (zeros k) = k.
Proof. induction k as [|k IH]; simpl; [reflexivity | now rewrite IH]. Qed.

Lemma uint_of_zeros (k : nat) (s : string) :
  NilEmpty.uint_of_string (zeros k +:+ s)
  = option_map (Nat.iter k Decimal.D0) (NilEmpty.uint_of_string s).
Proof.
  induction k as [|k IH].
  - simpl zeros. rewrite append_empty.
    destruct (NilEmpty.uint_of_string s); reflexivity.
  - simpl zeros. rewrite append_String. simpl NilEmpty.uint_of_string.
    rewrite IH. destruct (NilEmpty.uint_of_string s); reflexivity.
Qed.

Lemma of_uint_leading_zeros (k : nat) (d : Decimal.uint) :
  Z.of_uint (Nat.iter k Decimal.D0 d) = Z.of_uint d.
Proof. induction k as [|k IH]; simpl; [reflexivity | exact IH]. Qed.

Lemma format_d_nonneg (z : Z) :
  0 <= z ->
  exists d, d <> Decimal.Nil /\ format_d z = NilEmpty.string_of_uint d
            /\ Z.of_uint d = z.
Proof.
  intros Hz. destruct z as [|p|p]; [| | lia].
  - exists Decimal.zero. repeat split. discriminate.
  - exists (Pos.to_uint p). split; [apply DecimalPos.Unsigned.to_uint_nonnil |].
    split.
    + unfold format_d. simpl. unfold NilZero.string_of_uint.
      pose proof (DecimalPos.Unsigned.to_uint_nonnil p) as Hnil.
      destruct (Pos.to_uint p); [congruence | reflexivity ..].
    + unfold Z.of_uint. rewrite DecimalPos.Unsigned.of_to. reflexivity.
Qed.

Lemma format_d_short (z : Z) :
  0 <= z < 1000 -> (String.length (format_d z) <= 3)%nat.
Proof.
  intros Hz.
  assert (Hall : forallb (fun z => (String.length (format_d z) <=? 3)%nat)
                   (seqZ 0 1000) = true) by (vm_compute; reflexivity).
  rewrite forallb_forall in Hall.
  apply Nat.leb_le, Hall, list_elem_of_In, elem_of_seqZ. lia.
Qed.

Lemma format_03d_zero_padded (z : Z) :
  0 <= z -> zero_padded 3 z (format_03d z).
Proof.
  intros Hz. unfold format_03d.
  destruct (z <? 0) eqn:Hneg; [lia |].
  destruct (format_d_nonneg z Hz) as (d & Hnil & Hdigits & Hvalue).
  set (k := (3 - String.length (format_d z))%nat).
  assert (Hlen : String.length (zeros k +:+ format_d z)
                 = (k + String.length (format_d z))%nat).
  { rewrite string_length_app, zeros_length. reflexivity. }
  split; [| split].
  - exists (Nat.iter k Decimal.D0 d). split.
    + unfold NilZero.uint_of_string.
      destruct (zeros k +:+ format_d z) eqn:Hs.
      * exfalso. simpl in Hlen.
        rewrite Hdigits in Hlen. destruct d; simpl in Hlen; congruence || lia.
      * rewrite <- Hs, uint_of_zeros, Hdigits, NilEmpty.usu. reflexivity.
    + rewrite of_uint_leading_zeros. exact Hvalue.
  - rewrite Hlen. subst k. lia.
  - intros Hsmall. change (10 ^ Z.of_nat 3) with 1000 in Hsmall.
    pose proof (format_d_short z ltac:(lia)).
    rewrite Hlen. subst k. lia.
Qed.

Lemma format_03d_truthy (z : Z) : 0 <= z -> truthy (format_03d z) = true.
Proof.
  intros Hz. destruct (format_03d_zero_padded z Hz) as (_ & Hlen & _).
  destruct (format_03d z); [simpl in Hlen; lia | reflexivity].
Qed.

Lemma append_truthy (s1 s2 : string) :
  truthy s1 = true -> truthy (s1 +:+ s2) = true.
Proof.
  destruct s1; [discriminate |]. intros _. rewrite append_String. reflexivity.
Qed.

Section Rendering.
Context `{Host}.

Lemma init_line_range_start (blob filename : string) (pf : PythonFile.t)
    (n start stop : Z) :
  PythonFile.__init__ blob filename = Ok pf ->
  PythonFile.line_range pf n = Ok (start, stop) ->
  start = n /\ 1 <= n <= PythonFile.line_count pf.
Proof.
  intros Hinit Hspan.
  pose proof (line_range_Ok_in_range _ _ _ Hspan) as Hin.
  split; [| exact Hin].
  rewrite line_range_in_range in Hspan by exact Hin.
  destruct (PythonFile.logical_lines pf !! n) as [[[s e] i]|] eqn:Hlook.
  - inversion Hspan; subst.
    rewrite (init_index _ _ _ Hinit) in Hlook.
    apply dict_lookup_Some, elem_of_index_pairs in Hlook as [_ Hstart].
    exact Hstart.
  - inversion Hspan. reflexivity.
Qed.

(** C7: a diagnostic without anchor renders its line number as ["*"]; a
    diagnostic whose anchor resolves to a span of one physical line renders
    it as the start of the span, in decimal, filled with zeros to three
    digits; a diagnostic whose anchor resolves to a span of several lines
    renders it as the start, a dash, and the stop minus one, both filled
    with zeros to three digits. *)
Theorem nit_line_number_rendering (blob filename : string) (nit : Nit.t) :
  PythonFile.__init__ blob filename = Ok (Nit.python_file nit) ->
  (Nit._line_number nit = None ->
   Nit.line_number nit = Ok None /\
   Nit.line_number_or_star nit = Ok "*") /\
  (forall n start stop,
     Nit._line_number nit = Some n ->
     PythonFile.line_range (Nit.python_file nit) n = Ok (start, stop) ->
     (stop - start <= 1 ->
      exists s,
        Nit.line_number nit = Ok (Some s) /\
        Nit.line_number_or_star nit = Ok s /\
        zero_padded 3 start s) /\
     (stop - start > 1 ->
      exists a b,
        Nit.line_number nit = Ok (Some (a +:+ "-" +:+ b)) /\
        Nit.line_number_or_star nit = Ok (a +:+ "-" +:+ b) /\
        zero_padded 3 start a /\
        zero_padded 3 (stop - 1) b)).
Proof.
  intros Hinit. split.
  - intros Hnone. unfold Nit.line_number_or_star, Nit.line_number.
    rewrite Hnone. split; reflexivity.
  - intros n start stop Hanchor Hspan.
    destruct (init_line_range_start _ _ _ _ _ _ Hinit Hspan) as [-> Hin].
    assert (Hn : Nit.anchored (Nit._line_number nit) = Some n).
    { rewrite Hanchor. simpl. destruct (n =? 0) eqn:Hz; [lia | reflexivity]. }
    split.
    + intros Hone. exists (format_03d n).
      assert (Hnumber : Nit.line_number nit = Ok (Some (format_03d n))).
      { unfold Nit.line_number. rewrite Hn, Hspan. simpl.
        destruct (stop - n >? 1) eqn:Hgt; [lia | reflexivity]. }
      split; [exact Hnumber |]. split.
      * unfold Nit.line_number_or_star. rewrite Hnumber. simpl.
        rewrite format_03d_truthy by lia. reflexivity.
      * apply format_03d_zero_padded. lia.
    + intros Hmany. exists (format_03d n), (format_03d (stop - 1)).
      assert (Hnumber : Nit.line_number nit
                = Ok (Some (format_03d n +:+ "-" +:+ format_03d (stop - 1)))).
      { unfold Nit.line_number. rewrite Hn, Hspan. simpl.
        destruct (stop - n >? 1) eqn:Hgt; [reflexivity | lia]. }
      split; [exact Hnumber |]. split; [| split].
      * unfold Nit.line_number_or_star. rewrite Hnumber. simpl.
        rewrite append_truthy by (apply format_03d_truthy; lia). reflexivity.
      * apply format_03d_zero_padded. lia.
      * apply format_03d_zero_padded. lia.
Qed.

(** The rendered line number inside the message of a diagnostic. *)
Lemma nit_message_shape (nit : Nit.t) (label rendered : string) :
  Nit.SEVERITY !! Nit.severity nit = Some label ->
  Nit.line_number_or_star nit = Ok rendered ->
  Nit.message nit
  = Ok (format_ljust7 label +:+ " "
        +:+ PythonFile.filename (Nit.python_file nit) +:+ ":"
        +:+ rendered +:+ " " +:+ Nit._message nit).
Proof.
  intros Hlabel Hrendered. unfold Nit.message.
  rewrite Hlabel, Hrendered. reflexivity.
Qed.

End Rendering.

Lemma nit_line_number_rendering_witness :
  (exists s,
     Nit.line_number (sample_nit text_tail (Some 7)) = Ok (Some s) /\
     Nit.line_number_or_star (sample_nit text_tail (Some 7)) = Ok s /\
     zero_padded 3 7 s) /\
  (exists a b,
     Nit.line_number (sample_nit text_mid (Some 7))
     = Ok (Some (a +:+ "-" +:+ b)) /\
     Nit.line_number_or_star (sample_nit text_mid (Some 7))
     = Ok (a +:+ "-" +:+ b) /\
     zero_padded 3 7 a /\
     zero_padded 3 (10 - 1) b).
Proof.
  split.
  - apply (nit_line_number_rendering (H := sample_host) text_tail "sample.py"
             (sample_nit text_tail (Some 7))
             ltac:(vm_compute; reflexivity)) with (n := 7) (stop := 8).
    + reflexivity.
    + vm_compute. reflexivity.
    + lia.
  - apply (nit_line_number_rendering (H := sample_host) text_mid "sample.py"
             (sample_nit text_mid (Some 7))
             ltac:(vm_compute; reflexivity)) with (n := 7) (stop := 10).
    + reflexivity.
    + vm_compute. reflexivity.
    + lia.
Defined.

(** Line 7 alone renders as ["007"], lines 7 to 9 as ["007-009"], no
    anchor as ["*"]. *)
Example nit_rendering_examples :
  Nit.line_number_or_star (sample_nit text_tail (Some 7)) = Ok "007" /\
  Nit.line_number_or_star (sample_nit text_mid (Some 7)) = Ok "007-009" /\
  Nit.line_number_or_star (sample_nit text_mid None) = Ok "*" /\
  Nit.message (sample_nit text_mid (Some 7))
  = Ok "ERROR   sample.py:007-009 nit".
Proof. vm_compute. repeat split. Qed.

(** ** The indentation check *)

Section IndentationFacts.
Context `{Host}.

Lemma StyleError_Ok (python_file : PythonFile.t) (message : string)
    (line_number : option Z) :
  Nit.StyleError python_file message line_number
  = Ok {| Nit.python_file := python_file;
          Nit._severity := Nit.ERROR;
          Nit._message := message;
          Nit._line_number := line_number |}.
Proof.
  unfold Nit.StyleError, Nit.__init__. rewrite SEVERITY_lookup. reflexivity.
Qed.

Lemma top_of_indents (indents : list string) :
  top (rev (map len indents))
  = match last indents with
    | Some t => len t
    | None => 0
    end.
Proof.
  induction indents as [|t indents _] using rev_ind; [reflexivity |].
  rewrite map_app, rev_app_distr, last_snoc. reflexivity.
Qed.

Lemma push_indent (indents : list string) (text : string) :
  rev (map len (indents ++ [text])) = len text :: rev (map len indents).
Proof. rewrite map_app, rev_app_distr. reflexivity. Qed.

Lemma pop_indent (indents : list string) (w : Z) (stack : list Z) :
  rev (map len indents) = w :: stack ->
  indents <> [] /\ rev (map len (removelast indents)) = stack.
Proof.
  induction indents as [|t indents _] using rev_ind; [discriminate |].
  rewrite push_indent. intros Heq. inversion Heq; subst.
  split; [destruct indents; discriminate |].
  rewrite removelast_last. reflexivity.
Qed.

Lemma nits_loop_refines (self : CheckstylePlugin.t) (stack : list Z)
    (tokens : list token) (reports : list (Z * Z)) :
  indent_steps stack tokens reports ->
  forall indents,
    rev (map len indents) = stack ->
    Indentation.nits_loop self indents tokens
    = (map (indentation_error (CheckstylePlugin.python_file self)) reports,
       None).
Proof.
  induction 1 as [stack
                 | stack tk tokens reports Htype Hstep _ IH
                 | stack tk tokens reports Htype Hstep _ IH
                 | w stack tk tokens reports Htype _ IH
                 | stack tk tokens reports Hni Hnd _ IH];
    intros indents Hstack; simpl.
  - reflexivity.
  - rewrite Htype. simpl.
    rewrite <- top_of_indents, Hstack.
    fold (width tk). rewrite bool_decide_eq_false_2 by (unfold Indentation.INDENT_LEVEL; lia).
    apply IH. rewrite push_indent, Hstack. reflexivity.
  - rewrite Htype. simpl.
    rewrite <- top_of_indents, Hstack.
    fold (width tk). rewrite bool_decide_eq_true_2 by (unfold Indentation.INDENT_LEVEL; lia).
    rewrite StyleError_Ok.
    rewrite (IH (indents ++ [tok_text tk]))
      by (rewrite push_indent, Hstack; reflexivity).
    reflexivity.
  - rewrite Htype. simpl.
    destruct (pop_indent _ _ _ Hstack) as [Hne Hpop].
    destruct indents as [|t indents]; [congruence |].
    apply IH. exact Hpop.
  - rewrite bool_decide_eq_false_2 by exact Hni.
    rewrite bool_decide_eq_false_2 by exact Hnd.
    apply IH. exact Hstack.
Qed.

Lemma top_even_stack (depth : nat) : top (even_stack depth) = 2 * Z.of_nat depth.
Proof. destruct depth; simpl; lia. Qed.

Lemma two_space_steps_silent (depth : nat) (tokens : list token) :
  two_space_steps depth tokens ->
  indent_steps (even_stack depth) tokens [].
Proof.
  induction 1 as [depth
                 | depth tk tokens Htype Hwidth _ IH
                 | depth tk tokens Htype _ IH
                 | depth tk tokens Hni Hnd _ IH].
  - constructor.
  - apply steps_indent_ok; [exact Htype | rewrite top_even_stack; lia |].
    replace (width tk) with (2 * Z.of_nat (S depth)) by lia. exact IH.
  - simpl. apply steps_dedent; [exact Htype | exact IH].
  - apply steps_other; assumption.
Qed.

(** C8: [nits()] of the indentation plugin follows the state machine over
    the stack of indent widths: every INDENT token is compared with the
    width on top of the stack (0 when the stack is empty) and pushed, every
    DEDENT token pops, and the diagnostics are, in order, one error for
    every INDENT token whose step is not 2, anchored at the line of that
    token, with the message "Indentation of <step> instead of 2".  For
    tokens indented in steps of two columns throughout, [nits()] yields no
    diagnostic. *)
Theorem indentation_nits_spec (self : CheckstylePlugin.t) :
  (forall reports,
     indent_steps []
       (fst (PythonFile.tokens (CheckstylePlugin.python_file self))) reports ->
     Indentation.nits self
     = (map (indentation_error (CheckstylePlugin.python_file self)) reports,
        snd (PythonFile.tokens (CheckstylePlugin.python_file self)))) /\
  (two_space_steps 0
     (fst (PythonFile.tokens (CheckstylePlugin.python_file self))) ->
   fst (Indentation.nits self) = []).
Proof.
  assert (Hsteps : forall reports,
     indent_steps []
       (fst (PythonFile.tokens (CheckstylePlugin.python_file self))) reports ->
     Indentation.nits self
     = (map (indentation_error (CheckstylePlugin.python_file self)) reports,
        snd (PythonFile.tokens (CheckstylePlugin.python_file self)))).
  { intros reports Hrun. unfold Indentation.nits, after_source.
    rewrite (nits_loop_refines self [] _ reports Hrun []) by reflexivity.
    reflexivity. }
  split; [exact Hsteps |].
  intros Htwo. apply two_space_steps_silent in Htwo.
  rewrite (Hsteps [] Htwo). reflexivity.
Qed.

(** A DEDENT token on an empty stack stops [nits()] with [IndexError]. *)
Lemma nits_loop_underflow (self : CheckstylePlugin.t) (tk : token)
    (tokens : list token) :
  tok_type tk = DEDENT ->
  Indentation.nits_loop self [] (tk :: tokens) = ([], Some IndexError).
Proof. intros Htype. simpl. rewrite Htype. reflexivity. Qed.

(** The state machine is defined on every run of the loop that does not
    meet a DEDENT token on an empty stack. *)
Lemma indent_steps_or_underflow (self : CheckstylePlugin.t)
    (tokens : list token) :
  forall indents,
    (exists reports, indent_steps (rev (map len indents)) tokens reports) \/
    snd (Indentation.nits_loop self indents tokens) = Some IndexError.
Proof.
  induction tokens as [|tk tokens IH]; intros indents.
  - left. exists []. constructor.
  - destruct (decide (tok_type tk = INDENT)) as [Hi | Hni].
    + destruct (IH (indents ++ [tok_text tk])) as [[reports Hrun] | Hraise].
      * left. rewrite push_indent in Hrun. fold (width tk) in Hrun.
        destruct (decide (width tk - top (rev (map len indents)) = 2)).
        -- exists reports. apply steps_indent_ok; assumption.
        -- eexists. apply steps_indent_bad; eassumption.
      * right. simpl. rewrite Hi. simpl.
        destruct (bool_decide _); [| exact Hraise].
        rewrite StyleError_Ok. exact Hraise.
    + destruct (decide (tok_type tk = DEDENT)) as [Hd | Hnd].
      * destruct indents as [|t indents _] using rev_ind.
        -- right. simpl. rewrite Hd. reflexivity.
        -- destruct (IH indents) as [[reports Hrun] | Hraise].
           ++ left. exists reports. rewrite push_indent.
              apply steps_dedent; assumption.
           ++ right. simpl. rewrite Hd. simpl.
              destruct (indents ++ [t]) eqn:Heq;
                [destruct indents; discriminate |].
              rewrite <- Heq, removelast_last. exact Hraise.
      * destruct (IH indents) as [[reports Hrun] | Hraise].
        -- left. exists reports. apply steps_other; assumption.
        -- right. simpl.
           rewrite bool_decide_eq_false_2 by exact Hni.
           rewrite bool_decide_eq_false_2 by exact Hnd. exact Hraise.
Qed.

End IndentationFacts.

Lemma indentation_nits_spec_witness :
  Indentation.nits (sample_indentation text_indent4)
  = ([indentation_error (sample_file text_indent4) (2, 4)], None) /\
  fst (Indentation.nits (sample_indentation text_indent2)) = [].
Proof.
  split.
  - apply (indentation_nits_spec (H := sample_host)
             (sample_indentation text_indent4)) with (reports := [(2, 4)]).
    change (fst (PythonFile.tokens
                   (CheckstylePlugin.python_file
                      (sample_indentation text_indent4))))
      with text_indent4_tokens.
    unfold text_indent4_tokens.
    do 4 (apply steps_other; [discriminate | discriminate |]).
    apply (steps_indent_bad [] (tk INDENT "    " 2 0));
      [reflexivity | discriminate |].
    run_steps.
  - apply (indentation_nits_spec (H := sample_host)
             (sample_indentation text_indent2)).
    change (fst (PythonFile.tokens
                   (CheckstylePlugin.python_file
                      (sample_indentation text_indent2))))
      with text_indent2_tokens.
    unfold text_indent2_tokens. run_two_space.
Defined.

(** A block indented by four columns under a statement at module level:
    one error, on the line of the INDENT token, reporting 4 instead of 2. *)
Example indentation_four_columns :
  Indentation.nits (sample_indentation text_indent4)
  = ([@Nit.Build_t sample_host (sample_file text_indent4) Nit.ERROR
        "Indentation of 4 instead of 2" (Some 2)], None).
Proof. vm_compute. reflexivity. Qed.

(** ** The index builder *)

Lemma rev_repeat_same {A : Type} (x : A) (n : nat) :
  rev (repeat x n) = repeat x n.
Proof.
  induction n as [|n IH]; [reflexivity |].
  simpl. rewrite IH. symmetry. apply repeat_cons.
Qed.

Lemma pop_leading_repeat (start : Z) (a : nat) (rest : list string) :
  PythonFile.pop_leading start (repeat LF a ++ rest)
  = PythonFile.pop_leading (start + Z.of_nat a) rest.
Proof.
  revert start. induction a as [|a IH]; intros start.
  - simpl. f_equal. lia.
  - simpl repeat. simpl app. simpl PythonFile.pop_leading.
    rewrite IH. f_equal. lia.
Qed.

Lemma pop_trailing_rev_repeat (end_ : Z) (b : nat) (rest : list string) :
  PythonFile.pop_trailing_rev end_ (repeat LF b ++ rest)
  = PythonFile.pop_trailing_rev (end_ - Z.of_nat b) rest.
Proof.
  revert end_. induction b as [|b IH]; intros end_.
  - simpl. f_equal. lia.
  - simpl repeat. simpl app. simpl PythonFile.pop_trailing_rev.
    rewrite IH. f_equal. lia.
Qed.

Lemma pop_trailing_body (end_ : Z) (b : nat) (body : list string) :
  body <> [] ->
  Forall (fun c => c <> LF) body ->
  PythonFile.pop_trailing end_ (body ++ repeat LF b)
  = Ok (end_ - Z.of_nat b, body).
Proof.
  intros Hne Hbody. unfold PythonFile.pop_trailing.
  rewrite rev_app_distr, rev_repeat_same, pop_trailing_rev_repeat.
  assert (Hpop : forall e,
            PythonFile.pop_trailing_rev e (rev body) = Ok (e, rev body)).
  { intros e. destruct (rev body) as [|c rest] eqn:Hrev.
    - apply (f_equal (@rev string)) in Hrev. rewrite rev_involutive in Hrev.
      contradiction.
    - assert (Hc : c <> LF).
      { apply Forall_rev in Hbody. rewrite Hrev in Hbody.
        inversion Hbody; assumption. }
      simpl. apply String.eqb_neq in Hc. rewrite Hc. reflexivity. }
  rewrite Hpop. simpl. rewrite rev_involutive. reflexivity.
Qed.

(** What [translate_logical_line] returns on contents made of [a] line
    feeds, entries other than the line feed, and [b] line feeds. *)
Lemma translate_inv (start end_ : Z) (a b : nat) (body : list string)
    (line : Z * Z * Z) :
  Forall (fun c => c <> LF) body ->
  PythonFile.translate_logical_line start end_
    (repeat LF a ++ body ++ repeat LF b) = Ok line ->
  body <> [] /\
  fst (fst line) = start + Z.of_nat a /\
  snd (fst line) = end_ - Z.of_nat b + 1.
Proof.
  intros Hbody. unfold PythonFile.translate_logical_line.
  rewrite pop_leading_repeat.
  destruct body as [|c body'].
  - simpl app. replace (repeat LF b) with (repeat LF b ++ []) by apply app_nil_r.
    rewrite pop_leading_repeat. simpl. discriminate.
  - assert (Hc : c <> LF) by (inversion Hbody; assumption).
    simpl app. simpl PythonFile.pop_leading.
    apply String.eqb_neq in Hc. rewrite Hc. simpl.
    change (c :: body' ++ repeat LF b) with ((c :: body') ++ repeat LF b).
    rewrite pop_trailing_body by (discriminate || exact Hbody).
    simpl. intros Hline. inversion Hline; subst. simpl.
    split; [discriminate |]. split; reflexivity.
Qed.

Lemma lf_token_spec (count : Z) (tk : token) :
  lf_token count tk = true ->
  1 <= tok_line tk /\
  (tok_type tk = NEWLINE -> tok_text tk = LF /\ tok_line tk <= count) /\
  (tok_type tk = ENDMARKER ->
   tok_text tk = EmptyString /\ tok_line tk <= count + 1) /\
  (tok_type tk <> NEWLINE -> tok_text tk <> LF) /\
  (tok_type tk <> ENDMARKER -> tok_line tk <= count).
Proof.
  unfold lf_token. intros Htk.
  apply andb_prop in Htk as [Hlow Htk]. apply Z.leb_le in Hlow.
  split; [exact Hlow |].
  destruct (tok_type tk);
    apply andb_prop in Htk as [Htext Hrow]; apply Z.leb_le in Hrow;
    try (apply negb_true_iff, String.eqb_neq in Htext);
    try (apply String.eqb_eq in Htext);
    repeat split; intros; try congruence; try lia.
  rewrite Htext. discriminate.
Qed.

Lemma precedes_spec (a b : token) :
  precedes a b = true ->
  tok_line a <= tok_line b /\
  (tok_type a = NEWLINE -> tok_line a < tok_line b) /\
  (tok_type b = ENDMARKER -> tok_line a < tok_line b).
Proof.
  unfold precedes. intros Hab.
  destruct (bool_decide (tok_type a = NEWLINE)) eqn:Ha;
    destruct (bool_decide (tok_type b = ENDMARKER)) eqn:Hb; simpl in Hab;
    try apply bool_decide_eq_false in Ha;
    try apply bool_decide_eq_false in Hb;
    try apply Z.ltb_lt in Hab; try apply Z.leb_le in Hab;
    repeat split; intros; try congruence; lia.
Qed.

Lemma rows_ordered_app (l1 l2 : list token) :
  rows_ordered (l1 ++ l2) = true ->
  rows_ordered l1 = true /\ rows_ordered l2 = true /\
  forall a b, In a l1 -> In b l2 -> precedes a b = true.
Proof.
  induction l1 as [|x l1 IH]; simpl.
  - intros H2. split; [reflexivity |]. split; [exact H2 |]. intros a b [].
  - intros Hx. apply andb_prop in Hx as [Hall Hrest].
    destruct (IH Hrest) as (H1 & H2 & Hcross).
    rewrite forallb_app in Hall. apply andb_prop in Hall as [Hall1 Hall2].
    split; [rewrite Hall1, H1; reflexivity |]. split; [exact H2 |].
    intros a b [<- | Ha] Hb.
    + rewrite forallb_forall in Hall2. apply Hall2. exact Hb.
    + apply Hcross; assumption.
Qed.

Lemma terminator_spec (tk : token) :
  terminator tk = true <-> tok_type tk = NEWLINE \/ tok_type tk = ENDMARKER.
Proof.
  unfold terminator. rewrite bool_decide_eq_true.
  rewrite elem_of_cons, list_elem_of_singleton. reflexivity.
Qed.

Lemma filter_None_not_LF (contents : list string) :
  Forall (fun c => c <> LF) contents ->
  Forall (fun c => c <> LF) (filter_None contents).
Proof.
  intros Hall. apply Forall_forall. intros c Hin.
  apply list_elem_of_In, filter_In in Hin as [Hin _].
  rewrite Forall_forall in Hall. apply Hall, list_elem_of_In. exact Hin.
Qed.

(** The span emitted when the buffer [first :: more] meets the terminator
    [t]: its stop is one past the row of a NEWLINE token, the row of the
    ENDMARKER token; its start is the row of [first], or one more when
    [first] is itself a NEWLINE token. *)
Lemma emit_inv (count : Z) (first : token) (more : list token) (t : token)
    (line : Z * Z * Z) :
  lf_token count first = true ->
  Forall (fun u => lf_token count u = true /\ terminator u = false) more ->
  lf_token count t = true ->
  terminator t = true ->
  PythonFile.translate_logical_line (tok_line first)
    (tok_line t + (if bool_decide (tok_type t = NEWLINE) then 1 else -1))
    (filter_None (map tok_text (first :: more) ++ [tok_text t])) = Ok line ->
  snd (fst line)
  = tok_line t + (if bool_decide (tok_type t = NEWLINE) then 1 else 0) /\
  ((tok_type first <> NEWLINE /\ fst (fst line) = tok_line first) \/
   (tok_type first = NEWLINE /\ fst (fst line) = tok_line first + 1 /\
    (tok_type t = ENDMARKER -> more <> []))).
Proof.
  intros Hfirst Hmore Ht Hterm.
  destruct (lf_token_spec _ _ Hfirst) as (_ & Hf_nl & _ & Hf_other & _).
  destruct (lf_token_spec _ _ Ht) as (_ & Ht_nl & Ht_end & _ & _).
  assert (Hbody : Forall (fun c => c <> LF) (filter_None (map tok_text more))).
  { apply filter_None_not_LF, Forall_forall. intros c Hin.
    apply list_elem_of_In, in_map_iff in Hin as (u & <- & Hu).
    apply list_elem_of_In in Hu.
    rewrite Forall_forall in Hmore. destruct (Hmore u Hu) as [Hlf Hnot].
    apply (lf_token_spec _ _ Hlf). intros Hnl.
    assert (terminator u = true) by (apply terminator_spec; auto).
    congruence. }
  unfold filter_None in *. simpl map.
  rewrite List.filter_app.
  change (tok_text first :: map tok_text more)
    with ([tok_text first] ++ map tok_text more).
  rewrite List.filter_app.
  set (middle := List.filter truthy (map tok_text more)) in *.
  pose (a := if bool_decide (tok_type first = NEWLINE) then 1%nat else 0%nat).
  pose (b := if bool_decide (tok_type t = NEWLINE) then 1%nat else 0%nat).
  pose (body := (if bool_decide (tok_type first = NEWLINE) then []
                 else List.filter truthy [tok_text first]) ++ middle).
  assert (Hshape : (List.filter truthy [tok_text first] ++ middle)
                   ++ List.filter truthy [tok_text t]
                   = repeat LF a ++ body ++ repeat LF b).
  { subst a b body.
    assert (Htail : List.filter truthy [tok_text t]
                    = repeat LF (if bool_decide (tok_type t = NEWLINE)
                                 then 1%nat else 0%nat)).
    { apply terminator_spec in Hterm as [Hnl | Hend].
      - rewrite bool_decide_eq_true_2 by exact Hnl.
        rewrite (proj1 (Ht_nl Hnl)). reflexivity.
      - rewrite bool_decide_eq_false_2 by congruence.
        rewrite (proj1 (Ht_end Hend)). reflexivity. }
    rewrite Htail.
    destruct (bool_decide (tok_type first = NEWLINE)) eqn:Hnl.
    - apply bool_decide_eq_true in Hnl. rewrite (proj1 (Hf_nl Hnl)).
      simpl. reflexivity.
    - simpl. rewrite <- app_assoc. reflexivity. }
  rewrite Hshape. intros Hline.
  apply translate_inv in Hline as (Hne & Hstart & Hstop).
  2: { subst body. apply Forall_app. split; [| exact Hbody].
       destruct (bool_decide (tok_type first = NEWLINE)) eqn:Hnl;
         [constructor |].
       apply bool_decide_eq_false in Hnl.
       apply (filter_None_not_LF [tok_text first]).
       constructor; [exact (Hf_other Hnl) | constructor]. }
  split.
  - rewrite Hstop. subst b.
    destruct (bool_decide (tok_type t = NEWLINE)); simpl; lia.
  - subst a body.
    destruct (bool_decide (tok_type first = NEWLINE)) eqn:Hnl.
    + apply bool_decide_eq_true in Hnl. right.
      split; [exact Hnl |]. split; [rewrite Hstart; simpl; lia |].
      intros _ ->. apply Hne. reflexivity.
    + apply bool_decide_eq_false in Hnl. left.
      split; [exact Hnl | rewrite Hstart; simpl; lia].
Qed.

Lemma loop_skipped (contents : list string) (line_number_start : option Z)
    (tk : token) (tokens : list token) :
  significant tk = false ->
  PythonFile.logical_lines_loop contents line_number_start (tk :: tokens)
  = PythonFile.logical_lines_loop contents line_number_start tokens.
Proof.
  unfold significant. intros Hskip. simpl.
  destruct (bool_decide (tok_type tk ∈ PythonFile.SKIP_TOKENS));
    [reflexivity | discriminate].
Qed.

Lemma loop_significant (contents : list string) (line_number_start : option Z)
    (tk : token) (tokens : list token) :
  significant tk = true ->
  PythonFile.logical_lines_loop contents line_number_start (tk :: tokens)
  = match line_number_start with
    | None =>
        PythonFile.logical_lines_loop (contents ++ [tok_text tk])
          (Some (tok_line tk)) tokens
    | Some start =>
        if terminator tk then
          match PythonFile.translate_logical_line start
                  (tok_line tk
                   + (if bool_decide (tok_type tk = NEWLINE) then 1 else -1))
                  (filter_None (contents ++ [tok_text tk])) with
          | Raise e => ([], Some e)
          | Ok line =>
              yield_then line (PythonFile.logical_lines_loop [] None tokens)
          end
        else
          PythonFile.logical_lines_loop (contents ++ [tok_text tk])
            line_number_start tokens
    end.
Proof.
  unfold significant. intros Hsig. simpl.
  destruct (bool_decide (tok_type tk ∈ PythonFile.SKIP_TOKENS));
    [discriminate | reflexivity].
Qed.

Lemma loop_filter_significant (tokens : list token) :
  forall contents line_number_start,
    PythonFile.logical_lines_loop contents line_number_start tokens
    = PythonFile.logical_lines_loop contents line_number_start
        (List.filter significant tokens).
Proof.
  induction tokens as [|tk tokens IH]; intros contents start; [reflexivity |].
  simpl List.filter. destruct (significant tk) eqn:Hsig.
  - rewrite !loop_significant by exact Hsig.
    destruct start as [start|]; [| apply IH].
    destruct (terminator tk); [| apply IH].
    destruct (PythonFile.translate_logical_line _ _ _); [| reflexivity].
    rewrite IH. reflexivity.
  - rewrite loop_skipped by exact Hsig. apply IH.
Qed.

(** On tokens that follow the conventions, what the loop yields is in
    ascending order, without overlap, and inside the file: from the initial
    state, and from a state that buffers [first :: more]. *)
Lemma loop_spans_ok (count : Z) (tokens : list token) :
  Forall (fun tk => significant tk = true /\ lf_token count tk = true) tokens ->
  (forall low,
     rows_ordered tokens = true ->
     (forall tk, In tk tokens -> low <= tok_line tk) ->
     spans_ok count low
       (fst (PythonFile.logical_lines_loop [] None tokens))) /\
  (forall low first more,
     lf_token count first = true ->
     Forall (fun u => lf_token count u = true /\ terminator u = false) more ->
     rows_ordered (first :: more ++ tokens) = true ->
     low <= tok_line first ->
     spans_ok count low
       (fst (PythonFile.logical_lines_loop (map tok_text (first :: more))
               (Some (tok_line first)) tokens))).
Proof.
  induction tokens as [|t tokens IH]; intros Hall.
  - split; intros; exact I.
  - inversion Hall as [|? ? [Hsig Ht] Hrest]; subst.
    destruct (IH Hrest) as [IHfresh IHbuffer]. clear IH.
    split.
    + intros low Hord Hlow.
      rewrite loop_significant by exact Hsig.
      apply (IHbuffer low t []).
      * exact Ht.
      * constructor.
      * exact Hord.
      * apply Hlow. left. reflexivity.
    + intros low first more Hfirst Hmore Hord Hlow.
      rewrite loop_significant by exact Hsig.
      destruct (terminator t) eqn:Hterm.
      2: { replace (map tok_text (first :: more) ++ [tok_text t])
             with (map tok_text (first :: (more ++ [t])))
             by (simpl; rewrite map_app; reflexivity).
           apply IHbuffer.
           - exact Hfirst.
           - apply Forall_app. split; [exact Hmore |].
             constructor; [split; assumption | constructor].
           - rewrite <- app_assoc. exact Hord.
           - exact Hlow. }
      destruct (PythonFile.translate_logical_line _ _ _)
        as [[[s e] i]|err] eqn:Hline; [| exact I].
      apply (emit_inv count first more t) in Hline as [Hstop Hstart];
        try assumption.
      simpl in Hstop, Hstart.
      change (first :: more ++ t :: tokens)
        with ((first :: more) ++ t :: tokens) in Hord.
      apply rows_ordered_app in Hord as (Hbuf & Htail & Hcross).
      simpl in Hbuf, Htail.
      apply andb_prop in Hbuf as [Hfirst_more _].
      apply andb_prop in Htail as [Ht_rest Hrest_ord].
      rewrite forallb_forall in Hfirst_more, Ht_rest.
      destruct (precedes_spec first t) as (Hft & Hft_nl & Hft_end).
      { apply Hcross; left; reflexivity. }
      destruct (lf_token_spec _ _ Ht) as (_ & Ht_nl & Ht_end & _ & _).
      assert (Hstop_val : (tok_type t = NEWLINE /\ e = tok_line t + 1
                           /\ tok_line t <= count) \/
                          (tok_type t = ENDMARKER /\ e = tok_line t
                           /\ tok_line t <= count + 1)).
      { apply terminator_spec in Hterm as [Hnl | Hend].
        - left. rewrite bool_decide_eq_true_2 in Hstop by exact Hnl.
          destruct (Ht_nl Hnl). auto.
        - right. rewrite bool_decide_eq_false_2 in Hstop by congruence.
          destruct (Ht_end Hend). split; [exact Hend |]. split; lia. }
      assert (Hgap : tok_type first = NEWLINE -> tok_type t = ENDMARKER ->
                     more <> [] -> tok_line first + 1 < tok_line t).
      { intros Hnl Hend Hne. destruct more as [|u more']; [congruence |].
        destruct (precedes_spec first u) as (_ & Hfu & _).
        { apply Hfirst_more. left. reflexivity. }
        destruct (precedes_spec u t) as (_ & _ & Hut).
        { apply Hcross; [right; left; reflexivity | left; reflexivity]. }
        specialize (Hfu Hnl). specialize (Hut Hend). lia. }
      unfold yield_then. cbn [fst spans_ok].
      split; [| split; [| split]].
      * destruct Hstart as [[_ ->] | (_ & -> & _)]; lia.
      * destruct Hstart as [[Hnot ->] | (Hnl & -> & Hmore_ne)];
          destruct Hstop_val as [(Hty & -> & _) | (Hty & -> & _)].
        -- lia.
        -- specialize (Hft_end Hty). lia.
        -- specialize (Hft_nl Hnl). lia.
        -- specialize (Hgap Hnl Hty (Hmore_ne Hty)). lia.
      * destruct Hstop_val as [(_ & -> & ?) | (_ & -> & ?)]; lia.
      * apply IHfresh; [exact Hrest_ord |].
        intros r Hr.
        destruct (precedes_spec t r (Ht_rest r Hr)) as (Htr & Htr_nl & _).
        destruct Hstop_val as [(Hty & -> & _) | (_ & -> & _)].
        -- specialize (Htr_nl Hty). lia.
        -- lia.
Qed.

Lemma spans_ok_In (count low : Z) (lines : list (Z * Z * Z))
    (start stop indent : Z) :
  spans_ok count low lines ->
  In (start, stop, indent) lines ->
  low <= start /\ start < stop /\ stop <= count + 1.
Proof.
  revert low. induction lines as [|[[s e] i] lines IH]; intros low; simpl.
  - intros _ [].
  - intros (Hs & Hse & He & Hrest) [Heq | Hin].
    + inversion Heq; subst. lia.
    + destruct (IH e Hrest Hin) as (H1 & H2 & H3). lia.
Qed.

Lemma spans_ok_pairs (count low : Z) (lines : list (Z * Z * Z)) (i j : nat)
    (a b : Z * Z * Z) :
  spans_ok count low lines ->
  (i < j)%nat ->
  lines !! i = Some a ->
  lines !! j = Some b ->
  fst (fst a) < snd (fst a) /\ snd (fst a) <= fst (fst b).
Proof.
  revert low i j. induction lines as [|[[s e] ind] lines IH];
    intros low i j Hok Hij Ha Hb.
  - rewrite lookup_nil in Ha. discriminate Ha.
  - simpl in Hok. destruct Hok as (Hs & Hse & He & Hrest).
    destruct j as [|j]; [lia |]. rewrite lookup_cons in Hb.
    destruct i as [|i].
    + rewrite lookup_cons in Ha. inversion Ha; subst. simpl.
      split; [exact Hse |].
      destruct b as [[s' e'] ind'].
      apply list_elem_of_lookup_2, list_elem_of_In in Hb.
      destruct (spans_ok_In _ _ _ _ _ _ Hrest Hb) as (H1 & _). exact H1.
    + rewrite lookup_cons in Ha. apply (IH e i j Hrest); [lia | assumption ..].
Qed.

Lemma dict_fold_lookup_fresh {V : Type} (pairs : list (Z * V)) (m : gmap Z V)
    (k : Z) :
  (forall v, (k, v) ∉ pairs) ->
  fold_left (fun m kv => <[fst kv := snd kv]> m) pairs m !! k = m !! k.
Proof.
  revert m. induction pairs as [|[k' v'] pairs IH]; intros m Hfresh; simpl.
  - reflexivity.
  - rewrite IH.
    + apply lookup_insert_ne. intros ->. apply (Hfresh v').
      apply elem_of_cons. left. reflexivity.
    + intros v Hin. apply (Hfresh v). apply elem_of_cons. right. exact Hin.
Qed.

(** Spans in ascending order have distinct starts: each is the entry of
    the index at its start. *)
Lemma dict_spans (count low : Z) (lines : list (Z * Z * Z))
    (start stop indent : Z) :
  spans_ok count low lines ->
  In (start, stop, indent) lines ->
  forall m : gmap Z (Z * Z * Z),
    fold_left (fun m kv => <[fst kv := snd kv]> m) (index_pairs lines) m
      !! start = Some (start, stop, indent).
Proof.
  revert low. induction lines as [|[[s e] i] lines IH]; intros low; simpl.
  - intros _ [].
  - intros (Hs & Hse & He & Hrest) [Heq | Hin] m.
    + inversion Heq; subst.
      rewrite dict_fold_lookup_fresh.
      * apply lookup_insert_eq.
      * intros v Hv.
        apply (elem_of_index_pairs lines start v) in Hv as [Hv Hstart].
        destruct v as [[s' e'] i']. simpl in Hstart. subst s'.
        apply list_elem_of_In in Hv.
        destruct (spans_ok_In _ _ _ _ _ _ Hrest Hv) as (H1 & _). lia.
    + apply (IH e Hrest Hin).
Qed.

Section IndexBuilder.
Context `{Host}.

Lemma lf_stream_spans (count : Z) (blob : string) :
  lf_stream count (fst (PythonFile.iter_tokens blob)) = true ->
  spans_ok count 1 (fst (PythonFile.iter_logical_lines blob)).
Proof.
  unfold lf_stream, PythonFile.iter_logical_lines, after_source.
  intros Hlf. apply andb_prop in Hlf as [Hall Hord]. cbn [fst].
  rewrite loop_filter_significant.
  rewrite forallb_forall in Hall.
  apply loop_spans_ok.
  - apply Forall_forall. intros tk Hin. apply list_elem_of_In in Hin.
    split; [apply filter_In in Hin as [_ Hsig]; exact Hsig | apply Hall, Hin].
  - exact Hord.
  - intros tk Hin. apply (lf_token_spec count tk (Hall tk Hin)).
Qed.

(** On a text whose tokens follow the conventions, every entry of the
    index is a span that starts at its key, is not empty and ends in the
    file. *)
Lemma lf_index_entry (blob filename : string) (pf : PythonFile.t)
    (n start stop indent : Z) :
  PythonFile.__init__ blob filename = Ok pf ->
  lf_stream (PythonFile.line_count pf) (fst (PythonFile.iter_tokens blob))
  = true ->
  PythonFile.logical_lines pf !! n = Some (start, stop, indent) ->
  start = n /\ 1 <= start /\ start < stop /\
  stop <= PythonFile.line_count pf + 1.
Proof.
  intros Hinit Hlf Hlook.
  rewrite (init_index _ _ _ Hinit) in Hlook.
  apply dict_lookup_Some, elem_of_index_pairs in Hlook as [Hin Hstart].
  split; [exact Hstart |].
  apply list_elem_of_In in Hin.
  apply (spans_ok_In _ _ _ _ _ _ (lf_stream_spans _ _ Hlf) Hin).
Qed.

(** On such a text [line_range] answers every line of the file with a
    span that contains it and lies in the file. *)
Lemma lf_line_range_bounds (blob filename : string) (pf : PythonFile.t)
    (n : Z) :
  PythonFile.__init__ blob filename = Ok pf ->
  lf_stream (PythonFile.line_count pf) (fst (PythonFile.iter_tokens blob))
  = true ->
  1 <= n <= PythonFile.line_count pf ->
  exists start stop,
    PythonFile.line_range pf n = Ok (start, stop) /\
    start = n /\ start < stop /\ stop <= PythonFile.line_count pf + 1.
Proof.
  intros Hinit Hlf Hin. rewrite line_range_in_range by exact Hin.
  destruct (PythonFile.logical_lines pf !! n) as [[[s e] i]|] eqn:Hlook.
  - destruct (lf_index_entry _ _ _ _ _ _ _ Hinit Hlf Hlook) as (-> & _ & ? & ?).
    exists n, e. auto.
  - exists n, (n + 1). repeat split; lia.
Qed.

End IndexBuilder.

(** ** Counting the spans that cover a line *)

Lemma times_covered_app (n : Z) (spans1 spans2 : list (Z * Z)) :
  times_covered n (spans1 ++ spans2)
  = (times_covered n spans1 + times_covered n spans2)%nat.
Proof. unfold times_covered. rewrite List.filter_app, length_app. reflexivity. Qed.

Lemma times_covered_beyond (count low n : Z) (lines : list (Z * Z * Z)) :
  spans_ok count low lines ->
  n < low ->
  times_covered n (map span_of lines) = 0%nat.
Proof.
  revert low. induction lines as [|[[s e] i] lines IH]; intros low Hok Hn.
  - reflexivity.
  - simpl in Hok. destruct Hok as (Hs & Hse & He & Hrest).
    change (map span_of ((s, e, i) :: lines))
      with ([(s, e)] ++ map span_of lines).
    rewrite times_covered_app, (IH e Hrest) by lia.
    unfold times_covered, covers. simpl.
    destruct (s <=? n) eqn:Hle; [apply Z.leb_le in Hle; lia | reflexivity].
Qed.

(** Among spans in ascending order at most one contains [n]. *)
Lemma times_covered_spans (count low n : Z) (lines : list (Z * Z * Z)) :
  spans_ok count low lines ->
  ((exists start stop indent,
      In (start, stop, indent) lines /\ start <= n < stop) /\
   times_covered n (map span_of lines) = 1%nat) \/
  ((forall start stop indent,
      In (start, stop, indent) lines -> ~ start <= n < stop) /\
   times_covered n (map span_of lines) = 0%nat).
Proof.
  revert low. induction lines as [|[[s e] i] lines IH]; intros low Hok.
  - right. split; [intros ? ? ? [] | reflexivity].
  - simpl in Hok. destruct Hok as (Hs & Hse & He & Hrest).
    destruct (decide (s <= n < e)) as [Hin | Hout].
    + left. split; [exists s, e, i; split; [left; reflexivity | exact Hin] |].
      change (map span_of ((s, e, i) :: lines))
        with ([(s, e)] ++ map span_of lines).
      rewrite times_covered_app,
        (times_covered_beyond count e n lines Hrest) by lia.
      unfold times_covered, covers. simpl.
      destruct (s <=? n) eqn:H1; [| apply Z.leb_gt in H1; lia].
      destruct (n <? e) eqn:H2; [reflexivity | apply Z.ltb_ge in H2; lia].
    + assert (Hhead : times_covered n [(s, e)] = 0%nat).
      { unfold times_covered, covers. simpl.
        destruct (s <=? n) eqn:H1; [| reflexivity].
        destruct (n <? e) eqn:H2; [| reflexivity].
        apply Z.leb_le in H1. apply Z.ltb_lt in H2. lia. }
      change (map span_of ((s, e, i) :: lines))
        with ([(s, e)] ++ map span_of lines).
      rewrite times_covered_app, Hhead.
      destruct (IH e Hrest) as [[(s' & e' & i' & Hmem & Hcov) Hone] | [Hnone Hzero]].
      * left. split; [| exact Hone].
        exists s', e', i'. split; [right; exact Hmem | exact Hcov].
      * right. split; [| exact Hzero].
        intros s' e' i' [Heq | Hmem]; [inversion Heq; subst; exact Hout |].
        exact (Hnone s' e' i' Hmem).
Qed.

(** The single-line spans of the lines of [rows] that are not keys: line
    [n] is in one of them exactly when it is a row and not a key. *)
Lemma times_covered_fallback {V : Type} (index : gmap Z V) (n : Z)
    (rows : list Z) :
  NoDup rows ->
  times_covered n
    (flat_map (fun m => match index !! m with
                        | None => [(m, m + 1)]
                        | Some _ => []
                        end) rows)
  = match index !! n with
    | None => if bool_decide (n ∈ rows) then 1%nat else 0%nat
    | Some _ => 0%nat
    end.
Proof.
  induction rows as [|m rows IH]; intros Hnodup.
  - simpl. destruct (index !! n); reflexivity.
  - apply NoDup_cons in Hnodup as [Hfresh Hnodup].
    simpl flat_map. rewrite times_covered_app, (IH Hnodup).
    destruct (decide (m = n)) as [-> | Hne].
    + destruct (index !! n) eqn:Hlook; [reflexivity |].
      rewrite (bool_decide_eq_true_2 (n ∈ n :: rows))
        by (apply elem_of_cons; left; reflexivity).
      rewrite (bool_decide_eq_false_2 (n ∈ rows)) by exact Hfresh.
      unfold times_covered, covers. simpl.
      destruct (n <=? n) eqn:H1; [| apply Z.leb_gt in H1; lia].
      destruct (n <? n + 1) eqn:H2; [reflexivity | apply Z.ltb_ge in H2; lia].
    + assert (Hhead : times_covered n
                (match index !! m with
                 | None => [(m, m + 1)]
                 | Some _ => []
                 end) = 0%nat).
      { destruct (index !! m); [reflexivity |].
        unfold times_covered, covers. simpl.
        destruct (m <=? n) eqn:H1; [| reflexivity].
        destruct (n <? m + 1) eqn:H2; [| reflexivity].
        apply Z.leb_le in H1. apply Z.ltb_lt in H2. lia. }
      rewrite Hhead. simpl.
      destruct (index !! n); [reflexivity |].
      destruct (decide (n ∈ rows)) as [Hin | Hnot].
      * rewrite (bool_decide_eq_true_2 (n ∈ rows)) by exact Hin.
        rewrite (bool_decide_eq_true_2 (n ∈ m :: rows))
          by (apply elem_of_cons; right; exact Hin).
        reflexivity.
      * rewrite (bool_decide_eq_false_2 (n ∈ rows)) by exact Hnot.
        rewrite (bool_decide_eq_false_2 (n ∈ m :: rows)); [reflexivity |].
        intros [Heq | Hin]%elem_of_cons; [congruence | contradiction].
Qed.

Lemma spans_ok_unique (count low n : Z) (lines : list (Z * Z * Z))
    (s e i s' e' i' : Z) :
  spans_ok count low lines ->
  In (s, e, i) lines -> In (s', e', i') lines ->
  s <= n < e -> s' <= n < e' ->
  s = s'.
Proof.
  revert low. induction lines as [|[[s0 e0] i0] lines IH]; intros low Hok.
  - intros [].
  - simpl in Hok. destruct Hok as (_ & _ & _ & Hrest).
    intros [Heq | Hin] [Heq' | Hin'] Hn Hn'.
    + congruence.
    + inversion Heq; subst.
      destruct (spans_ok_In _ _ _ _ _ _ Hrest Hin') as (? & _). lia.
    + inversion Heq'; subst.
      destruct (spans_ok_In _ _ _ _ _ _ Hrest Hin) as (? & _). lia.
    + exact (IH e0 Hrest Hin Hin' Hn Hn').
Qed.

Section Coverage.
Context `{Host}.

(** C4, amended: for a file that the constructor builds from a text (the
    text parses, the tokenizer ends normally and the index builder raises
    nothing) whose tokens follow the line-feed conventions, the
    logical-line spans produced by the index builder are not empty,
    lie in the file, are in ascending order of start and pairwise do not
    overlap, and each is the index entry of its start; every physical line
    lies in the span [line_range] returns for it; among the logical-line
    spans and the single-line spans of the lines that are not starts, a
    continuation line is covered twice (by its logical line and by its own
    single-line span) and every other line once. *)
Theorem logical_lines_ordered_cover (blob filename : string)
    (pf : PythonFile.t) :
  PythonFile.__init__ blob filename = Ok pf ->
  lf_stream (PythonFile.line_count pf) (fst (PythonFile.iter_tokens blob))
  = true ->
  (forall (i j : nat) (a b : Z * Z * Z),
     (i < j)%nat ->
     fst (PythonFile.iter_logical_lines blob) !! i = Some a ->
     fst (PythonFile.iter_logical_lines blob) !! j = Some b ->
     fst (fst a) < snd (fst a) /\ snd (fst a) <= fst (fst b)) /\
  (forall start stop indent,
     (start, stop, indent) ∈ fst (PythonFile.iter_logical_lines blob) ->
     1 <= start /\ start < stop /\ stop <= PythonFile.line_count pf + 1 /\
     PythonFile.logical_lines pf !! start = Some (start, stop, indent)) /\
  (forall n,
     1 <= n <= PythonFile.line_count pf ->
     (exists start stop,
        PythonFile.line_range pf n = Ok (start, stop) /\ start <= n < stop) /\
     (continuation (fst (PythonFile.iter_logical_lines blob)) n ->
      times_covered n (cover blob pf) = 2%nat) /\
     (~ continuation (fst (PythonFile.iter_logical_lines blob)) n ->
      times_covered n (cover blob pf) = 1%nat)).
Proof.
  intros Hinit Hlf.
  pose proof (lf_stream_spans _ _ Hlf) as Hok.
  pose proof (init_index _ _ _ Hinit) as Hindex.
  assert (Hentry : forall start stop indent,
            In (start, stop, indent) (fst (PythonFile.iter_logical_lines blob)) ->
            PythonFile.logical_lines pf !! start = Some (start, stop, indent)).
  { intros start stop indent Hin. rewrite Hindex. unfold dict.
    exact (dict_spans _ _ _ _ _ _ Hok Hin ∅). }
  split; [| split].
  - intros i j a b Hij Ha Hb. exact (spans_ok_pairs _ _ _ _ _ _ _ Hok Hij Ha Hb).
  - intros start stop indent Hin. apply list_elem_of_In in Hin.
    destruct (spans_ok_In _ _ _ _ _ _ Hok Hin) as (H1 & H2 & H3).
    repeat split; try assumption. exact (Hentry _ _ _ Hin).
  - intros n Hn. split.
    { destruct (lf_line_range_bounds _ _ _ n Hinit Hlf Hn)
        as (start & stop & Hrange & -> & Hlt & _).
      exists n, stop. split; [exact Hrange | lia]. }
    assert (Hrows : n ∈ seqZ 1 (PythonFile.line_count pf))
      by (apply elem_of_seqZ; lia).
    assert (Hcount : times_covered n (cover blob pf)
              = (times_covered n
                   (map span_of (fst (PythonFile.iter_logical_lines blob)))
                 + match PythonFile.logical_lines pf !! n with
                   | None => 1
                   | Some _ => 0
                   end)%nat).
    { unfold cover. rewrite times_covered_app.
      rewrite times_covered_fallback by apply NoDup_seqZ.
      rewrite (bool_decide_eq_true_2 _ Hrows). reflexivity. }
    rewrite Hcount. clear Hcount.
    destruct (times_covered_spans _ _ n _ Hok)
      as [[(s & e & i & Hin & Hcov) ->] | [Hnone ->]];
      destruct (PythonFile.logical_lines pf !! n) as [[[s' e'] i']|] eqn:Hlook.
    + destruct (lf_index_entry _ _ _ _ _ _ _ Hinit Hlf Hlook)
        as (-> & _ & Hlt & _).
      rewrite Hindex in Hlook.
      apply dict_lookup_Some, elem_of_index_pairs in Hlook as [Hin' _].
      apply list_elem_of_In in Hin'.
      split; [| reflexivity].
      intros (s2 & e2 & i2 & Hin2 & Hcont). exfalso.
      assert (s2 = n)
        by (apply (spans_ok_unique _ _ n _ s2 e2 i2 n e' i' Hok); auto; lia).
      lia.
    + split; [reflexivity |].
      intros Hnot. exfalso. apply Hnot. exists s, e, i.
      split; [exact Hin |].
      assert (s <> n) by (intros ->; rewrite (Hentry _ _ _ Hin) in Hlook;
                          discriminate Hlook).
      lia.
    + exfalso.
      destruct (lf_index_entry _ _ _ _ _ _ _ Hinit Hlf Hlook)
        as (-> & _ & Hlt & _).
      rewrite Hindex in Hlook.
      apply dict_lookup_Some, elem_of_index_pairs in Hlook as [Hin' _].
      apply list_elem_of_In in Hin'.
      apply (Hnone _ _ _ Hin'). lia.
    + split; [| reflexivity].
      intros (s2 & e2 & i2 & Hin2 & Hcont). exfalso.
      apply (Hnone _ _ _ Hin2). lia.
Qed.

End Coverage.

Lemma logical_lines_ordered_cover_witness :
  (forall start stop indent,
     (start, stop, indent)
       ∈ fst (PythonFile.iter_logical_lines (H := sample_host) text_tail) ->
     1 <= start /\ start < stop /\
     stop <= PythonFile.line_count (sample_file text_tail) + 1 /\
     PythonFile.logical_lines (sample_file text_tail) !! start
     = Some (start, stop, indent)) /\
  (exists start stop,
     PythonFile.line_range (sample_file text_tail) 10 = Ok (start, stop) /\
     start <= 10 < stop) /\
  times_covered 10 (cover text_tail (sample_file text_tail)) = 2%nat.
Proof.
  destruct (logical_lines_ordered_cover (H := sample_host) text_tail
              "sample.py" (sample_file text_tail)
              ltac:(vm_compute; reflexivity) ltac:(vm_compute; reflexivity))
    as (_ & Hentries & Hcover).
  split; [exact Hentries |].
  destruct (Hcover 10 ltac:(vm_compute; split; discriminate))
    as (Hrange & Htwice & _).
  split; [exact Hrange |].
  apply Htwice. exists 9, 12, 0. split; [| lia].
  vm_compute. repeat first [left; reflexivity | right].
Defined.

(** The text ['x = (1,\n 2)\n'] parses, its tokens follow the conventions,
    and its second line is covered twice: by the logical line of lines 1
    and 2 and by its own single-line span, line 2 not being a start. *)
Lemma coverage_exactly_once_counterexample :
  PythonFile.__init__ (H := sample_host) text_paren "sample.py"
  = Ok (sample_file text_paren) /\
  lf_stream (PythonFile.line_count (sample_file text_paren))
    (fst (PythonFile.iter_tokens (H := sample_host) text_paren)) = true /\
  cover text_paren (sample_file text_paren) = [(1, 3); (2, 3)] /\
  ~ (forall n,
       1 <= n <= PythonFile.line_count (sample_file text_paren) ->
       times_covered n (cover text_paren (sample_file text_paren)) = 1%nat).
Proof.
  split; [vm_compute; reflexivity |].
  split; [vm_compute; reflexivity |].
  split; [vm_compute; reflexivity |].
  intros Hall. specialize (Hall 2).
  assert (Hin : 1 <= 2 <= PythonFile.line_count (sample_file text_paren))
    by (vm_compute; split; discriminate).
  specialize (Hall Hin). vm_compute in Hall. discriminate Hall.
Qed.

(** ** Texts whose lines end in carriage return and line feed *)

(** C3: on ['x = 1\r\ny = 2\r\n'] the NEWLINE tokens are on rows 1 and 2 and
    carry the text ['\r\n']; the builder emits the stops 3 and 4, that is,
    it takes as end line the row after the terminator's, not the
    terminator's own row: the one added for a NEWLINE token is only taken
    back by trimming a text equal to ['\n']. *)
Theorem crlf_terminator_end_line :
  map (fun tk => (tok_line tk, tok_text tk))
    (List.filter (fun tk => bool_decide (tok_type tk = NEWLINE))
       (fst (generate_tokens (Host := sample_host) text_crlf)))
  = [(1, CRLF); (2, CRLF)] /\
  PythonFile.iter_logical_lines (H := sample_host) text_crlf
  = ([(1, 3, 0); (2, 4, 0)], None).
Proof. split; vm_compute; reflexivity. Qed.

(** C1: the text ['x = 1\r\ny = 2\r\n'] parses and has two physical lines;
    [line_range 2] returns the span from 2 to 4, whose stop is beyond the
    line count plus one, and [line_range 1] the span from 1 to 3, which
    holds line 2 as well. *)
Theorem line_range_crlf_overrun :
  PythonFile.__init__ (H := sample_host) text_crlf "sample.py"
  = Ok (sample_file text_crlf) /\
  PythonFile.line_count (sample_file text_crlf) = 2 /\
  PythonFile.line_range (sample_file text_crlf) 1 = Ok (1, 3) /\
  PythonFile.line_range (sample_file text_crlf) 2 = Ok (2, 4).
Proof. repeat split; vm_compute; reflexivity. Qed.

(** ** A continued empty line *)

(** On ['x = 1\n\\\n\n'] the buffer that meets the ENDMARKER token holds
    only the text of a NEWLINE token: trimming empties it, and the
    construction of the file raises [IndexError]. *)
Example init_backslash_raises :
  PythonFile.iter_logical_lines (H := sample_host) text_backslash
  = ([(1, 2, 0)], Some IndexError) /\
  PythonFile.__init__ (H := sample_host) text_backslash "sample.py"
  = Raise IndexError.
Proof. split; vm_compute; reflexivity. Qed.

(** * Further properties *)

(** ** [translate_logical_line] on any contents *)

Lemma find_not_LF_drop (contents : list string) (c : string) :
  List.find not_LF contents = Some c ->
  exists body, drop (leading_LF contents) contents = c :: body /\
               (leading_LF contents < length contents)%nat /\
               String.eqb c LF = false.
Proof.
  induction contents as [|x contents IH]; simpl; [discriminate |].
  unfold not_LF at 1. destruct (String.eqb x LF) eqn:Hx; simpl.
  - intros Hfind. destruct (IH Hfind) as (body & Hdrop & Hlt & Hc).
    exists body. split; [exact Hdrop |]. split; [lia | exact Hc].
  - intros Hfind. inversion Hfind; subst. exists contents.
    split; [reflexivity |]. split; [lia | exact Hx].
Qed.

Lemma pop_leading_find (start : Z) (contents : list string) :
  PythonFile.pop_leading start contents
  = match List.find not_LF contents with
    | None => Raise IndexError
    | Some _ =>
        Ok (start + Z.of_nat (leading_LF contents),
            drop (leading_LF contents) contents)
    end.
Proof.
  revert start. induction contents as [|x contents IH]; intros start; simpl.
  - reflexivity.
  - unfold not_LF at 1. destruct (String.eqb x LF) eqn:Hx; simpl.
    + rewrite IH. destruct (List.find not_LF contents); [| reflexivity].
      do 2 f_equal. lia.
    + do 2 f_equal. lia.
Qed.

Lemma pop_trailing_rev_find (end_ : Z) (contents : list string) :
  PythonFile.pop_trailing_rev end_ contents
  = match List.find not_LF contents with
    | None => Raise IndexError
    | Some _ =>
        Ok (end_ - Z.of_nat (leading_LF contents),
            drop (leading_LF contents) contents)
    end.
Proof.
  revert end_. induction contents as [|x contents IH]; intros end_; simpl.
  - reflexivity.
  - unfold not_LF at 1. destruct (String.eqb x LF) eqn:Hx; simpl.
    + rewrite IH. destruct (List.find not_LF contents); [| reflexivity].
      do 2 f_equal. lia.
    + do 2 f_equal. lia.
Qed.

Lemma leading_LF_app (l m : list string) (c : string) :
  List.find not_LF l = Some c ->
  leading_LF (l ++ m) = leading_LF l.
Proof.
  induction l as [|x l IH]; simpl; [discriminate |].
  unfold not_LF at 1. destruct (String.eqb x LF); simpl; [| reflexivity].
  intros Hfind. rewrite (IH Hfind). reflexivity.
Qed.

Lemma leading_LF_repeat (a : nat) (l : list string) :
  leading_LF (repeat LF a ++ l) = (a + leading_LF l)%nat.
Proof. induction a as [|a IH]; simpl; [reflexivity | now rewrite IH]. Qed.

Lemma contents_split (contents : list string) :
  contents
  = repeat LF (leading_LF contents) ++ drop (leading_LF contents) contents.
Proof.
  induction contents as [|x contents IH]; simpl; [reflexivity |].
  destruct (String.eqb x LF) eqn:Hx; [| reflexivity].
  apply String.eqb_eq in Hx. subst x. simpl. f_equal. exact IH.
Qed.

Lemma find_not_LF_In (l : list string) (c : string) :
  In c l -> String.eqb c LF = false ->
  exists c', List.find not_LF l = Some c'.
Proof.
  intros Hin Hc. destruct (List.find not_LF l) as [c'|] eqn:Hfind; [eauto |].
  exfalso. apply (find_none _ _ Hfind) in Hin. unfold not_LF in Hin.
  rewrite Hc in Hin. discriminate Hin.
Qed.

(** [translate_logical_line] in closed form, by the first entry that is
    not ['\n']. *)
Lemma translate_logical_line_find (start end_ : Z) (contents : list string) :
  PythonFile.translate_logical_line start end_ contents
  = match List.find not_LF contents with
    | None => Raise IndexError
    | Some c =>
        Ok (start + Z.of_nat (leading_LF contents),
            end_ - Z.of_nat (trailing_LF contents) + 1,
            if isspace c then len c else 0)
    end.
Proof.
  unfold PythonFile.translate_logical_line. rewrite pop_leading_find.
  destruct (List.find not_LF contents) as [c|] eqn:Hfind; [| reflexivity].
  destruct (find_not_LF_drop _ _ Hfind) as (body & Hbody & Hlt & Hc).
  simpl. rewrite Hbody.
  assert (Hrev : exists c', List.find not_LF (rev (c :: body)) = Some c').
  { apply (find_not_LF_In _ c); [| exact Hc].
    apply in_rev. rewrite rev_involutive. left. reflexivity. }
  destruct Hrev as [c' Hrev].
  unfold PythonFile.pop_trailing. rewrite pop_trailing_rev_find, Hrev. simpl.
  destruct (find_not_LF_drop _ _ Hrev) as (_ & _ & Hshort & _).
  rewrite length_rev in Hshort.
  assert (Htrail : leading_LF (rev (c :: body)) = trailing_LF contents).
  { unfold trailing_LF. rewrite (contents_split contents) at 1.
    rewrite Hbody, rev_app_distr, rev_repeat_same.
    symmetry. apply (leading_LF_app _ _ c'). exact Hrev. }
  change (rev body ++ [c]) with (rev (c :: body)).
  rewrite skipn_rev, rev_involutive, Htrail in *.
  destruct (length (c :: body) - trailing_LF contents)%nat
    as [|k] eqn:Hk; [lia |].
  reflexivity.
Qed.

(** X1: [translate_logical_line] raises [IndexError] exactly when every
    entry of the contents is ['\n'] (an empty list included) and raises
    nothing else; otherwise it returns the start moved forward by the
    number of leading ['\n'] entries, the end moved back by the number of
    trailing ['\n'] entries and made exclusive, and as indent the length of
    the first remaining entry when that entry is white space, else 0. *)
Theorem translate_logical_line_spec (start end_ : Z) (contents : list string) :
  (PythonFile.translate_logical_line start end_ contents = Raise IndexError
   <-> List.Forall (fun c => c = LF) contents) /\
  (forall e, PythonFile.translate_logical_line start end_ contents = Raise e ->
             e = IndexError) /\
  (forall c, List.find not_LF contents = Some c ->
     PythonFile.translate_logical_line start end_ contents
     = Ok (start + Z.of_nat (leading_LF contents),
           end_ - Z.of_nat (trailing_LF contents) + 1,
           if isspace c then len c else 0)).
Proof.
  rewrite translate_logical_line_find.
  destruct (List.find not_LF contents) as [c|] eqn:Hfind.
  - split; [| split].
    + split; [discriminate |]. intros Hall. exfalso.
      apply find_some in Hfind as [Hin Hc].
      rewrite List.Forall_forall in Hall. apply Hall in Hin. subst c.
      unfold not_LF in Hc. rewrite String.eqb_refl in Hc. discriminate Hc.
    + discriminate.
    + intros c' Hc'. inversion Hc'; subst. reflexivity.
  - split; [| split].
    + split; [| reflexivity]. intros _. apply List.Forall_forall.
      intros c Hin. apply (find_none _ _ Hfind) in Hin.
      unfold not_LF in Hin. apply negb_false_iff in Hin.
      apply String.eqb_eq in Hin. exact Hin.
    + intros e He. inversion He. reflexivity.
    + discriminate.
Qed.

(** ** The index builder on any token stream *)

(** X2: the index builder does not look at COMMENT, NL and DEDENT tokens:
    two token streams with the same other tokens, in the same order, give
    the same logical lines and end the same way. *)
Theorem logical_lines_ignore_skipped (tokens1 tokens2 : list token) :
  List.filter significant tokens1 = List.filter significant tokens2 ->
  PythonFile.logical_lines_loop [] None tokens1
  = PythonFile.logical_lines_loop [] None tokens2.
Proof.
  intros Hsame.
  rewrite (loop_filter_significant tokens1), (loop_filter_significant tokens2).
  rewrite Hsame. reflexivity.
Qed.

Lemma logical_lines_ignore_skipped_witness :
  PythonFile.logical_lines_loop [] None text_paren_tokens
  = PythonFile.logical_lines_loop [] None
      (tk COMMENT "# c" 1 0 :: tk NL LF 1 3
       :: List.filter significant text_paren_tokens
       ++ [tk DEDENT EmptyString 3 0]).
Proof.
  apply (logical_lines_ignore_skipped text_paren_tokens). reflexivity.
Defined.

Lemma loop_counts (tokens : list token) :
  forall contents line_number_start,
    (2 * length (fst (PythonFile.logical_lines_loop contents
                        line_number_start tokens))
     <= match line_number_start with Some _ => 1 | None => 0 end
        + length (List.filter significant tokens))%nat /\
    (length (fst (PythonFile.logical_lines_loop contents
                    line_number_start tokens))
     <= length (List.filter terminator (List.filter significant tokens)))%nat.
Proof.
  induction tokens as [|t tokens IH]; intros contents start.
  - simpl. split; lia.
  - simpl List.filter. destruct (significant t) eqn:Hsig.
    2: { rewrite loop_skipped by exact Hsig. apply IH. }
    rewrite loop_significant by exact Hsig. simpl List.filter.
    destruct start as [start|].
    + destruct (terminator t) eqn:Hterm.
      * destruct (PythonFile.translate_logical_line _ _ _);
          [| simpl; split; lia].
        destruct (IH [] None) as [H2 H1].
        unfold yield_then. simpl in *. split; lia.
      * destruct (IH (contents ++ [tok_text t]) (Some start)) as [H2 H1].
        simpl in *. split; lia.
    + destruct (IH (contents ++ [tok_text t]) (Some (tok_line t))) as [H2 H1].
      destruct (terminator t); simpl in *; split; lia.
Qed.

(** X3: a logical line is yielded only at a NEWLINE or ENDMARKER token that
    is not the first token accumulated since the previous yield: there are
    at most as many logical lines as such tokens, and at most half as many
    as tokens that are not skipped.  A stream in which every token is
    skipped yields nothing and raises nothing. *)
Theorem logical_lines_count (tokens : list token) :
  (2 * length (fst (PythonFile.logical_lines_loop [] None tokens))
   <= length (List.filter significant tokens))%nat /\
  (length (fst (PythonFile.logical_lines_loop [] None tokens))
   <= length (List.filter terminator (List.filter significant tokens)))%nat /\
  (List.filter significant tokens = [] ->
   PythonFile.logical_lines_loop [] None tokens = ([], None)).
Proof.
  destruct (loop_counts tokens [] None) as [H2 H1].
  split; [exact H2 |]. split; [exact H1 |].
  intros Hnone. rewrite loop_filter_significant, Hnone. reflexivity.
Qed.

Lemma logical_lines_count_witness :
  PythonFile.logical_lines_loop [] None
    [tk COMMENT "# only a comment" 1 0; tk NL LF 1 16]
  = ([], None).
Proof.
  apply (logical_lines_count
           [tk COMMENT "# only a comment" 1 0; tk NL LF 1 16]).
  reflexivity.
Defined.

Lemma loop_raises_IndexError (tokens : list token) :
  forall contents line_number_start e,
    snd (PythonFile.logical_lines_loop contents line_number_start tokens)
    = Some e ->
    e = IndexError.
Proof.
  induction tokens as [|t tokens IH]; intros contents start e.
  - discriminate.
  - destruct (significant t) eqn:Hsig.
    2: { rewrite loop_skipped by exact Hsig. apply IH. }
    rewrite loop_significant by exact Hsig.
    destruct start as [start|]; [| apply IH].
    destruct (terminator t); [| apply IH].
    rewrite translate_logical_line_find.
    destruct (List.find not_LF _).
    + unfold yield_then. simpl. apply IH.
    + simpl. congruence.
Qed.

Lemma loop_indent (tokens : list token) :
  forall contents line_number_start start stop indent,
    In (start, stop, indent)
      (fst (PythonFile.logical_lines_loop contents line_number_start tokens)) ->
    indent = 0 \/
    exists text,
      In text (contents ++ map tok_text (List.filter significant tokens)) /\
      isspace text = true /\ indent = len text.
Proof.
  induction tokens as [|t tokens IH]; intros contents st start stop indent.
  - intros [].
  - simpl List.filter. destruct (significant t) eqn:Hsig.
    2: { rewrite loop_skipped by exact Hsig. apply IH. }
    rewrite loop_significant by exact Hsig. simpl map.
    assert (Hlater :
              In (start, stop, indent)
                (fst (PythonFile.logical_lines_loop [] None tokens)) ->
              indent = 0 \/
              exists text,
                In text (contents ++ tok_text t
                         :: map tok_text (List.filter significant tokens)) /\
                isspace text = true /\ indent = len text).
    { intros Hin.
      destruct (IH [] None _ _ _ Hin) as [Hz | (text & Hmem & Hsp & Hlen)].
      - left. exact Hz.
      - right. exists text. split; [| auto].
        apply in_or_app. right. right. exact Hmem. }
    assert (Hkeep : forall st',
              In (start, stop, indent)
                (fst (PythonFile.logical_lines_loop
                        (contents ++ [tok_text t]) st' tokens)) ->
              indent = 0 \/
              exists text,
                In text (contents ++ tok_text t
                         :: map tok_text (List.filter significant tokens)) /\
                isspace text = true /\ indent = len text).
    { intros st' Hin.
      destruct (IH _ _ _ _ _ Hin) as [Hz | (text & Hmem & Hsp & Hlen)].
      - left. exact Hz.
      - right. exists text. split; [| auto].
        rewrite <- app_assoc in Hmem. exact Hmem. }
    destruct st as [st0|]; [| apply Hkeep].
    destruct (terminator t); [| apply Hkeep].
    rewrite translate_logical_line_find.
    destruct (List.find not_LF _) as [c|] eqn:Hfind; [| intros []].
    unfold yield_then. simpl fst. intros [Heq | Hin].
    + inversion Heq; subst.
      destruct (isspace c) eqn:Hsp; [| left; reflexivity].
      right. exists c. split; [| auto].
      apply find_some in Hfind as [Hin _].
      apply filter_In in Hin as [Hin _].
      apply in_app_or in Hin as [Hin | [<- | []]]; apply in_or_app;
        [left; exact Hin | right; left; reflexivity].
    + apply Hlater. exact Hin.
Qed.

(** X4: the indent of every logical line the builder yields is 0 or the
    length of the text of a token of the stream that is not skipped and
    whose text is white space; it is never negative. *)
Theorem logical_lines_indent (tokens : list token) (start stop indent : Z) :
  In (start, stop, indent)
    (fst (PythonFile.logical_lines_loop [] None tokens)) ->
  0 <= indent /\
  (indent = 0 \/
   exists t,
     In t tokens /\ significant t = true /\
     isspace (tok_text t) = true /\ indent = len (tok_text t)).
Proof.
  intros Hin.
  destruct (loop_indent tokens [] None _ _ _ Hin)
    as [-> | (text & Hmem & Hsp & ->)].
  - split; [lia | left; reflexivity].
  - split; [unfold len; lia |]. right.
    simpl in Hmem. apply in_map_iff in Hmem as (t & <- & Ht).
    apply filter_In in Ht as [Ht Hsig]. exists t. auto.
Qed.

Lemma logical_lines_indent_witness :
  0 <= 4 /\
  (4 = 0 \/
   exists t,
     In t text_indent4_tokens /\ significant t = true /\
     isspace (tok_text t) = true /\ 4 = len (tok_text t)).
Proof.
  apply (logical_lines_indent text_indent4_tokens 2 3 4).
  vm_compute. right. left. reflexivity.
Defined.

(** The white space characters among the code points below 256, and a
    text that begins with a no-break space: the space is an ERRORTOKEN
    token, its text is white space, and the indent of the logical line is
    its length. *)
Example isspace_examples :
  List.filter (fun n => isspace_char (ascii_of_nat n)) (List.seq 0 256)
  = [9; 10; 11; 12; 13; 28; 29; 30; 31; 32; 133; 160]%nat /\
  isspace EmptyString = false /\
  PythonFile.translate_logical_line 1 1
    [String (ascii_of_nat 160) EmptyString; "x"]
  = Ok (1, 2, 1) /\
  PythonFile.logical_lines_loop [] None nbsp_tokens = ([(1, 2, 1)], None).
Proof. repeat split; vm_compute; reflexivity. Qed.

Section Construction.
Context `{Host}.

(** X5: the constructor of a file fails in three ways only: with the
    exception of [ast.parse], whatever the tokens are; else with
    [IndexError] from the index builder; else with the exception that ends
    the token stream.  When it succeeds the text parsed and the token
    stream ended normally. *)
Theorem init_failures (blob filename : string) :
  match PythonFile.__init__ blob filename with
  | Ok pf =>
      ast_parse blob filename = Ok (PythonFile._tree pf) /\
      snd (generate_tokens blob) = None /\
      PythonFile.tokens pf = generate_tokens blob /\
      PythonFile.filename pf = filename
  | Raise e =>
      ast_parse blob filename = Raise e \/
      (exists tree, ast_parse blob filename = Ok tree) /\
      (e = IndexError \/ snd (generate_tokens blob) = Some e)
  end.
Proof.
  unfold PythonFile.__init__, PythonFile.iter_logical_lines,
    PythonFile.iter_tokens, after_source.
  destruct (ast_parse blob filename) as [tree|e] eqn:Hparse; simpl;
    [| left; reflexivity].
  destruct (snd (PythonFile.logical_lines_loop [] None
                   (fst (generate_tokens blob)))) as [e|] eqn:Hloop.
  - right. split; [eauto |]. left.
    exact (loop_raises_IndexError _ _ _ _ Hloop).
  - destruct (snd (generate_tokens blob)) as [e|] eqn:Htok.
    + right. split; [eauto |]. right. reflexivity.
    + simpl. unfold PythonFile.tokens, PythonFile.iter_tokens. simpl.
      repeat split.
Qed.

End Construction.

(** ** Indexing and enumerating a file *)

Lemma lines_slice (lines : list string) (start stop : Z) :
  1 <= start <= Z.of_nat (length lines) ->
  py_slice (None :: map Some lines) start stop
  = map Some
      (take (slice_bound (Z.of_nat (length lines) + 1) stop - Z.to_nat start)
         (drop (Z.to_nat (start - 1)) lines)).
Proof.
  intros Hstart. unfold py_slice.
  replace (Z.of_nat (length (None :: map Some lines)))
    with (Z.of_nat (length lines) + 1)
    by (simpl; rewrite length_map; lia).
  assert (Hi : slice_bound (Z.of_nat (length lines) + 1) start
               = S (Z.to_nat (start - 1))).
  { unfold slice_bound. destruct (start <? 0) eqn:Hneg; lia. }
  rewrite Hi. simpl drop. rewrite skipn_map, firstn_map.
  do 2 f_equal. lia.
Qed.

Lemma enumerate_from_lookup {A : Type} (l : list A) (k : Z) (i : nat) :
  enumerate_from k l !! i = (fun x => (k + Z.of_nat i, x)) <$> l !! i.
Proof.
  revert k i. induction l as [|x l IH]; intros k i.
  - reflexivity.
  - destruct i as [|i]; simpl.
    + do 2 f_equal. lia.
    + rewrite IH. destruct (l !! i); simpl; [| reflexivity].
      do 2 f_equal. lia.
Qed.

Lemma lookup_map {A B : Type} (f : A -> B) (l : list A) (i : nat) :
  map f l !! i = f <$> l !! i.
Proof.
  revert i. induction l as [|x l IH]; intros [|i]; simpl; auto.
Qed.

Lemma enumerate_from_length {A : Type} (l : list A) (k : Z) :
  length (enumerate_from k l) = length l.
Proof.
  revert k. induction l as [|x l IH]; intros k; simpl; [reflexivity |].
  now rewrite IH.
Qed.

Section Indexing.
Context `{Host}.

(** X6: indexing a file by a line number raises [IndexError] exactly when
    [line_range] does, that is, when the number is not a line of the file;
    otherwise it returns a run of consecutive physical lines that begins at
    the line asked for and never holds the placeholder of index 0: as many
    lines as the span of [line_range] has when the span ends in the file,
    none when the span is empty. *)
Theorem getitem_spec (blob filename : string) (pf : PythonFile.t) (n : Z) :
  PythonFile.__init__ blob filename = Ok pf ->
  (PythonFile.__getitem__ pf n = Raise IndexError
   <-> n <= 0 \/ Z.of_nat (length (splitlines blob)) < n) /\
  (forall start stop,
     PythonFile.line_range pf n = Ok (start, stop) ->
     exists k,
       PythonFile.__getitem__ pf n
       = Ok (map Some (take k (drop (Z.to_nat (n - 1)) (splitlines blob)))) /\
       (n < stop <= Z.of_nat (length (splitlines blob)) + 1 ->
        k = Z.to_nat (stop - n)) /\
       (0 <= stop <= n -> k = O)).
Proof.
  intros Hinit.
  pose proof (init_line_count _ _ _ Hinit) as Hcount.
  assert (Hlines : PythonFile._lines pf = None :: map Some (splitlines blob)).
  { apply init_Ok in Hinit as (tree & lines & _ & _ & ->). reflexivity. }
  split.
  - unfold PythonFile.__getitem__. split.
    + intros Herr.
      destruct (decide (1 <= n <= PythonFile.line_count pf)) as [Hin | Hout];
        [| lia].
      destruct (line_range_total pf n Hin) as (s & e & Hrange).
      rewrite Hrange in Herr. discriminate Herr.
    + intros Hout. rewrite line_range_raises by lia. reflexivity.
  - intros start stop Hrange.
    destruct (init_line_range_start _ _ _ _ _ _ Hinit Hrange) as [-> Hin].
    unfold PythonFile.__getitem__. rewrite Hrange. simpl.
    rewrite Hlines, lines_slice by lia.
    eexists. split; [reflexivity |]. unfold slice_bound. split.
    + intros Hstop. destruct (stop <? 0) eqn:Hneg; lia.
    + intros Hstop. destruct (stop <? 0) eqn:Hneg; lia.
Qed.

(** X7: on a text whose tokens follow the line-feed conventions, indexing
    the file by a line number of the file returns exactly the physical
    lines of the span of [line_range]: at least one line, the first being
    the line asked for. *)
Theorem getitem_lf (blob filename : string) (pf : PythonFile.t) (n : Z) :
  PythonFile.__init__ blob filename = Ok pf ->
  lf_stream (PythonFile.line_count pf) (fst (PythonFile.iter_tokens blob))
  = true ->
  1 <= n <= PythonFile.line_count pf ->
  exists stop first rest,
    PythonFile.line_range pf n = Ok (n, stop) /\
    PythonFile.__getitem__ pf n = Ok (map Some (first :: rest)) /\
    first :: rest
    = take (Z.to_nat (stop - n)) (drop (Z.to_nat (n - 1)) (splitlines blob)) /\
    splitlines blob !! Z.to_nat (n - 1) = Some first /\
    Z.of_nat (length (first :: rest)) = stop - n.
Proof.
  intros Hinit Hlf Hn.
  pose proof (init_line_count _ _ _ Hinit) as Hcount.
  destruct (lf_line_range_bounds _ _ _ n Hinit Hlf Hn)
    as (start & stop & Hrange & -> & Hlt & Hstop).
  assert (Hlines : PythonFile._lines pf = None :: map Some (splitlines blob)).
  { apply init_Ok in Hinit as (tree & lines & _ & _ & ->). reflexivity. }
  assert (Hget : PythonFile.__getitem__ pf n
            = Ok (map Some (take (Z.to_nat (stop - n))
                              (drop (Z.to_nat (n - 1)) (splitlines blob))))).
  { unfold PythonFile.__getitem__. rewrite Hrange. simpl.
    rewrite Hlines, lines_slice by lia. do 3 f_equal.
    unfold slice_bound. destruct (stop <? 0) eqn:Hneg; lia. }
  assert (Hlen : length (take (Z.to_nat (stop - n))
                           (drop (Z.to_nat (n - 1)) (splitlines blob)))
                 = Z.to_nat (stop - n)).
  { rewrite length_take, length_drop. lia. }
  destruct (take (Z.to_nat (stop - n))
              (drop (Z.to_nat (n - 1)) (splitlines blob)))
    as [|first rest] eqn:Hrows; [simpl in Hlen; lia |].
  exists stop, first, rest.
  split; [exact Hrange |]. split; [exact Hget |].
  split; [symmetry; exact Hrows |]. split.
  - assert (Hhead : (first :: rest) !! O = Some first) by reflexivity.
    rewrite <- Hrows in Hhead.
    rewrite lookup_take_lt in Hhead by lia.
    rewrite lookup_drop in Hhead.
    rewrite Nat.add_0_r in Hhead. exact Hhead.
  - rewrite Hlen. lia.
Qed.

(** X8: enumerating a file yields its physical lines in order, numbered
    from 1: as many pairs as [splitlines] gives lines, the pair at position
    [i] being line number [i + 1] with the text of that line; and when
    indexing the file by that number returns lines at all, the first of
    them is that text. *)
Theorem enumerate_spec (blob filename : string) (pf : PythonFile.t) :
  PythonFile.__init__ blob filename = Ok pf ->
  length (PythonFile.enumerate pf) = length (splitlines blob) /\
  (forall i : nat,
     PythonFile.enumerate pf !! i
     = (fun line => (Z.of_nat i + 1, Some line)) <$> splitlines blob !! i) /\
  (forall (i : nat) line,
     splitlines blob !! i = Some line ->
     exists rows,
       PythonFile.__getitem__ pf (Z.of_nat i + 1) = Ok rows /\
       (rows = [] \/ rows !! O = Some (Some line))).
Proof.
  intros Hinit.
  pose proof (init_line_count _ _ _ Hinit) as Hcount.
  assert (Hlines : PythonFile._lines pf = None :: map Some (splitlines blob)).
  { apply init_Ok in Hinit as (tree & lines & _ & _ & ->). reflexivity. }
  assert (Hlookup : forall i : nat,
     PythonFile.enumerate pf !! i
     = (fun line => (Z.of_nat i + 1, Some line)) <$> splitlines blob !! i).
  { intros i. unfold PythonFile.enumerate, PythonFile.__iter__.
    rewrite Hlines, skipn_cons, skipn_O, enumerate_from_lookup, lookup_map.
    destruct (splitlines blob !! i); simpl; [| reflexivity].
    do 2 f_equal. lia. }
  split; [| split; [exact Hlookup |]].
  - unfold PythonFile.enumerate, PythonFile.__iter__.
    rewrite Hlines, skipn_cons, skipn_O, enumerate_from_length, length_map.
    reflexivity.
  - intros i line Hline.
    pose proof (lookup_lt_Some _ _ _ Hline) as Hi.
    destruct (line_range_total pf (Z.of_nat i + 1)) as (s & e & Hrange);
      [lia |].
    destruct (init_line_range_start _ _ _ _ _ _ Hinit Hrange) as [-> _].
    unfold PythonFile.__getitem__. rewrite Hrange. simpl.
    rewrite Hlines, lines_slice by lia.
    eexists. split; [reflexivity |].
    replace (Z.to_nat (Z.of_nat i + 1 - 1)) with i by lia.
    destruct (slice_bound _ e - Z.to_nat (Z.of_nat i + 1))%nat as [|k];
      [left; reflexivity | right].
    destruct (drop i (splitlines blob)) as [|x rest] eqn:Hdrop.
    + apply (f_equal length) in Hdrop. rewrite length_drop in Hdrop.
      simpl in Hdrop. lia.
    + assert (Hx : drop i (splitlines blob) !! O = Some line)
        by (rewrite lookup_drop, Nat.add_0_r; exact Hline).
      rewrite Hdrop in Hx. simpl in Hx. inversion Hx; subst. reflexivity.
Qed.

End Indexing.

Lemma getitem_spec_witness :
  PythonFile.__getitem__ (sample_file text_crlf) 3 = Raise IndexError /\
  exists k,
    PythonFile.__getitem__ (sample_file text_crlf) 2
    = Ok (map Some (take k (drop (Z.to_nat (2 - 1)) text_crlf_lines))) /\
    (2 < 4 <= 2 + 1 -> k = Z.to_nat (4 - 2)) /\
    (0 <= 4 <= 2 -> k = O).
Proof.
  destruct (getitem_spec (H := sample_host) text_crlf "sample.py"
              (sample_file text_crlf) 3 ltac:(vm_compute; reflexivity))
    as [Hraise _].
  destruct (getitem_spec (H := sample_host) text_crlf "sample.py"
              (sample_file text_crlf) 2 ltac:(vm_compute; reflexivity))
    as [_ Hrows].
  split.
  - apply Hraise. right. vm_compute. reflexivity.
  - apply (Hrows 2 4). vm_compute. reflexivity.
Defined.

Lemma getitem_lf_witness :
  exists stop first rest,
    PythonFile.line_range (sample_file text_tail) 9 = Ok (9, stop) /\
    PythonFile.__getitem__ (sample_file text_tail) 9
    = Ok (map Some (first :: rest)) /\
    first :: rest
    = take (Z.to_nat (stop - 9))
        (drop (Z.to_nat (9 - 1)) (splitlines (Host := sample_host) text_tail))
    /\
    splitlines (Host := sample_host) text_tail !! Z.to_nat (9 - 1)
    = Some first /\
    Z.of_nat (length (first :: rest)) = stop - 9.
Proof.
  apply (getitem_lf (H := sample_host) text_tail "sample.py"
           (sample_file text_tail) 9).
  - vm_compute. reflexivity.
  - vm_compute. reflexivity.
  - vm_compute. split; discriminate.
Defined.

Lemma enumerate_spec_witness :
  length (PythonFile.enumerate (sample_file text_paren))
  = length (splitlines (Host := sample_host) text_paren) /\
  PythonFile.enumerate (sample_file text_paren) !! 1%nat
  = (fun line => (Z.of_nat 1 + 1, Some line))
      <$> splitlines (Host := sample_host) text_paren !! 1%nat.
Proof.
  destruct (enumerate_spec (H := sample_host) text_paren "sample.py"
              (sample_file text_paren) ltac:(vm_compute; reflexivity))
    as (Hlen & Hlookup & _).
  split; [exact Hlen | apply Hlookup].
Defined.

(** The lines of the statement of lines 9 to 11, and what enumerating the
    two-line sample yields. *)
Example getitem_enumerate_examples :
  PythonFile.__getitem__ (sample_file text_tail) 9
  = Ok [Some "b = (1,"; Some " 2,"; Some " 3)"] /\
  PythonFile.__getitem__ (sample_file text_tail) 10 = Ok [Some " 2,"] /\
  PythonFile.enumerate (sample_file text_paren)
  = [(1, Some "x = (1,"); (2, Some " 2)")].
Proof. repeat split; vm_compute; reflexivity. Qed.

(** ** Messages and string forms of diagnostics *)

Lemma append_empty_r (s : string) : s +:+ EmptyString = s.
Proof.
  induction s as [|c s IH]; [reflexivity |].
  rewrite append_String, IH. reflexivity.
Qed.

Lemma join_lines_prefixed (msg : string) (rows : list string) :
  join_lines Nit.continuation_marker (Some msg :: map Some rows)
  = Ok (msg +:+ prefixed_lines rows).
Proof.
  revert msg. induction rows as [|row rows IH]; intros msg.
  - simpl. rewrite append_empty_r. reflexivity.
  - change (join_lines Nit.continuation_marker
              (Some msg :: map Some (row :: rows)))
      with (r ← join_lines Nit.continuation_marker (Some row :: map Some rows);
            mret (msg +:+ Nit.continuation_marker +:+ r)).
    rewrite IH. reflexivity.
Qed.

Section Messages.
Context `{Host}.

Lemma init_nit_fields (severity : Z) (pf : PythonFile.t) (msg : string)
    (anchor : option Z) (nit : Nit.t) :
  Nit.__init__ severity pf msg anchor = Ok nit ->
  nit = {| Nit.python_file := pf; Nit._severity := severity;
           Nit._message := msg; Nit._line_number := anchor |} /\
  exists label, Nit.SEVERITY !! severity = Some label.
Proof.
  unfold Nit.__init__. intros Hinit.
  destruct (Nit.SEVERITY !! severity) as [label|] eqn:Hlabel.
  - inversion Hinit. split; [reflexivity | eauto].
  - rewrite SEVERITY_join_raises in Hinit. discriminate Hinit.
Qed.

Lemma nit_message_outcome (severity : Z) (pf : PythonFile.t) (msg : string)
    (anchor : option Z) (nit : Nit.t) :
  Nit.__init__ severity pf msg anchor = Ok nit ->
  match Nit.anchored anchor with
  | None =>
      Nit.line_number_or_star nit = Ok "*" /\
      exists text, Nit.message nit = Ok text
  | Some n =>
      if decide (1 <= n <= PythonFile.line_count pf)
      then exists text, Nit.message nit = Ok text
      else Nit.message nit = Raise IndexError
  end.
Proof.
  intros Hinit.
  destruct (init_nit_fields _ _ _ _ _ Hinit) as [-> [label Hlabel]].
  unfold Nit.message, Nit.line_number_or_star, Nit.line_number, Nit.severity.
  cbn [Nit._severity Nit._line_number Nit.python_file Nit._message].
  rewrite Hlabel. cbn [mbind result_bind].
  destruct (Nit.anchored anchor) as [n|]; [| simpl; eauto].
  case_decide as Hin.
  - destruct (line_range_total pf n Hin) as (s & e & Hrange).
    rewrite Hrange. simpl.
    destruct (e - s >? 1); simpl;
      match goal with |- context [truthy ?x] => destruct (truthy x) end;
      simpl; eauto.
  - rewrite line_range_raises by lia. reflexivity.
Qed.

Lemma anchored_cases (anchor : option Z) :
  (Nit.anchored anchor = None /\ (anchor = None \/ anchor = Some 0)) \/
  (exists n, Nit.anchored anchor = Some n /\ anchor = Some n /\ n <> 0).
Proof.
  destruct anchor as [n|]; simpl; [| left; auto].
  destruct (n =? 0) eqn:Hzero.
  - apply Z.eqb_eq in Hzero. subst. left. auto.
  - apply Z.eqb_neq in Hzero. right. eauto.
Qed.

(** X9: the message of a diagnostic built by the constructor raises
    nothing but [IndexError], and raises it exactly when the anchor is a
    number other than 0 that is not a line of the file; an anchor that is
    absent or 0 is rendered as ["*"]. *)
Theorem nit_message_errors (severity : Z) (pf : PythonFile.t) (msg : string)
    (anchor : option Z) (nit : Nit.t) :
  Nit.__init__ severity pf msg anchor = Ok nit ->
  (Nit.message nit = Raise IndexError
   <-> exists n, anchor = Some n /\ n <> 0 /\
                 (n < 0 \/ PythonFile.line_count pf < n)) /\
  (forall e, Nit.message nit = Raise e -> e = IndexError) /\
  (anchor = None \/ anchor = Some 0 ->
   Nit.line_number_or_star nit = Ok "*" /\
   exists text, Nit.message nit = Ok text).
Proof.
  intros Hinit.
  pose proof (nit_message_outcome _ _ _ _ _ Hinit) as Hout.
  destruct (anchored_cases anchor)
    as [[Hnone Hwhich] | (n & Hsome & -> & Hne)].
  - rewrite Hnone in Hout. destruct Hout as [Hstar [text Htext]].
    rewrite Htext. split; [| split].
    + split; [discriminate |].
      intros (n & Hn & Hnz & _). destruct Hwhich; congruence.
    + discriminate.
    + intros _. split; [exact Hstar | eauto].
  - rewrite Hsome in Hout. case_decide as Hin.
    + destruct Hout as [text Htext]. rewrite Htext. split; [| split].
      * split; [discriminate |].
        intros (n' & Hn & _ & Hbad). inversion Hn; subst. lia.
      * discriminate.
      * intros [Hnone | Hz]; [discriminate | inversion Hz; congruence].
    + rewrite Hout. split; [| split].
      * split; [| reflexivity]. intros _. exists n. repeat split; auto. lia.
      * intros e He. inversion He. reflexivity.
      * intros [Hnone | Hz]; [discriminate | inversion Hz; congruence].
Qed.

(** X11: the constructors of warnings and errors, with an explicit anchor
    or with the line of a syntax-tree node, never raise; they store
    severity 1 and 2, and the message of the diagnostic begins with the
    label filled to seven columns, a blank, the file name and a colon. *)
Theorem style_nits (pf : PythonFile.t) (msg : string) (anchor : option Z)
    (n : Nit.node) :
  Nit.StyleWarning pf msg anchor
  = Ok {| Nit.python_file := pf; Nit._severity := 1;
          Nit._message := msg; Nit._line_number := anchor |} /\
  Nit.StyleError pf msg anchor
  = Ok {| Nit.python_file := pf; Nit._severity := 2;
          Nit._message := msg; Nit._line_number := anchor |} /\
  Nit.ASTStyleWarning pf n msg = Nit.StyleWarning pf msg (Nit.lineno n) /\
  Nit.ASTStyleError pf n msg = Nit.StyleError pf msg (Nit.lineno n) /\
  (forall nit rendered,
     Nit.StyleWarning pf msg anchor = Ok nit ->
     Nit.line_number_or_star nit = Ok rendered ->
     Nit.message nit
     = Ok ("WARNING " +:+ PythonFile.filename pf +:+ ":" +:+ rendered
           +:+ " " +:+ msg)) /\
  (forall nit rendered,
     Nit.StyleError pf msg anchor = Ok nit ->
     Nit.line_number_or_star nit = Ok rendered ->
     Nit.message nit
     = Ok ("ERROR   " +:+ PythonFile.filename pf +:+ ":" +:+ rendered
           +:+ " " +:+ msg)).
Proof.
  assert (Hw : Nit.StyleWarning pf msg anchor
    = Ok {| Nit.python_file := pf; Nit._severity := 1;
            Nit._message := msg; Nit._line_number := anchor |}).
  { unfold Nit.StyleWarning, Nit.__init__. rewrite SEVERITY_lookup.
    reflexivity. }
  assert (He : Nit.StyleError pf msg anchor
    = Ok {| Nit.python_file := pf; Nit._severity := 2;
            Nit._message := msg; Nit._line_number := anchor |}).
  { unfold Nit.StyleError, Nit.__init__. rewrite SEVERITY_lookup.
    reflexivity. }
  split; [exact Hw |]. split; [exact He |].
  split; [reflexivity |]. split; [reflexivity |]. split.
  - intros nit rendered Hnit Hrendered. rewrite Hw in Hnit.
    inversion Hnit; subst.
    rewrite (nit_message_shape _ "WARNING" rendered); [reflexivity | | exact Hrendered].
    unfold Nit.severity. simpl. rewrite SEVERITY_lookup. reflexivity.
  - intros nit rendered Hnit Hrendered. rewrite He in Hnit.
    inversion Hnit; subst.
    rewrite (nit_message_shape _ "ERROR" rendered); [reflexivity | | exact Hrendered].
    unfold Nit.severity. simpl. rewrite SEVERITY_lookup. reflexivity.
Qed.

End Messages.

Section StringForm.
Context `{Host}.

Lemma getitem_rows (blob filename : string) (pf : PythonFile.t) (n : Z) :
  PythonFile.__init__ blob filename = Ok pf ->
  1 <= n <= PythonFile.line_count pf ->
  exists k,
    PythonFile.__getitem__ pf n
    = Ok (map Some (take k (drop (Z.to_nat (n - 1)) (splitlines blob)))).
Proof.
  intros Hinit Hin.
  pose proof (init_line_count _ _ _ Hinit) as Hcount.
  destruct (line_range_total pf n Hin) as (s & e & Hrange).
  destruct (init_line_range_start _ _ _ _ _ _ Hinit Hrange) as [-> _].
  unfold PythonFile.__getitem__. rewrite Hrange. simpl.
  apply init_Ok in Hinit as (tree & lines & _ & _ & ->). simpl.
  rewrite lines_slice by lia. eauto.
Qed.

(** X10: for a diagnostic built by the constructor on a file built by the
    constructor: without anchor, or with the anchor 0, it covers no line
    and its string form is its message; with an anchor that is a line of
    the file its string form is its message followed by every covered
    line, each after a line feed, five blanks and a bar, the covered lines
    being consecutive physical lines from the anchor on; the string form
    raises nothing but [IndexError]. *)
Theorem nit_str_spec (blob filename : string) (pf : PythonFile.t)
    (severity : Z) (msg : string) (anchor : option Z) (nit : Nit.t) :
  PythonFile.__init__ blob filename = Ok pf ->
  Nit.__init__ severity pf msg anchor = Ok nit ->
  (anchor = None \/ anchor = Some 0 ->
   Nit.lines nit = Ok [] /\ Nit.__str__ nit = Nit.message nit) /\
  (forall n,
     anchor = Some n -> 1 <= n <= PythonFile.line_count pf ->
     exists text k,
       Nit.message nit = Ok text /\
       Nit.lines nit
       = Ok (map Some (take k (drop (Z.to_nat (n - 1)) (splitlines blob)))) /\
       Nit.__str__ nit
       = Ok (text +:+ prefixed_lines
                        (take k (drop (Z.to_nat (n - 1)) (splitlines blob))))) /\
  (forall e, Nit.__str__ nit = Raise e -> e = IndexError).
Proof.
  intros Hfile Hinit.
  pose proof (nit_message_outcome _ _ _ _ _ Hinit) as Hout.
  destruct (init_nit_fields _ _ _ _ _ Hinit) as [Hnit _].
  assert (Hlines : Nit.lines nit
            = match Nit.anchored anchor with
              | Some n => PythonFile.__getitem__ pf n
              | None => Ok []
              end) by (subst nit; reflexivity).
  assert (Hstr : forall text rows,
            Nit.message nit = Ok text ->
            Nit.lines nit = Ok (map Some rows) ->
            Nit.__str__ nit = Ok (text +:+ prefixed_lines rows)).
  { intros text rows Htext Hrows. unfold Nit.__str__, Nit.flatten_lines.
    rewrite Htext, Hrows. cbn [mbind result_bind concat].
    rewrite app_nil_r.
    apply join_lines_prefixed. }
  destruct (anchored_cases anchor)
    as [[Hnone Hwhich] | (n & Hsome & -> & Hne)].
  - rewrite Hnone in Hout, Hlines. destruct Hout as [_ [text Htext]].
    assert (Hall : Nit.__str__ nit = Nit.message nit).
    { rewrite (Hstr text [] Htext Hlines), Htext. simpl.
      rewrite append_empty_r. reflexivity. }
    split; [intros _; split; [exact Hlines | exact Hall] |]. split.
    + intros n Hn. destruct Hwhich; [congruence |].
      assert (n = 0) by congruence. lia.
    + intros e He. rewrite Hall, Htext in He. discriminate He.
  - rewrite Hsome in Hout, Hlines. split; [| split].
    + intros [Hnone | Hz]; [discriminate | inversion Hz; congruence].
    + intros n' Hn Hin. inversion Hn; subst n'.
      case_decide; [| contradiction]. destruct Hout as [text Htext].
      destruct (getitem_rows _ _ _ n Hfile Hin) as [k Hrows].
      rewrite Hrows in Hlines.
      exists text, k. split; [exact Htext |]. split; [exact Hlines |].
      exact (Hstr _ _ Htext Hlines).
    + intros e He. case_decide as Hin.
      * destruct Hout as [text Htext].
        destruct (getitem_rows _ _ _ n Hfile Hin) as [k Hrows].
        rewrite Hrows in Hlines.
        rewrite (Hstr _ _ Htext Hlines) in He. discriminate He.
      * unfold Nit.__str__ in He. rewrite Hout in He.
        inversion He. reflexivity.
Qed.

End StringForm.

Lemma nit_message_errors_witness :
  (Nit.message (sample_nit text_tail (Some 12)) = Raise IndexError
   <-> exists n, Some 12 = Some n /\ n <> 0 /\
                 (n < 0 \/ PythonFile.line_count (sample_file text_tail) < n))
  /\
  Nit.line_number_or_star (sample_nit text_tail (Some 0)) = Ok "*".
Proof.
  split.
  - apply (nit_message_errors (H := sample_host) Nit.ERROR
             (sample_file text_tail) "nit" (Some 12)
             (sample_nit text_tail (Some 12))).
    vm_compute. reflexivity.
  - apply (nit_message_errors (H := sample_host) Nit.ERROR
             (sample_file text_tail) "nit" (Some 0)
             (sample_nit text_tail (Some 0))).
    + vm_compute. reflexivity.
    + right. reflexivity.
Defined.

Lemma nit_str_spec_witness :
  exists text k,
    Nit.message (sample_nit text_tail (Some 9)) = Ok text /\
    Nit.lines (sample_nit text_tail (Some 9))
    = Ok (map Some (take k (drop (Z.to_nat (9 - 1))
                              (splitlines (Host := sample_host) text_tail))))
    /\
    Nit.__str__ (sample_nit text_tail (Some 9))
    = Ok (text +:+ prefixed_lines
                     (take k (drop (Z.to_nat (9 - 1))
                                (splitlines (Host := sample_host) text_tail)))).
Proof.
  apply (nit_str_spec (H := sample_host) text_tail "sample.py"
           (sample_file text_tail) Nit.ERROR "nit" (Some 9)
           (sample_nit text_tail (Some 9))).
  - vm_compute. reflexivity.
  - vm_compute. reflexivity.
  - reflexivity.
  - vm_compute. split; discriminate.
Defined.

Lemma style_nits_witness :
  Nit.message (sample_nit text_tail (Some 9))
  = Ok ("ERROR   "
        +:+ PythonFile.filename (sample_file text_tail) +:+ ":" +:+ "009-011"
        +:+ " " +:+ "nit").
Proof.
  apply (style_nits (H := sample_host) (sample_file text_tail) "nit" (Some 9)
           {| Nit.lineno := None |}).
  - vm_compute. reflexivity.
  - vm_compute. reflexivity.
Defined.

(** The string form of the error anchored at the statement of lines 9 to
    11 of the eleven-line sample. *)
Example nit_str_example :
  Nit.__str__ (sample_nit text_tail (Some 9))
  = Ok ("ERROR   sample.py:009-011 nit" +:+ LF
        +:+ "     |b = (1," +:+ LF
        +:+ "     | 2," +:+ LF
        +:+ "     | 3)").
Proof. vm_compute. reflexivity. Qed.

(** ** Iterating a plugin *)

Section PluginIteration.
Context `{Host}.

Lemma iter_loop_unrestricted (self : CheckstylePlugin.t) (nits : list Nit.t) :
  CheckstylePlugin._affected_lines self = None ->
  CheckstylePlugin.iter_loop self nits = (nits, None).
Proof.
  intros Hnone. induction nits as [|nit nits IH]; simpl; [reflexivity |].
  rewrite Hnone, IH. destruct (Nit._line_number nit); reflexivity.
Qed.

(** X12: a plugin built without line filter yields, when iterated, exactly
    what its [nits] method yields, and ends as it ends; no anchor is
    resolved, so an anchor outside the file raises nothing. *)
Theorem plugin_iter_unrestricted (nits : CheckstylePlugin.t -> stream Nit.t)
    (pf : PythonFile.t) :
  CheckstylePlugin.__iter__ nits (CheckstylePlugin.__init__ pf None)
  = nits (CheckstylePlugin.__init__ pf None) /\
  CheckstylePlugin.errors nits (CheckstylePlugin.__init__ pf None)
  = (List.filter (fun nit => Nit.severity nit =? Nit.ERROR)
       (fst (nits (CheckstylePlugin.__init__ pf None))),
     snd (nits (CheckstylePlugin.__init__ pf None))).
Proof.
  assert (Hiter : CheckstylePlugin.__iter__ nits
                    (CheckstylePlugin.__init__ pf None)
                  = nits (CheckstylePlugin.__init__ pf None)).
  { unfold CheckstylePlugin.__iter__, after_source.
    rewrite iter_loop_unrestricted by reflexivity.
    destruct (nits (CheckstylePlugin.__init__ pf None)). reflexivity. }
  split; [exact Hiter |].
  unfold CheckstylePlugin.errors. rewrite Hiter. reflexivity.
Qed.

Lemma iter_loop_app (self : CheckstylePlugin.t) (pre rest : list Nit.t) :
  snd (CheckstylePlugin.iter_loop self pre) = None ->
  CheckstylePlugin.iter_loop self (pre ++ rest)
  = (fst (CheckstylePlugin.iter_loop self pre)
     ++ fst (CheckstylePlugin.iter_loop self rest),
     snd (CheckstylePlugin.iter_loop self rest)).
Proof.
  induction pre as [|nit pre IH]; simpl.
  - intros _. destruct (CheckstylePlugin.iter_loop self rest). reflexivity.
  - destruct (Nit._line_number nit) as [n|];
      destruct (CheckstylePlugin._affected_lines self) as [affected|];
      try (unfold yield_then; simpl; intros Hpre; rewrite (IH Hpre);
           reflexivity).
    destruct (PythonFile.line_range (CheckstylePlugin.python_file self) n)
      as [[start stop]|e]; [| discriminate].
    destruct (existsb _ _); unfold yield_then; simpl; intros Hpre;
      rewrite (IH Hpre); reflexivity.
Qed.

(** X13: with a line filter, iteration stops with [IndexError] at the first
    diagnostic whose anchor, 0 included, is not a line of the file: the
    diagnostics before it that pass the filter have been yielded, the
    diagnostics after it are lost. *)
Theorem plugin_iter_stops (nits : CheckstylePlugin.t -> stream Nit.t)
    (self : CheckstylePlugin.t) (affected : list Z) (pre post : list Nit.t)
    (bad : Nit.t) (n : Z) :
  CheckstylePlugin._affected_lines self = Some affected ->
  fst (nits self) = pre ++ bad :: post ->
  (forall nit m,
     In nit pre -> Nit._line_number nit = Some m ->
     1 <= m <= PythonFile.line_count (CheckstylePlugin.python_file self)) ->
  Nit._line_number bad = Some n ->
  n <= 0 \/ PythonFile.line_count (CheckstylePlugin.python_file self) < n ->
  exists yielded,
    kept (passes_filter self) pre yielded /\
    CheckstylePlugin.__iter__ nits self = (yielded, Some IndexError).
Proof.
  intros Haff Hsplit Hpre Hbad Hout.
  destruct (iter_loop_kept self pre) as [Hkept Hnone].
  { intros nit m Hin Hm _. apply (Hpre nit m); [| exact Hm].
    apply list_elem_of_In. exact Hin. }
  exists (fst (CheckstylePlugin.iter_loop self pre)).
  split; [exact Hkept |].
  unfold CheckstylePlugin.__iter__, after_source.
  rewrite Hsplit, (iter_loop_app _ _ _ Hnone).
  rewrite (iter_loop_unresolved self bad post n affected Hbad Haff)
    by lia.
  simpl. rewrite app_nil_r. reflexivity.
Qed.

Lemma iter_loop_empty (self : CheckstylePlugin.t) (nits : list Nit.t) :
  CheckstylePlugin._affected_lines self = Some [] ->
  (forall nit m,
     In nit nits -> Nit._line_number nit = Some m ->
     1 <= m <= PythonFile.line_count (CheckstylePlugin.python_file self)) ->
  CheckstylePlugin.iter_loop self nits = (List.filter unanchored nits, None).
Proof.
  intros Haff. induction nits as [|nit nits IH]; intros Hres; simpl;
    [reflexivity |].
  rewrite Haff, IH by (intros nit' m Hin; apply Hres; right; exact Hin).
  assert (Hun : unanchored nit = match Nit._line_number nit with
                                 | None => true
                                 | Some _ => false
                                 end) by reflexivity.
  destruct (Nit._line_number nit) as [m|] eqn:Hanchor;
    [| simpl; rewrite Hun; reflexivity].
  destruct (line_range_total (CheckstylePlugin.python_file self) m)
    as (start & stop & Hrange).
  { apply (Hres nit m); [left; reflexivity | exact Hanchor]. }
  rewrite Hrange.
  assert (Hnone : existsb (fun line => bool_decide (line ∈ @nil Z))
                    (range start stop) = false).
  { induction (range start stop) as [|x l IHl]; [reflexivity |].
    cbn [existsb]. apply orb_false_intro; [| exact IHl].
    apply bool_decide_eq_false_2, not_elem_of_nil. }
  rewrite Hnone. simpl. rewrite Hun. reflexivity.
Qed.

(** X14: when the line filter of a plugin returns no line at all and every
    anchor is a line of the file, iteration yields exactly the diagnostics
    without anchor. *)
Theorem plugin_iter_empty_filter (nits : CheckstylePlugin.t -> stream Nit.t)
    (pf : PythonFile.t) :
  (forall nit m,
     In nit (fst (nits (CheckstylePlugin.__init__ pf (Some (fun _ => [])))))
     -> Nit._line_number nit = Some m ->
     1 <= m <= PythonFile.line_count pf) ->
  CheckstylePlugin.__iter__ nits
    (CheckstylePlugin.__init__ pf (Some (fun _ => [])))
  = (List.filter unanchored
       (fst (nits (CheckstylePlugin.__init__ pf (Some (fun _ => []))))),
     snd (nits (CheckstylePlugin.__init__ pf (Some (fun _ => []))))).
Proof.
  intros Hres. unfold CheckstylePlugin.__iter__, after_source.
  rewrite iter_loop_empty; [reflexivity | reflexivity | exact Hres].
Qed.

Lemma iter_loop_subset (self : CheckstylePlugin.t) (nits : list Nit.t)
    (nit : Nit.t) :
  In nit (fst (CheckstylePlugin.iter_loop self nits)) -> In nit nits.
Proof.
  induction nits as [|x nits IH]; simpl; [tauto |].
  destruct (Nit._line_number x) as [n|];
    destruct (CheckstylePlugin._affected_lines self) as [affected|];
    try (simpl; intros [-> | Hin]; auto).
  destruct (PythonFile.line_range (CheckstylePlugin.python_file self) n)
    as [[start stop]|e]; [| intros []].
  destruct (existsb _ _); simpl; [intros [-> | Hin] |]; auto.
Qed.

End PluginIteration.

Lemma plugin_iter_stops_witness :
  exists yielded,
    kept (passes_filter sample_plugin)
      [sample_nit text_tail (Some 10); sample_nit text_tail (Some 5)] yielded
    /\
    CheckstylePlugin.__iter__
      (fun _ => ([sample_nit text_tail (Some 10); sample_nit text_tail (Some 5);
                  sample_nit text_tail (Some 0); sample_nit text_tail None],
                 None))
      sample_plugin
    = (yielded, Some IndexError).
Proof.
  apply (plugin_iter_stops (H := sample_host) _ sample_plugin [10]
           [sample_nit text_tail (Some 10); sample_nit text_tail (Some 5)]
           [sample_nit text_tail None] (sample_nit text_tail (Some 0)) 0).
  - reflexivity.
  - reflexivity.
  - intros nit m [<- | [<- | []]] Hm; inversion Hm; vm_compute;
      split; discriminate.
  - reflexivity.
  - left. lia.
Defined.

Lemma plugin_iter_empty_filter_witness :
  CheckstylePlugin.__iter__ sample_nits
    (CheckstylePlugin.__init__ (sample_file text_tail) (Some (fun _ => [])))
  = (List.filter unanchored
       (fst (sample_nits
               (CheckstylePlugin.__init__ (sample_file text_tail)
                  (Some (fun _ => []))))),
     snd (sample_nits
            (CheckstylePlugin.__init__ (sample_file text_tail)
               (Some (fun _ => []))))).
Proof.
  apply (plugin_iter_empty_filter (H := sample_host) sample_nits
           (sample_file text_tail)).
  intros nit m [<- | [<- | [<- | [<- | []]]]] Hm; inversion Hm; vm_compute;
    split; discriminate.
Defined.

(** ** The indentation check on any token stream *)

Lemma count_type_cons (type : token_type) (t : token) (tokens : list token) :
  count_type type (t :: tokens)
  = ((if bool_decide (tok_type t = type) then 1 else 0)
     + count_type type tokens)%nat.
Proof.
  unfold count_type. simpl.
  destruct (bool_decide (tok_type t = type)); reflexivity.
Qed.

Lemma filter_all {A : Type} (f : A -> bool) (l : list A) :
  (forall x, In x l -> f x = true) -> List.filter f l = l.
Proof.
  induction l as [|x l IH]; intros Hall; simpl; [reflexivity |].
  rewrite (Hall x) by (left; reflexivity).
  rewrite IH by (intros y Hy; apply Hall; right; exact Hy). reflexivity.
Qed.

Section IndentationStream.
Context `{Host}.

Lemma nits_loop_nit (self : CheckstylePlugin.t) (tokens : list token) :
  forall indents nit,
    In nit (fst (Indentation.nits_loop self indents tokens)) ->
    exists t step,
      In t tokens /\ tok_type t = INDENT /\ step <> 2 /\
      nit = indentation_error (CheckstylePlugin.python_file self)
              (tok_line t, step).
Proof.
  induction tokens as [|t tokens IH]; intros indents nit; simpl; [tauto |].
  destruct (bool_decide (tok_type t = INDENT)) eqn:Hi.
  - apply bool_decide_eq_true in Hi.
    assert (Hrest : forall ind,
              In nit (fst (Indentation.nits_loop self ind tokens)) ->
              exists t0 step,
                In t0 (t :: tokens) /\ tok_type t0 = INDENT /\ step <> 2 /\
                nit = indentation_error (CheckstylePlugin.python_file self)
                        (tok_line t0, step)).
    { intros ind Hin. destruct (IH ind nit Hin) as (t0 & step & Ht0 & Hrest).
      exists t0, step. split; [right; exact Ht0 | exact Hrest]. }
    destruct (bool_decide _) eqn:Hstep; [| apply Hrest].
    apply bool_decide_eq_true in Hstep.
    rewrite StyleError_Ok. unfold yield_then. simpl.
    intros [<- | Hin]; [| exact (Hrest _ Hin)].
    eexists t, _. split; [left; reflexivity |]. split; [exact Hi |].
    split; [exact Hstep | reflexivity].
  - assert (Hrest : forall ind,
              In nit (fst (Indentation.nits_loop self ind tokens)) ->
              exists t0 step,
                In t0 (t :: tokens) /\ tok_type t0 = INDENT /\ step <> 2 /\
                nit = indentation_error (CheckstylePlugin.python_file self)
                        (tok_line t0, step)).
    { intros ind Hin. destruct (IH ind nit Hin) as (t0 & step & Ht0 & Hrest).
      exists t0, step. split; [right; exact Ht0 | exact Hrest]. }
    destruct (bool_decide (tok_type t = DEDENT)); [| apply Hrest].
    destruct indents; [intros [] | apply Hrest].
Qed.

Lemma nits_loop_length (self : CheckstylePlugin.t) (tokens : list token) :
  forall indents,
    (length (fst (Indentation.nits_loop self indents tokens))
     <= count_type INDENT tokens)%nat.
Proof.
  induction tokens as [|t tokens IH]; intros indents; [simpl; lia |].
  rewrite count_type_cons. simpl Indentation.nits_loop.
  destruct (bool_decide (tok_type t = INDENT)) eqn:Hi.
  - destruct (bool_decide (_ ≠ Indentation.INDENT_LEVEL)).
    + rewrite StyleError_Ok. unfold yield_then. simpl fst. simpl length.
      specialize (IH (indents ++ [tok_text t])). lia.
    + specialize (IH (indents ++ [tok_text t])). lia.
  - destruct (bool_decide (tok_type t = DEDENT)); [| apply IH].
    destruct indents; [simpl; lia | apply IH].
Qed.

(** X15: on any token stream, every diagnostic of the indentation plugin
    is an error on the plugin's file, anchored at the row of an INDENT
    token of the stream, whose message reports a step other than 2; there
    are at most as many diagnostics as INDENT tokens; and [errors()] of the
    plugin yields what its iteration yields. *)
Theorem indentation_nits_shape (self : CheckstylePlugin.t) :
  (forall nit,
     In nit (fst (Indentation.nits self)) ->
     Nit.severity nit = Nit.ERROR /\
     Nit.python_file nit = CheckstylePlugin.python_file self /\
     exists t step,
       In t (fst (PythonFile.tokens (CheckstylePlugin.python_file self))) /\
       tok_type t = INDENT /\ step <> 2 /\
       Nit._line_number nit = Some (tok_line t) /\
       Nit._message nit
       = "Indentation of " +:+ format_d step +:+ " instead of 2") /\
  (length (fst (Indentation.nits self))
   <= count_type INDENT
        (fst (PythonFile.tokens (CheckstylePlugin.python_file self))))%nat /\
  CheckstylePlugin.errors Indentation.nits self
  = CheckstylePlugin.__iter__ Indentation.nits self.
Proof.
  assert (Hshape : forall nit,
     In nit (fst (Indentation.nits self)) ->
     Nit.severity nit = Nit.ERROR /\
     Nit.python_file nit = CheckstylePlugin.python_file self /\
     exists t step,
       In t (fst (PythonFile.tokens (CheckstylePlugin.python_file self))) /\
       tok_type t = INDENT /\ step <> 2 /\
       Nit._line_number nit = Some (tok_line t) /\
       Nit._message nit
       = "Indentation of " +:+ format_d step +:+ " instead of 2").
  { intros nit Hin. unfold Indentation.nits, after_source in Hin.
    simpl in Hin.
    destruct (nits_loop_nit _ _ _ _ Hin) as (t & step & Ht & Hi & Hstep & ->).
    split; [reflexivity |]. split; [reflexivity |].
    exists t, step. auto. }
  split; [exact Hshape |]. split.
  - unfold Indentation.nits, after_source. simpl. apply nits_loop_length.
  - unfold CheckstylePlugin.errors.
    rewrite filter_all.
    + destruct (CheckstylePlugin.__iter__ Indentation.nits self). reflexivity.
    + intros nit Hin. unfold CheckstylePlugin.__iter__, after_source in Hin.
      simpl in Hin. apply iter_loop_subset in Hin.
      destruct (Hshape nit Hin) as [-> _]. reflexivity.
Qed.

Lemma nits_loop_snd_cons (self : CheckstylePlugin.t) (indents : list string)
    (t : token) (tokens : list token) :
  snd (Indentation.nits_loop self indents (t :: tokens))
  = if bool_decide (tok_type t = INDENT) then
      snd (Indentation.nits_loop self (indents ++ [tok_text t]) tokens)
    else if bool_decide (tok_type t = DEDENT) then
      match indents with
      | [] => Some IndexError
      | _ :: _ => snd (Indentation.nits_loop self (removelast indents) tokens)
      end
    else snd (Indentation.nits_loop self indents tokens).
Proof.
  simpl. destruct (bool_decide (tok_type t = INDENT)).
  - destruct (bool_decide (_ ≠ Indentation.INDENT_LEVEL)); [| reflexivity].
    rewrite StyleError_Ok. reflexivity.
  - destruct (bool_decide (tok_type t = DEDENT)); [| reflexivity].
    destruct indents; reflexivity.
Qed.

Lemma nits_loop_exn (self : CheckstylePlugin.t) (tokens : list token) :
  forall indents,
    ((exists k,
        (count_type DEDENT (take k tokens)
         > length indents + count_type INDENT (take k tokens))%nat) ->
     snd (Indentation.nits_loop self indents tokens) = Some IndexError) /\
    ((forall k,
        (count_type DEDENT (take k tokens)
         <= length indents + count_type INDENT (take k tokens))%nat) ->
     snd (Indentation.nits_loop self indents tokens) = None).
Proof.
  induction tokens as [|t tokens IH]; intros indents.
  - split; [| reflexivity].
    intros [k Hk]. rewrite take_nil in Hk. unfold count_type in Hk.
    simpl in Hk. lia.
  - assert (Hstep : forall k,
              count_type DEDENT (take (S k) (t :: tokens))
              = ((if bool_decide (tok_type t = DEDENT) then 1 else 0)
                 + count_type DEDENT (take k tokens))%nat /\
              count_type INDENT (take (S k) (t :: tokens))
              = ((if bool_decide (tok_type t = INDENT) then 1 else 0)
                 + count_type INDENT (take k tokens))%nat).
    { intros k. simpl take. rewrite !count_type_cons. split; reflexivity. }
    assert (Hdown : forall indents' b,
              (exists k,
                 (count_type DEDENT (take k (t :: tokens))
                  > length indents + count_type INDENT (take k (t :: tokens)))%nat)
              -> (forall k,
                    (count_type DEDENT (take (S k) (t :: tokens))
                     > length indents
                       + count_type INDENT (take (S k) (t :: tokens)))%nat ->
                    (count_type DEDENT (take k tokens)
                     > length indents' + count_type INDENT (take k tokens))%nat)
              -> snd (Indentation.nits_loop self indents' tokens) = b ->
              b = Some IndexError).
    { intros indents' b [k Hk] Hconv Hb. destruct k as [|k].
      - unfold count_type in Hk. simpl in Hk. lia.
      - rewrite <- Hb. apply (IH indents'). exists k. apply Hconv. exact Hk. }
    rewrite nits_loop_snd_cons.
    destruct (bool_decide (tok_type t = INDENT)) eqn:Hi.
    + assert (Hd : bool_decide (tok_type t = DEDENT) = false).
      { apply bool_decide_eq_true in Hi. apply bool_decide_eq_false_2.
        congruence. }
      assert (Hlen : length (indents ++ [tok_text t]) = S (length indents))
        by (rewrite length_app; simpl; lia).
      split.
      * intros Hex. apply (Hdown (indents ++ [tok_text t]) _ Hex);
          [| reflexivity].
        intros k Hk. destruct (Hstep k) as [HD HI].
        rewrite HD, HI in Hk; rewrite ?Hi, ?Hd in Hk. rewrite Hlen. lia.
      * intros Hall. apply (IH (indents ++ [tok_text t])). intros k.
        specialize (Hall (S k)). destruct (Hstep k) as [HD HI].
        rewrite HD, HI in Hall; rewrite ?Hi, ?Hd in Hall. rewrite Hlen. lia.
    + destruct (bool_decide (tok_type t = DEDENT)) eqn:Hd.
      * destruct indents as [|x indents] using rev_ind.
        -- split; [reflexivity |].
           intros Hall. specialize (Hall 1%nat).
           destruct (Hstep O) as [HD HI]. rewrite HD, HI in Hall; rewrite ?Hi, ?Hd in Hall.
           rewrite take_0 in Hall. unfold count_type in Hall. simpl in Hall.
           lia.
        -- clear IHindents.
           assert (Hlen : length (indents ++ [x]) = S (length indents))
             by (rewrite length_app; simpl; lia).
           destruct (indents ++ [x]) as [|y l] eqn:Heq;
             [destruct indents; discriminate |].
           rewrite <- Heq, removelast_last. split.
           ++ intros Hex. rewrite Heq in Hex.
              apply (Hdown indents _ Hex); [| reflexivity].
              intros k Hk. destruct (Hstep k) as [HD HI].
              rewrite HD, HI in Hk; rewrite ?Hi, ?Hd, ?Hlen in Hk. lia.
           ++ intros Hall. apply (IH indents). intros k.
              specialize (Hall (S k)). destruct (Hstep k) as [HD HI].
              rewrite Heq in Hall.
              rewrite HD, HI in Hall; rewrite ?Hi, ?Hd, ?Hlen in Hall. lia.
      * split.
        -- intros Hex. apply (Hdown indents _ Hex); [| reflexivity].
           intros k Hk. destruct (Hstep k) as [HD HI].
           rewrite HD, HI in Hk; rewrite ?Hi, ?Hd in Hk. lia.
        -- intros Hall. apply (IH indents). intros k.
           specialize (Hall (S k)). destruct (Hstep k) as [HD HI].
           rewrite HD, HI in Hall; rewrite ?Hi, ?Hd in Hall. lia.
Qed.

End IndentationStream.

Section IndentationRuns.
Context `{Host}.

(** X16: the indentation plugin raises [IndexError] whenever, at some
    point of the token stream, more DEDENT tokens than INDENT tokens have
    been met; when that never happens its [nits] method ends as the token
    stream ends. *)
Theorem indentation_underflow (self : CheckstylePlugin.t) :
  ((exists k,
      (count_type DEDENT
         (take k (fst (PythonFile.tokens (CheckstylePlugin.python_file self))))
       > count_type INDENT
           (take k (fst (PythonFile.tokens
                           (CheckstylePlugin.python_file self)))))%nat) ->
   snd (Indentation.nits self) = Some IndexError) /\
  ((forall k,
      (count_type DEDENT
         (take k (fst (PythonFile.tokens (CheckstylePlugin.python_file self))))
       <= count_type INDENT
            (take k (fst (PythonFile.tokens
                            (CheckstylePlugin.python_file self)))))%nat) ->
   snd (Indentation.nits self)
   = snd (PythonFile.tokens (CheckstylePlugin.python_file self))).
Proof.
  unfold Indentation.nits, after_source. cbn [snd].
  destruct (nits_loop_exn self
              (fst (PythonFile.tokens (CheckstylePlugin.python_file self))) [])
    as [Hraise Hquiet].
  split.
  - intros [k Hk]. rewrite Hraise; [reflexivity |]. exists k. simpl. lia.
  - intros Hall. rewrite Hquiet; [reflexivity |].
    intros k. specialize (Hall k). simpl. lia.
Qed.

(** X17: when the DEDENT tokens never outnumber the INDENT tokens and every
    INDENT token is on a line of the file, iterating the indentation plugin
    with or without line filter raises nothing of its own: it yields the
    diagnostics of [nits()] that pass the filter, in order, and ends as the
    token stream ends. *)
Theorem indentation_iter_filtered (self : CheckstylePlugin.t) :
  (forall k,
     (count_type DEDENT
        (take k (fst (PythonFile.tokens (CheckstylePlugin.python_file self))))
      <= count_type INDENT
           (take k (fst (PythonFile.tokens
                           (CheckstylePlugin.python_file self)))))%nat) ->
  (forall t,
     In t (fst (PythonFile.tokens (CheckstylePlugin.python_file self))) ->
     tok_type t = INDENT ->
     1 <= tok_line t
       <= PythonFile.line_count (CheckstylePlugin.python_file self)) ->
  kept (passes_filter self) (fst (Indentation.nits self))
    (fst (CheckstylePlugin.__iter__ Indentation.nits self)) /\
  snd (CheckstylePlugin.__iter__ Indentation.nits self)
  = snd (PythonFile.tokens (CheckstylePlugin.python_file self)).
Proof.
  intros Hbalanced Hrows.
  assert (Hend : snd (Indentation.nits self)
                 = snd (PythonFile.tokens (CheckstylePlugin.python_file self))).
  { unfold Indentation.nits, after_source. cbn [snd].
    rewrite (proj2 (nits_loop_exn self _ [])); [reflexivity |].
    intros k. specialize (Hbalanced k). simpl. lia. }
  destruct (iter_loop_kept self (fst (Indentation.nits self)))
    as [Hkept Hnone].
  { intros nit n Hin Hanchor _. apply list_elem_of_In in Hin.
    unfold Indentation.nits, after_source in Hin. simpl in Hin.
    destruct (nits_loop_nit _ _ _ _ Hin) as (t & step & Ht & Hi & _ & ->).
    simpl in Hanchor. inversion Hanchor; subst. exact (Hrows t Ht Hi). }
  unfold CheckstylePlugin.__iter__, after_source. cbn [fst snd].
  rewrite Hnone. split; [exact Hkept | exact Hend].
Qed.

End IndentationRuns.

Lemma balanced_by_computation (tokens : list token) :
  forallb (fun k => (count_type DEDENT (take k tokens)
                     <=? count_type INDENT (take k tokens))%nat)
    (seq 0 (S (length tokens))) = true ->
  forall k,
    (count_type DEDENT (take k tokens)
     <= count_type INDENT (take k tokens))%nat.
Proof.
  intros Hall k. rewrite forallb_forall in Hall.
  destruct (le_lt_dec k (length tokens)) as [Hle | Hgt].
  - apply Nat.leb_le, Hall, in_seq. lia.
  - rewrite take_ge by lia.
    specialize (Hall (length tokens)).
    rewrite firstn_all in Hall. apply Nat.leb_le, Hall, in_seq. lia.
Qed.

Lemma indentation_underflow_witness :
  snd (Indentation.nits (sample_indentation text_indent2))
  = snd (PythonFile.tokens (H := sample_host)
           (CheckstylePlugin.python_file (sample_indentation text_indent2))).
Proof.
  apply (indentation_underflow (H := sample_host)
           (sample_indentation text_indent2)).
  apply balanced_by_computation. vm_compute. reflexivity.
Defined.

Lemma indentation_iter_filtered_witness :
  kept
    (passes_filter
       (CheckstylePlugin.__init__ (sample_file text_indent4)
          (Some (fun _ => [1]))))
    (fst (Indentation.nits
            (CheckstylePlugin.__init__ (sample_file text_indent4)
               (Some (fun _ => [1])))))
    (fst (CheckstylePlugin.__iter__ Indentation.nits
            (CheckstylePlugin.__init__ (sample_file text_indent4)
               (Some (fun _ => [1]))))) /\
  snd (CheckstylePlugin.__iter__ Indentation.nits
         (CheckstylePlugin.__init__ (sample_file text_indent4)
            (Some (fun _ => [1]))))
  = snd (PythonFile.tokens (H := sample_host) (sample_file text_indent4)).
Proof.
  apply (indentation_iter_filtered (H := sample_host)
           (CheckstylePlugin.__init__ (sample_file text_indent4)
              (Some (fun _ => [1])))).
  - apply balanced_by_computation. vm_compute. reflexivity.
  - intros t Hin Hi. vm_compute in Hin.
    repeat (destruct Hin as [<- | Hin];
            [try discriminate Hi; vm_compute; split; discriminate |]).
    destruct Hin.
Defined.

(** The error on line 2 of the four-column sample is suppressed when only
    line 1 is affected and yielded when line 2 is. *)
Example indentation_iter_examples :
  CheckstylePlugin.__iter__ Indentation.nits
    (CheckstylePlugin.__init__ (sample_file text_indent4)
       (Some (fun _ => [1])))
  = ([], None) /\
  CheckstylePlugin.__iter__ Indentation.nits
    (CheckstylePlugin.__init__ (sample_file text_indent4)
       (Some (fun _ => [2])))
  = ([indentation_error (sample_file text_indent4) (2, 4)], None).
Proof. split; vm_compute; reflexivity. Qed.

(** ** Logical lines on streams that follow the conventions *)

Section ConventionFacts.
Context `{Host}.

(** X18: on a text whose tokens follow the line-feed conventions,
    [line_range] answers every line number of the file with a span that
    starts at that line, is not empty and ends in the file. *)
Theorem line_range_lf_in_file (blob filename : string) (pf : PythonFile.t)
    (n : Z) :
  PythonFile.__init__ blob filename = Ok pf ->
  lf_stream (Z.of_nat (length (splitlines blob)))
    (fst (generate_tokens blob)) = true ->
  1 <= n <= Z.of_nat (length (splitlines blob)) ->
  exists start stop,
    PythonFile.line_range pf n = Ok (start, stop) /\
    start = n /\ 1 <= start <= Z.of_nat (length (splitlines blob)) /\
    start < stop /\ stop <= Z.of_nat (length (splitlines blob)) + 1.
Proof.
  intros Hinit Hlf Hn.
  pose proof (init_line_count _ _ _ Hinit) as Hcount.
  rewrite <- Hcount in Hlf, Hn.
  destruct (lf_line_range_bounds blob filename pf n Hinit Hlf Hn)
    as (start & stop & Hrange & -> & Hlt & Hstop).
  exists n, stop. rewrite <- Hcount.
  split; [exact Hrange |]. split; [reflexivity |]. split; [lia |].
  split; [exact Hlt | exact Hstop].
Qed.

End ConventionFacts.

Lemma line_range_lf_in_file_witness :
  exists start stop,
    PythonFile.line_range (sample_file text_tail) 9 = Ok (start, stop) /\
    start = 9 /\
    1 <= start
      <= Z.of_nat (length (splitlines (Host := sample_host) text_tail)) /\
    start < stop /\
    stop <= Z.of_nat (length (splitlines (Host := sample_host) text_tail)) + 1.
Proof.
  apply (line_range_lf_in_file (H := sample_host) text_tail "sample.py"
           (sample_file text_tail) 9).
  - vm_compute. reflexivity.
  - vm_compute. reflexivity.
  - vm_compute. split; discriminate.
Defined.




(** The statement of lines 9 to 11 of the sample is the run from the NAME
    token on row 9 to the NEWLINE token on row 11; on the text with a
    backslash line before a blank line the last buffer begins with a
    NEWLINE token on row 2 and the builder raises at the ENDMARKER. *)
Example run_span_examples :
  map span_of (fst (PythonFile.logical_lines_loop [] None text_tail_tokens))
  = [(1, 2); (2, 3); (3, 4); (4, 5); (5, 6); (6, 7); (7, 8); (8, 9); (9, 12)] /\
  run_span (Token NAME "b" (9, 0), [], Token NEWLINE LF (11, 3)) = (9, 12) /\
  run_span (Token NEWLINE LF (2, 1), [], Token ENDMARKER EmptyString (4, 0))
  = (3, 4).
Proof. repeat split; vm_compute; reflexivity. Qed.

(** ** Token streams on which the index builder does not fail *)

Lemma body_text_find (contents : list string) (x : string) :
  existsb (fun c => truthy c && not_LF c) contents = true ->
  exists c, List.find not_LF (filter_None (contents ++ [x])) = Some c.
Proof.
  intros Hex. apply existsb_exists in Hex as (c & Hin & Hc).
  apply andb_prop in Hc as [Htruthy Hnot].
  apply (find_not_LF_In _ c).
  - unfold filter_None. apply filter_In. split; [| exact Htruthy].
    apply in_or_app. left. exact Hin.
  - unfold not_LF in Hnot. apply negb_true_iff in Hnot. exact Hnot.
Qed.

Lemma body_text_In (contents : list string) (p : token) :
  In (tok_text p) contents -> body_text p = true ->
  existsb (fun c => truthy c && not_LF c) contents = true.
Proof.
  intros Hin Hp. apply existsb_exists. exists (tok_text p).
  split; [exact Hin | exact Hp].
Qed.

(** The loop does not fail from a state that the window condition
    describes: after a yield the last token read has a text that does not
    count; while buffering, the text of the last token read is in the
    buffer, and a buffer without a text that counts was not begun right
    after one. *)
Lemma loop_never_raises (tokens : list token) :
  forall (contents : list string) (start : option Z) (before : bool)
         (prev : option token),
    Forall (fun t => significant t = true) tokens ->
    plain_terminators tokens = true ->
    closes_well before prev tokens = true ->
    match start with
    | None =>
        match prev with
        | Some p => body_text p = false
        | None => True
        end
    | Some _ =>
        exists p, prev = Some p /\ In (tok_text p) contents /\
                  (existsb (fun c => truthy c && not_LF c) contents = false ->
                   before = false)
    end ->
    snd (PythonFile.logical_lines_loop contents start tokens) = None.
Proof.
  induction tokens as [|t tokens IH];
    intros contents start before prev Hsig Hplain Hwell Hinv.
  - reflexivity.
  - inversion Hsig as [|? ? Ht Hrest]; subst.
    rewrite loop_significant by exact Ht.
    simpl in Hplain. apply andb_prop in Hplain as [Hplain_t Hplain].
    simpl in Hwell. apply andb_prop in Hwell as [Hhere Hwell].
    destruct start as [start|].
    + destruct Hinv as (p & -> & Hp & Hbefore).
      destruct (terminator t) eqn:Hterm.
      * assert (Hbody : existsb (fun c => truthy c && not_LF c) contents
                        = true).
        { apply orb_prop in Hhere as [Hpb | Hpt].
          - exact (body_text_In _ _ Hp Hpb).
          - apply andb_prop in Hpt as [_ Hb].
            destruct (existsb _ contents) eqn:Hex; [reflexivity |].
            rewrite (Hbefore eq_refl) in Hb. discriminate Hb. }
        destruct (body_text_find contents (tok_text t) Hbody) as [c Hc].
        rewrite translate_logical_line_find, Hc.
        unfold yield_then. simpl snd.
        apply (IH [] None (body_text p) (Some t)); try assumption.
        simpl in Hplain_t. destruct (body_text t); [discriminate | reflexivity].
      * apply (IH _ _ (body_text p) (Some t)); try assumption.
        exists t. split; [reflexivity |].
        split; [apply in_or_app; right; left; reflexivity |].
        rewrite existsb_app. intros Hex.
        apply orb_false_elim in Hex as [Hex _].
        destruct (body_text p) eqn:Hpb; [| reflexivity].
        rewrite (body_text_In _ _ Hp Hpb) in Hex. discriminate Hex.
    + apply (IH _ _ (match prev with
                     | Some p => body_text p
                     | None => false
                     end) (Some t)); try assumption.
      exists t. split; [reflexivity |].
      split; [apply in_or_app; right; left; reflexivity |].
      intros _. destruct prev as [p|]; [exact Hinv | reflexivity].
Qed.

Section Construction.
Context `{Host}.

(** X20: the constructor returns a file whenever the text parses, the
    tokenizer ends without an error, the texts of the NEWLINE and ENDMARKER
    tokens are ['\n'] or empty, and each of these tokens comes right after
    a token whose text is neither, or right after a NEWLINE or ENDMARKER
    token that does (COMMENT, NL and DEDENT tokens left out).  The index of
    the file then holds every logical line of the stream. *)
Theorem init_succeeds (blob filename : string) (tree : ast)
    (tokens : list token) :
  ast_parse blob filename = Ok tree ->
  generate_tokens blob = (tokens, None) ->
  plain_terminators (List.filter significant tokens) = true ->
  closes_well false None (List.filter significant tokens) = true ->
  PythonFile.iter_logical_lines blob
    = (fst (PythonFile.logical_lines_loop [] None tokens), None) /\
  exists pf,
    PythonFile.__init__ blob filename = Ok pf /\
    PythonFile._blob pf = blob /\
    PythonFile._filename pf = filename /\
    PythonFile._lines pf = None :: map Some (splitlines blob) /\
    forall start stop indent,
      In (start, stop, indent)
        (fst (PythonFile.logical_lines_loop [] None tokens)) ->
      exists stop' indent',
        PythonFile._logical_lines pf !! start = Some (start, stop', indent').
Proof.
  intros Hparse Htokens Hplain Hwell.
  assert (Hnone : snd (PythonFile.logical_lines_loop [] None tokens) = None).
  { rewrite loop_filter_significant.
    apply (loop_never_raises _ [] None false None); try assumption.
    - apply Forall_forall. intros t Hin. apply list_elem_of_In in Hin.
      apply filter_In in Hin as [_ Hsig]. exact Hsig.
    - exact I. }
  assert (Hiter : PythonFile.iter_logical_lines blob
                  = (fst (PythonFile.logical_lines_loop [] None tokens), None)).
  { unfold PythonFile.iter_logical_lines, PythonFile.iter_tokens.
    rewrite Htokens. unfold after_source. simpl.
    destruct (PythonFile.logical_lines_loop [] None tokens) as [ls e] eqn:Hl.
    simpl in Hnone. subst e. reflexivity. }
  split; [exact Hiter |].
  unfold PythonFile.__init__. rewrite Hparse, Hiter. simpl.
  eexists. split; [reflexivity |]. simpl.
  split; [reflexivity |]. split; [reflexivity |]. split; [reflexivity |].
  intros start stop indent Hin.
  fold (index_pairs (fst (PythonFile.logical_lines_loop [] None tokens))).
  destruct (dict (index_pairs _) !! start) as [[[s e] i]|] eqn:Hlook.
  - apply dict_lookup_Some, elem_of_index_pairs in Hlook as [_ Hkey].
    simpl in Hkey. subst s. exists e, i. reflexivity.
  - exfalso. rewrite dict_lookup_None in Hlook.
    apply (Hlook (start, stop, indent)). apply elem_of_index_pairs.
    split; [apply list_elem_of_In; exact Hin | reflexivity].
Qed.

End Construction.

Lemma init_succeeds_witness :
  PythonFile.iter_logical_lines (H := sample_host) text_tail
    = (fst (PythonFile.logical_lines_loop [] None text_tail_tokens), None) /\
  exists pf,
    PythonFile.__init__ (H := sample_host) text_tail "sample.py" = Ok pf /\
    PythonFile._blob pf = text_tail /\
    PythonFile._filename pf = "sample.py" /\
    PythonFile._lines pf
      = None :: map Some (splitlines (Host := sample_host) text_tail) /\
    forall start stop indent,
      In (start, stop, indent)
        (fst (PythonFile.logical_lines_loop [] None text_tail_tokens)) ->
      exists stop' indent',
        PythonFile._logical_lines pf !! start = Some (start, stop', indent').
Proof.
  apply (init_succeeds (H := sample_host) text_tail "sample.py" tt
           text_tail_tokens).
  - vm_compute. reflexivity.
  - vm_compute. reflexivity.
  - vm_compute. reflexivity.
  - vm_compute. reflexivity.
Defined.

(** The window condition holds on the sample texts that the constructor
    accepts, and fails on the text with a backslash line before a blank
    line, where the constructor raises. *)
Example closes_well_examples :
  map (fun tokens => closes_well false None (List.filter significant tokens))
    [text_assign_tokens; text_crlf_tokens; text_paren_tokens; text_indent4_tokens;
     text_tail_tokens; text_backslash_tokens]
  = [true; true; true; true; true; false].
Proof. vm_compute. reflexivity. Qed.
